(** * charts_screenshot: the capture routine, the aggregator and the pipeline

  A shallow embedding of [config.py], [tradingview_scraper.py] and
  [screenshot_pipeline.py].  The browser-automation engine, the job
  scheduler and the operating system are collaborators: every request the
  code sends them is answered by an environment that decides whether the
  request returns or raises.  Everything proved below holds for every
  environment unless a hypothesis says otherwise. *)

From Stdlib Require Import List String Ascii Bool Arith NArith Lia DecimalString.
Import ListNotations.
Open Scope string_scope.

Set Implicit Arguments.

(** ** Strings *)

Module Str.

(** The double quote and the newline, which string literals here do not
    spell. *)
Definition dq : string := String "034"%char EmptyString.
Definition nl : string := String "010"%char EmptyString.

Definition slash : ascii := "/"%char.

(** [s.split(sep)] on a one-character separator. *)
Fixpoint split_on (sep : ascii) (s : string) : list string :=
  match s with
  | EmptyString => [EmptyString]
  | String c s' =>
      if Ascii.eqb c sep then EmptyString :: split_on sep s'
      else match split_on sep s' with
           | [] => [String c EmptyString]
           | h :: t => String c h :: t
           end
  end.

(** [sep not in s]. *)
Fixpoint lacks (sep : ascii) (s : string) : bool :=
  match s with
  | EmptyString => true
  | String c s' => negb (Ascii.eqb c sep) && lacks sep s'
  end.

(** [sep.join(parts)]. *)
Fixpoint join (sep : string) (parts : list string) : string :=
  match parts with
  | [] => ""
  | [p] => p
  | p :: rest => p ++ sep ++ join sep rest
  end.

(** [str(n)] for a non-negative integer. *)
Definition of_nat (n : nat) : string := NilZero.string_of_uint (Nat.to_uint n).

Definition digit (n : nat) : ascii := ascii_of_nat (48 + n mod 10).

(** [%02d] and [%04d]. *)
Definition pad2 (n : nat) : string :=
  String (digit (n / 10)) (String (digit n) EmptyString).
Definition pad4 (n : nat) : string :=
  String (digit (n / 1000)) (String (digit (n / 100)) (pad2 n)).

End Str.

(** ** Python dictionaries

  A [dict] keeps its keys in insertion order; [d[k] = v] replaces the value
  of a key already present and appends a new key otherwise. *)

Module Dict.
Section Dict.
Variable V : Type.

Definition t := list (string * V).

Definition keys (d : t) : list string := map fst d.
Definition values (d : t) : list V := map snd d.
Definition items (d : t) : list (string * V) := d.

Fixpoint get (d : t) (k : string) : option V :=
  match d with
  | [] => None
  | (k', v) :: d' => if String.eqb k k' then Some v else get d' k
  end.

Fixpoint set (d : t) (k : string) (v : V) : t :=
  match d with
  | [] => [(k, v)]
  | (k', v') :: d' =>
      if String.eqb k k' then (k', v) :: d' else (k', v') :: set d' k v
  end.

(** What a dict literal or any sequence of assignments maintains. *)
Definition wf (d : t) : Prop := NoDup (keys d).

End Dict.
End Dict.

(** ** pathlib on a POSIX system *)

Module Pathlib.

(** A pure path: its root ([""], ["/"] or ["//"]) and its components. *)
Record Path : Type := mkPath { root : string; parts : list string }.

Definition is_component (s : string) : bool :=
  negb (String.eqb s "") && negb (String.eqb s ".").

(** The root of a path string: one slash, except that exactly two leading
    slashes are kept. *)
Definition parse_root (s : string) : string :=
  match s with
  | String "/" (String "/" (String "/" _)) => "/"
  | String "/" (String "/" _) => "//"
  | String "/" _ => "/"
  | _ => ""
  end.

(** [Path(s)]: empty components and [.] components are dropped. *)
Definition parse (s : string) : Path :=
  mkPath (parse_root s) (filter is_component (Str.split_on Str.slash s)).

(** [p / s]: an absolute right operand replaces the left one. *)
Definition join (p : Path) (s : string) : Path :=
  let q := parse s in
  if String.eqb (root q) "" then mkPath (root p) (parts p ++ parts q) else q.

(** [str(p)]. *)
Definition str (p : Path) : string :=
  match root p, parts p with
  | EmptyString, [] => "."
  | r, ps => r ++ Str.join "/" ps
  end.

(** [p.name] and [p.parent]. *)
Definition name (p : Path) : string := last (parts p) "".
Definition parent (p : Path) : Path := mkPath (root p) (removelast (parts p)).

(** The path with parent [p] and final component [n]. *)
Definition child (p : Path) (n : string) : Path :=
  mkPath (root p) (parts p ++ [n]).

(** What every path object satisfies: its root is one of the three roots and
    its components are non-empty, are not [.], and hold no slash. *)
Definition wf (p : Path) : bool :=
  (String.eqb (root p) "" || String.eqb (root p) "/" || String.eqb (root p) "//")
  && forallb (fun s => Str.lacks Str.slash s && is_component s) (parts p).

End Pathlib.

(** ** datetime *)

Module Datetime.

Record datetime : Type := mkDatetime {
  year : nat; month : nat; day : nat;
  hour : nat; minute : nat; second : nat;
  microsecond : nat
}.

(** One [%] directive of [strftime]. *)
Definition directive (d : ascii) (t : datetime) : string :=
  match d with
  | "Y"%char => Str.pad4 (year t)
  | "m"%char => Str.pad2 (month t)
  | "d"%char => Str.pad2 (day t)
  | "H"%char => Str.pad2 (hour t)
  | "M"%char => Str.pad2 (minute t)
  | "S"%char => Str.pad2 (second t)
  | "%"%char => "%"
  | c => String "%" (String c EmptyString)
  end.

(** [t.strftime(fmt)] for the directives above. *)
Fixpoint strftime (fmt : string) (t : datetime) : string :=
  match fmt with
  | EmptyString => EmptyString
  | String c rest =>
      match rest with
      | String d rest' =>
          if Ascii.eqb c "%" then directive d t ++ strftime rest' t
          else String c (strftime rest t)
      | EmptyString => String c EmptyString
      end
  end.

End Datetime.

(** ** config.py *)

Module Config.

Definition CRYPTO_SYMBOLS : Dict.t string :=
  [ ("BTC", "https://www.tradingview.com/chart/?symbol=BINANCE%3ABTCUSDT");
    ("ETH", "https://www.tradingview.com/chart/?symbol=BINANCE%3AETHUSDT");
    ("SOL", "https://www.tradingview.com/chart/?symbol=BINANCE%3ASOLUSDT") ].

Definition SCREENSHOT_WIDTH : N := 1920.
Definition SCREENSHOT_HEIGHT : N := 1080.
Definition SCREENSHOT_QUALITY : N := 100.

Definition BROWSER_HEADLESS : bool := true.
Definition BROWSER_TIMEOUT : N := 30000.

Definition SCREENSHOT_INTERVAL_MINUTES : N := 1.

Definition TIMESTAMP_FORMAT : string := "%Y%m%d_%H%M%S".

(** [BASE_DIR] is the directory of the installed [config.py]; it is a
    parameter of everything that uses the two directories. *)
Definition SCREENSHOTS_DIR (BASE_DIR : Pathlib.Path) : Pathlib.Path :=
  Pathlib.join BASE_DIR "screenshots".
Definition LOGS_DIR (BASE_DIR : Pathlib.Path) : Pathlib.Path :=
  Pathlib.join BASE_DIR "logs".

End Config.

(** ** The runtime: exceptions, collaborators, the world *)

Module Py.

(** The three kinds of exception the handlers of this program tell apart:
    instances of [Exception], [KeyboardInterrupt], and the other direct
    descendants of [BaseException] (task cancellation and the like). *)
Inductive exc_class : Type :=
| ExceptionClass
| KeyboardInterruptClass
| OtherBaseExceptionClass.

(** An exception is the [RuntimeError] that [capture_screenshot] raises
    itself, or one raised inside a collaborator. *)
Inductive exc : Type :=
| BrowserNotInitialized
| Raised (c : exc_class) (msg : string).

Definition isinstance_Exception (e : exc) : bool :=
  match e with
  | BrowserNotInitialized => true
  | Raised ExceptionClass _ => true
  | Raised _ _ => false
  end.

Definition isinstance_KeyboardInterrupt (e : exc) : bool :=
  match e with
  | Raised KeyboardInterruptClass _ => true
  | _ => false
  end.

(** [str(e)]. *)
Definition exc_str (e : exc) : string :=
  match e with
  | BrowserNotInitialized => "Browser not initialized. Call start_browser() first."
  | Raised _ msg => msg
  end.

(** How a coroutine ends: it returns, it raises, or it is still going when
    the model's fuel for the idle loop is spent. *)
Inductive result (A : Type) : Type :=
| Return (a : A)
| Raise (e : exc)
| Diverge.
Arguments Raise {A} e.
Arguments Diverge {A}.

(** The requests the code sends to its collaborators.  Browsers and pages
    are named by handles. *)
Inductive request : Type :=
| PlaywrightStart
| Launch (headless : bool) (args : list string)
| BrowserClose (b : nat)
| NewPage (b : nat)
| SetViewportSize (p : nat) (width height : N)
| Goto (p : nat) (url : string) (timeout : N)
| WaitForSelector (p : nat) (selector : string) (timeout : N)
| AsyncioSleep (seconds : N)
| Evaluate (p : nat) (script : string)
| Screenshot (p : nat) (path : string) (full_page : bool)
| PageClose (p : nat)
| AddJob (id name : string) (minutes max_instances : N)
| SchedulerStart
| SchedulerShutdown.

(** The environment answers the [n]-th request with [None] (it returns) or
    [Some e] (it raises [e]), tells the time, and may deliver a signal while
    the request is pending. *)
Record env : Type := mkEnv {
  respond : nat -> request -> option (exc_class * string);
  now : nat -> Datetime.datetime;
  signal : nat -> option nat
}.

Inductive level : Type := INFO | WARNING | ERROR.
Inductive logger : Type := ScraperLogger | PipelineLogger.

Record world : Type := mkWorld {
  browser : option nat;            (* scraper.browser *)
  running : bool;                  (* pipeline.running *)
  scheduler_running : bool;        (* pipeline.scheduler.running *)
  jobs : list (string * N);        (* jobs added: id and max_instances *)
  pages : list nat;                (* pages open in the browser *)
  files : list string;             (* screenshots written *)
  log : list (logger * level * string);
  stdout : list string;
  steps : nat;                     (* requests sent so far *)
  trace : list (request * option exc)  (* the requests and their answers *)
}.

Definition set_browser (b : option nat) (w : world) : world :=
  mkWorld b (running w) (scheduler_running w) (jobs w) (pages w) (files w)
          (log w) (stdout w) (steps w) (trace w).
Definition set_running (r : bool) (w : world) : world :=
  mkWorld (browser w) r (scheduler_running w) (jobs w) (pages w) (files w)
          (log w) (stdout w) (steps w) (trace w).
Definition set_scheduler_running (r : bool) (w : world) : world :=
  mkWorld (browser w) (running w) r (jobs w) (pages w) (files w)
          (log w) (stdout w) (steps w) (trace w).
Definition set_jobs (j : list (string * N)) (w : world) : world :=
  mkWorld (browser w) (running w) (scheduler_running w) j (pages w) (files w)
          (log w) (stdout w) (steps w) (trace w).
Definition set_pages (p : list nat) (w : world) : world :=
  mkWorld (browser w) (running w) (scheduler_running w) (jobs w) p (files w)
          (log w) (stdout w) (steps w) (trace w).
Definition set_files (f : list string) (w : world) : world :=
  mkWorld (browser w) (running w) (scheduler_running w) (jobs w) (pages w) f
          (log w) (stdout w) (steps w) (trace w).
Definition add_log (l : logger) (lv : level) (msg : string) (w : world) : world :=
  mkWorld (browser w) (running w) (scheduler_running w) (jobs w) (pages w)
          (files w) (log w ++ [(l, lv, msg)]) (stdout w) (steps w) (trace w).
Definition add_stdout (line : string) (w : world) : world :=
  mkWorld (browser w) (running w) (scheduler_running w) (jobs w) (pages w)
          (files w) (log w) (stdout w ++ [line]) (steps w) (trace w).
Definition record_request (r : request) (a : option exc) (w : world) : world :=
  mkWorld (browser w) (running w) (scheduler_running w) (jobs w) (pages w)
          (files w) (log w) (stdout w) (S (steps w)) (trace w ++ [(r, a)]).

(** A world in which nothing has happened yet. *)
Definition initial_world : world :=
  mkWorld None false false [] [] [] [] [] 0 [].

(** What a request that returns does to the collaborators' side of the
    world; [n] is the handle of the object a request creates.

    [scheduler.shutdown()] is recorded here at the request.  The asyncio
    scheduler hands the shutdown to the event loop, which runs it at the
    next [await] that gives way: [scheduler_running] after a shutdown
    request is what [scheduler.running] shows once such an [await] has
    returned.  In [stop] that is [browser.close()], awaited only when the
    scraper holds a browser; what is proved of the flag after a shutdown is
    stated for that case. *)
Definition effect (r : request) (n : nat) (w : world) : world :=
  match r with
  | NewPage _ => set_pages (n :: pages w) w
  | PageClose p => set_pages (remove Nat.eq_dec p (pages w)) w
  | BrowserClose _ => set_pages [] w
  | Screenshot _ path _ => set_files (path :: files w) w
  | AddJob id _ _ m => set_jobs ((id, m) :: jobs w) w
  | SchedulerStart => set_scheduler_running true w
  | SchedulerShutdown => set_scheduler_running false w
  | _ => w
  end.

(** Coroutines: functions of the world. *)
Definition M (A : Type) : Type := world -> result A * world.

Definition ret {A} (a : A) : M A := fun w => (Return a, w).
Definition raise {A} (e : exc) : M A := fun w => (Raise e, w).
Definition bind {A B} (m : M A) (k : A -> M B) : M B := fun w =>
  match m w with
  | (Return a, w') => k a w'
  | (Raise e, w') => (Raise e, w')
  | (Diverge, w') => (Diverge, w')
  end.

(** [try: body  except Exception as e: handler e]. *)
Definition try_except {A} (body : M A) (handler : exc -> M A) : M A := fun w =>
  match body w with
  | (Raise e, w') =>
      if isinstance_Exception e then handler e w' else (Raise e, w')
  | other => other
  end.

(** [try: body  finally: fin]: an exception of [fin] replaces the outcome of
    [body]. *)
Definition try_finally {A} (body : M A) (fin : M unit) : M A := fun w =>
  match body w with
  | (Diverge, w') => (Diverge, w')
  | (r, w') =>
      match fin w' with
      | (Return _, w'') => (r, w'')
      | (Raise e, w'') => (Raise e, w'')
      | (Diverge, w'') => (Diverge, w'')
      end
  end.

(** The outcome of a statement already executed, handed to the code that
    follows it. *)
Definition resume {A} (r : result A) : M A := fun w => (r, w).

Definition logging (l : logger) (lv : level) (msg : string) : M unit :=
  fun w => (Return tt, add_log l lv msg w).

Definition print (line : string) : M unit :=
  fun w => (Return tt, add_stdout line w).

Fixpoint for_each {A} (xs : list A) (body : A -> M unit) : M unit :=
  match xs with
  | [] => ret tt
  | x :: rest => bind (body x) (fun _ => for_each rest body)
  end.

End Py.

Declare Scope py_scope.
Delimit Scope py_scope with py.
Notation "x <- m ;; k" := (Py.bind m (fun x => k))
  (at level 61, m at next level, right associativity) : py_scope.
Notation "m ;; k" := (Py.bind m (fun _ => k))
  (at level 61, right associativity) : py_scope.

(** ** tradingview_scraper.py *)

Module Scraper.
Import Py.
Local Open Scope py_scope.

Section TradingViewScraper.

Variable E : env.
Variable BASE_DIR : Pathlib.Path.
(** The symbol table, [CRYPTO_SYMBOLS] of [config.py]. *)
Variable SYMBOLS : Dict.t string.

(** [_signal_handler], which the pipeline installs for SIGINT and SIGTERM. *)
Definition _signal_handler (signum : nat) (w : world) : world :=
  set_running false
    (add_log PipelineLogger INFO
       ("Received signal " ++ Str.of_nat signum ++ ", shutting down...") w).

(** The answer to the request a coroutine sends next. *)
Definition answer (r : request) (w : world) : option exc :=
  match respond E (steps w) r with
  | Some (c, msg) => Some (Raised c msg)
  | None => None
  end.

(** The world after a request: the answer is recorded, a request that
    returns takes effect, and a signal that arrives meanwhile runs its
    handler. *)
Definition after (r : request) (w : world) : world :=
  let a := answer r w in
  let w1 := record_request r a w in
  let w2 := match a with None => effect r (steps w) w1 | Some _ => w1 end in
  match signal E (steps w) with
  | Some s => _signal_handler s w2
  | None => w2
  end.

(** Send a request and wait for its answer. *)
Definition call (r : request) : M unit := fun w =>
  (match answer r w with None => Return tt | Some e => Raise e end, after r w).

(** A request that creates an object returns its handle. *)
Definition create (r : request) : M nat := fun w =>
  let n := steps w in
  match call r w with
  | (Return _, w') => (Return n, w')
  | (Raise e, w') => (Raise e, w')
  | (Diverge, w') => (Diverge, w')
  end.

Definition info (msg : string) : M unit := logging ScraperLogger INFO msg.
Definition warning (msg : string) : M unit := logging ScraperLogger WARNING msg.
Definition error (msg : string) : M unit := logging ScraperLogger ERROR msg.

Definition start_browser : M unit :=
  try_except
    (call PlaywrightStart ;;
     b <- create (Launch Config.BROWSER_HEADLESS
                    ["--no-sandbox"; "--disable-dev-shm-usage"]) ;;
     (fun w => (Return tt, set_browser (Some b) w)) ;;
     info "Browser started successfully")
    (fun e =>
       error ("Failed to start browser: " ++ exc_str e) ;;
       raise e).

Definition close_browser : M unit := fun w =>
  match browser w with
  | Some b =>
      (call (BrowserClose b) ;;
       info "Browser closed") w
  | None => (Return tt, w)
  end.

Definition LEGEND_SELECTOR : string :=
  "[data-name=" ++ Str.dq ++ "legend-source-item" ++ Str.dq ++ "]".

Definition _wait_for_chart_load (page : nat) : M unit :=
  try_except
    (call (WaitForSelector page LEGEND_SELECTOR Config.BROWSER_TIMEOUT) ;;
     call (AsyncioSleep 3) ;;
     info "Chart loaded successfully")
    (fun e => warning ("Chart loading timeout or error: " ++ exc_str e)).

(** The script that hides the header and the bottom toolbar: the
    triple-quoted literal passed to [page.evaluate], line by line, with its
    indentation. *)
Definition HIDE_CHROME_SCRIPT : string :=
  Str.join Str.nl
    [ "";
      "                // Hide header if possible";
      "                const header = document.querySelector('[data-name="
        ++ Str.dq ++ "header" ++ Str.dq ++ "]');";
      "                if (header) header.style.display = 'none';";
      "                ";
      "                // Hide bottom toolbar if possible";
      "                const toolbar = document.querySelector('[data-name="
        ++ Str.dq ++ "bottom-toolbar" ++ Str.dq ++ "]');";
      "                if (toolbar) toolbar.style.display = 'none';";
      "            " ].

Definition _configure_chart_view (page : nat) : M unit :=
  try_except
    (call (Evaluate page HIDE_CHROME_SCRIPT) ;;
     info "Chart view configured")
    (fun e => warning ("Could not configure chart view: " ++ exc_str e)).

(** [f"{symbol}_{timestamp}.png"]. *)
Definition screenshot_filename (symbol : string) (t : Datetime.datetime) : string :=
  symbol ++ "_" ++ Datetime.strftime Config.TIMESTAMP_FORMAT t ++ ".png".

(** The [try] block of [capture_screenshot] after [page] is bound. *)
Definition capture_body (page : nat) (symbol url : string) : M string :=
  call (SetViewportSize page Config.SCREENSHOT_WIDTH Config.SCREENSHOT_HEIGHT) ;;
  info ("Navigating to " ++ symbol ++ " chart...") ;;
  call (Goto page url Config.BROWSER_TIMEOUT) ;;
  _wait_for_chart_load page ;;
  _configure_chart_view page ;;
  timestamp <- (fun w => (Return (now E (steps w)), w)) ;;
  let filename := screenshot_filename symbol timestamp in
  let filepath := Pathlib.join (Config.SCREENSHOTS_DIR BASE_DIR) filename in
  call (Screenshot page (Pathlib.str filepath) false) ;;
  info ("Screenshot saved: " ++ Pathlib.str filepath) ;;
  ret (Pathlib.str filepath).

(** The [try] and [except] clauses of [capture_screenshot], entered with the
    outcome [created] of [new_page], the first statement of the [try]. *)
Definition capture_guarded (created : result nat) (symbol url : string)
  : M (option string) :=
  try_except
    (p <- resume created ;;
     path <- capture_body p symbol url ;;
     ret (Some path))
    (fun e =>
       error ("Failed to capture screenshot for " ++ symbol ++ ": "
                ++ exc_str e) ;;
       ret None).

(** Its [finally] clause: [if page: await page.close()]. *)
Definition close_page (page : option nat) : M unit :=
  match page with
  | Some p => call (PageClose p)
  | None => ret tt
  end.

(** [capture_screenshot]: the local [page] stays [None] unless [new_page]
    returns. *)
Definition capture_screenshot (symbol url : string) : M (option string) := fun w =>
  match browser w with
  | None => (Raise BrowserNotInitialized, w)
  | Some b =>
      let '(created, w1) := create (NewPage b) w in
      let page := match created with Return p => Some p | _ => None end in
      try_finally (capture_guarded created symbol url) (close_page page) w1
  end.

(** One turn of the loop of [capture_all_screenshots]. *)
Definition capture_one (results : Dict.t (option string)) (symbol url : string)
  : M (Dict.t (option string)) :=
  try_except
    (filepath <- capture_screenshot symbol url ;;
     ret (Dict.set results symbol filepath))
    (fun e =>
       error ("Error capturing " ++ symbol ++ ": " ++ exc_str e) ;;
       ret (Dict.set results symbol None)).

Fixpoint capture_loop (items : list (string * string))
  (results : Dict.t (option string)) : M (Dict.t (option string)) :=
  match items with
  | [] => ret results
  | (symbol, url) :: rest =>
      results' <- capture_one results symbol url ;;
      capture_loop rest results'
  end.

Definition capture_all_screenshots : M (Dict.t (option string)) :=
  capture_loop (Dict.items SYMBOLS) [].

End TradingViewScraper.
End Scraper.

(** ** screenshot_pipeline.py *)

Module Pipeline.
Import Py.
Local Open Scope py_scope.

Section ScreenshotPipeline.

Variable E : env.
Variable BASE_DIR : Pathlib.Path.
Variable SYMBOLS : Dict.t string.

Definition info (msg : string) : M unit := logging PipelineLogger INFO msg.
Definition error (msg : string) : M unit := logging PipelineLogger ERROR msg.

(** The check mark and the ballot cross, as their UTF-8 bytes. *)
Definition CHECK : string :=
  String "226"%char (String "156"%char (String "147"%char EmptyString)).
Definition CROSS : string :=
  String "226"%char (String "156"%char (String "151"%char EmptyString)).

(** [if filepath]: neither [None] nor the empty string. *)
Definition truthy (filepath : option string) : bool :=
  match filepath with
  | Some s => negb (String.eqb s "")
  | None => false
  end.

(** [__init__], from the point where it has returned: a scraper without
    a browser, a scheduler that is not running and has no job, the flag
    cleared (the signal handlers it installs are [Scraper._signal_handler]).
    The constructor sends no request to the collaborators modelled here; an
    error of its own (the log file cannot be opened, a handler cannot be
    installed) ends the process before [start] is entered and is not part of
    this model. *)
Definition __init__ : M unit := fun w =>
  (Return tt,
   set_running false (set_jobs [] (set_scheduler_running false (set_browser None w)))).

Definition capture_screenshots_job : M unit :=
  try_except
    (info "Starting screenshot capture job..." ;;
     results <- Scraper.capture_all_screenshots E BASE_DIR SYMBOLS ;;
     let successful := List.length (filter truthy (Dict.values results)) in
     let total := List.length results in
     info ("Screenshot job completed: " ++ Str.of_nat successful ++ "/"
             ++ Str.of_nat total ++ " successful") ;;
     for_each (Dict.items results)
       (fun item =>
          let '(symbol, filepath) := item in
          match filepath with
          | Some p =>
              if truthy filepath
              then info (CHECK ++ " " ++ symbol ++ ": "
                           ++ Pathlib.name (Pathlib.parse p))
              else error (CROSS ++ " " ++ symbol ++ ": Failed to capture")
          | None => error (CROSS ++ " " ++ symbol ++ ": Failed to capture")
          end))
    (fun e => error ("Error in screenshot job: " ++ exc_str e)).

Definition stop : M unit :=
  info "Stopping pipeline..." ;;
  r <- (fun w => (Return (scheduler_running w), w)) ;;
  (if r : bool then Scraper.call E SchedulerShutdown else ret tt) ;;
  Scraper.close_browser E ;;
  info "Pipeline stopped successfully".

(** [while self.running: await asyncio.sleep(1)], for at most [fuel] turns. *)
Fixpoint idle_loop (fuel : nat) (w : world) {struct fuel} : result unit * world :=
  if running w then
    match fuel with
    | O => (Diverge, w)
    | S fuel' =>
        (Scraper.call E (AsyncioSleep 1) ;;
         idle_loop fuel') w
    end
  else (Return tt, w).

(** The [try] block of [start]. *)
Definition start_body (fuel : nat) : M unit :=
  info "Starting TradingView Screenshot Pipeline..." ;;
  Scraper.start_browser E ;;
  Scraper.call E (AddJob "screenshot_job" "TradingView Screenshot Capture"
                    Config.SCREENSHOT_INTERVAL_MINUTES 1) ;;
  Scraper.call E SchedulerStart ;;
  (fun w => (Return tt, set_running true w)) ;;
  info ("Pipeline started. Screenshots will be captured every "
          ++ Str.of_nat (N.to_nat Config.SCREENSHOT_INTERVAL_MINUTES)
          ++ " minute(s)") ;;
  info "Press Ctrl+C to stop the pipeline" ;;
  capture_screenshots_job ;;
  idle_loop fuel.

(** [start]: [except KeyboardInterrupt], then [except Exception], then
    [finally: await self.stop()]. *)
Definition start (fuel : nat) : M unit :=
  try_finally
    (fun w =>
       match start_body fuel w with
       | (Raise e, w') =>
           if isinstance_KeyboardInterrupt e
           then info "Pipeline interrupted by user" w'
           else if isinstance_Exception e
                then error ("Pipeline error: " ++ exc_str e) w'
                else (Raise e, w')
       | other => other
       end)
    stop.

Definition main (fuel : nat) : M unit :=
  __init__ ;;
  start fuel.

(** The [__main__] block, for a pipeline whose constructor has returned:
    the exit status of the process, or [None] while the pipeline is still
    running.  An exception that no clause catches ends the interpreter with
    status 1. *)
Definition run_script (fuel : nat) (w : world) : option nat * world :=
  match main fuel w with
  | (Return _, w') => (Some 0, w')
  | (Raise e, w') =>
      if isinstance_KeyboardInterrupt e
      then (Some 0, add_stdout (Str.nl ++ "Pipeline stopped by user") w')
      else if isinstance_Exception e
           then (Some 1, add_stdout ("Pipeline failed: " ++ exc_str e) w')
           else (Some 1, w')
  | (Diverge, w') => (None, w')
  end.

End ScreenshotPipeline.
End Pipeline.

(** ** The event loop: runs of the job in flight

    [start] and the job instances that the scheduler launches are tasks of
    one event loop; a task gives way to the others at each [await].  This
    machine follows [start] through its phases and counts the runs of
    [capture_screenshots_job] that have begun and not finished: the one
    [start] awaits itself after starting the scheduler, and the instances
    the scheduler launched.  The scheduler launches an instance at a tick
    only while fewer than [max_instances] of its own instances are running;
    it knows nothing of a run it did not launch. *)

Module EventLoop.

Inductive phase : Type :=
| Stopped            (* before start, and after stop *)
| Starting           (* in start_browser *)
| InitialCapture     (* in the capture that start awaits itself *)
| Idle.              (* in the idle loop *)

Record state : Type := mkState {
  at_phase : phase;
  scheduler_started : bool;
  max_instances : option N;   (* of the job added, if any *)
  scheduled_runs : nat;       (* instances launched by the scheduler, unfinished *)
  direct_run : bool           (* the run start awaits itself is unfinished *)
}.

Inductive event : Type :=
| Begin                (* start is called *)
| BrowserReady         (* start_browser returns *)
| BrowserFailed        (* start_browser raises *)
| InitialCaptureDone   (* the first capture returns *)
| Tick                 (* the interval trigger fires *)
| ScheduledRunDone     (* an instance launched by the scheduler finishes *)
| Shutdown.            (* the idle loop sees the flag cleared; stop runs *)

Definition init : state := mkState Stopped false None 0 false.

Definition step (s : state) (e : event) : state :=
  match e, at_phase s with
  | Begin, Stopped =>
      mkState Starting (scheduler_started s) (max_instances s)
              (scheduled_runs s) (direct_run s)
  | BrowserReady, Starting =>
      (* add_job(..., max_instances=1); scheduler.start(); running = True;
         await self.capture_screenshots_job() *)
      mkState InitialCapture true (Some 1%N) (scheduled_runs s) true
  | BrowserFailed, Starting =>
      mkState Stopped false (max_instances s) (scheduled_runs s) (direct_run s)
  | InitialCaptureDone, InitialCapture =>
      mkState Idle (scheduler_started s) (max_instances s) (scheduled_runs s) false
  | Tick, _ =>
      match scheduler_started s, max_instances s with
      | true, Some m =>
          if Nat.ltb (scheduled_runs s) (N.to_nat m)
          then mkState (at_phase s) true (Some m) (S (scheduled_runs s)) (direct_run s)
          else s
      | _, _ => s
      end
  | ScheduledRunDone, _ =>
      mkState (at_phase s) (scheduler_started s) (max_instances s)
              (pred (scheduled_runs s)) (direct_run s)
  | Shutdown, Idle =>
      (* scheduler.shutdown() cancels the instances still pending *)
      mkState Stopped false (max_instances s) 0 false
  | _, _ => s
  end.

Definition run (events : list event) : state := fold_left step events init.

(** The runs of the aggregator that have begun and not finished. *)
Definition in_flight (s : state) : nat :=
  (if direct_run s then 1 else 0) + scheduled_runs s.

(** What every reachable state satisfies. *)
Definition invariant (s : state) : Prop :=
  scheduled_runs s <= 1
  /\ (max_instances s = None \/ max_instances s = Some 1%N)
  /\ (direct_run s = true -> at_phase s = InitialCapture).

End EventLoop.

(** ** Vocabulary of the statements *)

Module Spec.
Import Py.

(** Every exception the collaborators raise is an instance of [Exception]:
    no task is cancelled and no interrupt is raised inside a request. *)
Definition exceptions_only (E : env) : Prop :=
  forall n r c msg, respond E n r = Some (c, msg) -> c = ExceptionClass.

(** [e] was raised by a collaborator, as the answer to some request. *)
Definition from_env (E : env) (e : exc) : Prop :=
  exists n r c msg, respond E n r = Some (c, msg) /\ e = Raised c msg.

(** A coroutine that never diverges and raises only exceptions in [P]. *)
Definition raises_only {A} (P : exc -> Prop) (m : M A) : Prop :=
  forall w,
    match fst (m w) with
    | Raise e => P e
    | Diverge => False
    | Return _ => True
    end.

(** A coroutine that only adds requests in [R] to the trace. *)
Definition sends {A} (R : request -> Prop) (m : M A) : Prop :=
  forall w, exists t,
    trace (snd (m w)) = (trace w ++ t)%list /\ Forall (fun ra => R (fst ra)) t.

(** The part of the trace of [w'] that was added since [w]. *)
Definition new_trace (w w' : world) : list (request * option exc) :=
  skipn (List.length (trace w)) (trace w').

(** The requests of [capture_screenshot] whose exception reaches its
    [except] clause, those of its two best-effort steps, and those that open
    or close a page. *)
Definition capture_level (r : request) : bool :=
  match r with
  | NewPage _ | SetViewportSize _ _ _ | Goto _ _ _ | Screenshot _ _ _ => true
  | _ => false
  end.

Definition best_effort (r : request) : bool :=
  match r with
  | WaitForSelector _ _ _ | AsyncioSleep _ | Evaluate _ _ => true
  | _ => false
  end.

Definition page_lifecycle (r : request) : bool :=
  match r with
  | NewPage _ | PageClose _ | BrowserClose _ => true
  | _ => false
  end.

(** A request that neither opens nor closes a page. *)
Definition steady (r : request) : Prop := page_lifecycle r = false.

(** The exception of the first capture-level request that raised. *)
Fixpoint first_failure (t : list (request * option exc)) : option exc :=
  match t with
  | [] => None
  | (r, Some e) :: t' => if capture_level r then Some e else first_failure t'
  | (_, None) :: t' => first_failure t'
  end.

(** The last request was [page.close()] and it raised. *)
Definition close_failed (t : list (request * option exc)) : bool :=
  match last t (PlaywrightStart, None) with
  | (PageClose _, Some _) => true
  | _ => false
  end.

(** A step that always returns, sends only best-effort requests, and keeps
    the log lines and the files there were. *)
Definition harmless (m : M unit) : Prop :=
  forall w, exists w' t,
    m w = (Return tt, w')
    /\ trace w' = (trace w ++ t)%list
    /\ Forall (fun ra => best_effort (fst ra) = true) t
    /\ (forall x, In x (log w) -> In x (log w'))
    /\ (forall x, In x (files w) -> In x (files w')).

(** The warning that a best-effort step has written for request [rq],
    which raised [e] inside it: [_wait_for_chart_load] for the wait and the
    settle sleep, [_configure_chart_view] for the script. *)
Definition warned (rq : request) (e : exc) (w : world) : Prop :=
  match rq with
  | WaitForSelector _ _ _ | AsyncioSleep _ =>
      In (ScraperLogger, WARNING, "Chart loading timeout or error: " ++ exc_str e)
         (log w)
  | Evaluate _ _ =>
      In (ScraperLogger, WARNING, "Could not configure chart view: " ++ exc_str e)
         (log w)
  | _ => True
  end.

(** A coroutine that keeps the log lines there were and has written the
    warning for every request of a best-effort step that raised. *)
Definition warns {A} (m : M A) : Prop :=
  forall w, exists t,
    trace (snd (m w)) = (trace w ++ t)%list
    /\ (forall x, In x (log w) -> In x (log (snd (m w))))
    /\ (forall rq e, In (rq, Some e) t -> warned rq e (snd (m w))).

(** The browser does not come up: starting the automation engine, or
    launching the browser with it, raises an [Exception] with message [msg]
    as the [n]-th request. *)
Definition launch_fails (E : env) (n : nat) (msg : string) : Prop :=
  respond E n PlaywrightStart = Some (ExceptionClass, msg)
  \/ (respond E n PlaywrightStart = None
      /\ respond E (S n)
           (Launch Config.BROWSER_HEADLESS
              ["--no-sandbox"; "--disable-dev-shm-usage"])
         = Some (ExceptionClass, msg)).

End Spec.

(** ** Concrete environments and worlds *)

Module Examples.
Import Py.

Definition t0 : Datetime.datetime :=
  Datetime.mkDatetime 2024 3 15 9 30 0 250.

Definition base : Pathlib.Path := Pathlib.parse "/app".

(** A world in which the scraper holds a browser. *)
Definition live : world := set_browser (Some 0) initial_world.

Definition quiet (answers : nat -> request -> option (exc_class * string)) : env :=
  mkEnv answers (fun _ => t0) (fun _ => None).

(** Every request returns. *)
Definition E_ok : env := quiet (fun _ _ => None).

Definition timeout_error : exc_class * string :=
  (ExceptionClass, "Timeout 30000ms exceeded.").

(** Navigation to the ETH chart times out; everything else returns. *)
Definition E_eth_times_out : env :=
  quiet (fun _ r =>
           match r with
           | Goto _ url _ =>
               if String.eqb url "https://www.tradingview.com/chart/?symbol=BINANCE%3AETHUSDT"
               then Some timeout_error else None
           | _ => None
           end).

(** The chart marker never appears. *)
Definition E_selector_times_out : env :=
  quiet (fun _ r =>
           match r with
           | WaitForSelector _ _ _ => Some timeout_error
           | _ => None
           end).

(** Navigation times out. *)
Definition E_goto_times_out : env :=
  quiet (fun _ r =>
           match r with
           | Goto _ _ _ => Some timeout_error
           | _ => None
           end).

(** Closing a page fails. *)
Definition E_close_fails : env :=
  quiet (fun _ r =>
           match r with
           | PageClose _ => Some (ExceptionClass, "Connection closed")
           | _ => None
           end).

(** The browser cannot be launched. *)
Definition E_launch_fails : env :=
  quiet (fun _ r =>
           match r with
           | Launch _ _ => Some (ExceptionClass, "Executable doesn't exist")
           | _ => None
           end).

(** The browser cannot be closed, and a signal arrives during the fifth
    request. *)
Definition E_browser_close_fails : env :=
  mkEnv (fun _ r =>
           match r with
           | BrowserClose _ => Some (ExceptionClass, "Connection closed")
           | _ => None
           end)
        (fun _ => t0)
        (fun n => if Nat.eqb n 4 then Some 15 else None).

End Examples.

(** ** tradingview_scraper.py run as a script *)

Module ScraperScript.
Import Py.
Local Open Scope py_scope.

Section Main.

Variable E : env.
Variable BASE_DIR : Pathlib.Path.
Variable SYMBOLS : Dict.t string.

(** [TradingViewScraper()]: a scraper without a browser. *)
Definition __init__ : M unit := fun w => (Return tt, set_browser None w).

(** One turn of the loop that prints the results. *)
Definition report (item : string * option string) : M unit :=
  let '(symbol, filepath) := item in
  match filepath with
  | Some p =>
      if Pipeline.truthy filepath
      then print (Pipeline.CHECK ++ " " ++ symbol ++ ": " ++ p)
      else print (Pipeline.CROSS ++ " " ++ symbol ++ ": Failed")
  | None => print (Pipeline.CROSS ++ " " ++ symbol ++ ": Failed")
  end.

(** The [try] block of [main] after [start_browser]. *)
Definition capture_and_report : M unit :=
  results <- Scraper.capture_all_screenshots E BASE_DIR SYMBOLS ;;
  print "Screenshot results:" ;;
  for_each (Dict.items results) report.

(** [main]: start the browser, capture once, print, and close the browser
    in the [finally] clause. *)
Definition main : M unit :=
  __init__ ;;
  try_finally
    (Scraper.start_browser E ;;
     capture_and_report)
    (Scraper.close_browser E).

End Main.
End ScraperScript.

(** ** More vocabulary *)

Module Frame.
Import Py.

(** A coroutine that raises only exceptions in [P]; it may go on forever. *)
Definition may_raise {A} (P : exc -> Prop) (m : M A) : Prop :=
  forall w,
    match fst (m w) with
    | Raise e => P e
    | _ => True
    end.

(** A coroutine that leaves the component [f] of the world as it was. *)
Definition preserves {A X} (f : world -> X) (m : M A) : Prop :=
  forall w, f (snd (m w)) = f w.

(** A coroutine that only adds to the list [f] of the world. *)
Definition monotone {A X} (f : world -> list X) (m : M A) : Prop :=
  forall w x, In x (f w) -> In x (f (snd (m w))).

(** A step that returns and keeps the log lines there were. *)
Definition returns_keeping_log (m : M unit) : Prop :=
  forall w, exists w',
    m w = (Return tt, w') /\ forall x, In x (log w) -> In x (log w').

Definition is_new_page (r : request) : bool :=
  match r with
  | NewPage _ => true
  | _ => false
  end.

(** How many pages a trace asks for. *)
Definition pages_requested (t : list (request * option exc)) : nat :=
  List.length (filter (fun ra => is_new_page (fst ra)) t).

(** [AsyncioSleep 1] is the only request. *)
Definition only_sleeps (r : request) : Prop := r = AsyncioSleep 1.

(** During [k] requests from the [n]-th on, [r] returns and no signal
    arrives. *)
Definition undisturbed (E : env) (r : request) (n k : nat) : Prop :=
  forall j, j < k -> respond E (n + j) r = None /\ signal E (n + j) = None.

(** Any request at all. *)
Definition any_request (r : request) : Prop := True.

(** The first four requests of a start that gets as far as the initial
    capture: the scheduler is started before any page is opened. *)
Definition STARTUP_TRACE : list (request * option exc) :=
  [ (PlaywrightStart, None);
    (Launch Config.BROWSER_HEADLESS ["--no-sandbox"; "--disable-dev-shm-usage"],
     None);
    (AddJob "screenshot_job" "TradingView Screenshot Capture"
       Config.SCREENSHOT_INTERVAL_MINUTES 1, None);
    (SchedulerStart, None) ].

(** The requests [start_browser] sends. *)
Definition startup_request (r : request) : Prop :=
  r = PlaywrightStart
  \/ r = Launch Config.BROWSER_HEADLESS ["--no-sandbox"; "--disable-dev-shm-usage"].

(** The requests [stop] sends. *)
Definition shutdown_request (r : request) : Prop :=
  r = SchedulerShutdown \/ exists b, r = BrowserClose b.

End Frame.

Module MoreExamples.
Import Py.

(** A world in which the pipeline is idle: the browser is up, the scheduler
    runs, the flag is set. *)
Definition idle : world :=
  set_running true (set_scheduler_running true (set_browser (Some 1) initial_world)).

(** SIGTERM arrives during the third request. *)
Definition E_sigterm : env :=
  mkEnv (fun _ _ => None) (fun _ => Examples.t0)
        (fun n => if Nat.eqb n 2 then Some 15 else None).

(** Every request returns and SIGINT arrives during the fifth one, the
    first of the initial capture. *)
Definition E_sigint : env :=
  mkEnv (fun _ _ => None) (fun _ => Examples.t0)
        (fun n => if Nat.eqb n 4 then Some 2 else None).

End MoreExamples.

(** * Properties *)

Unset Implicit Arguments.

(** ** Dictionaries *)

Module DictFacts.

Lemma keys_set_in V (d : Dict.t V) k v k' :
  In k' (Dict.keys (Dict.set d k v)) <-> k' = k \/ In k' (Dict.keys d).
Proof.
  induction d as [|[k0 v0] d IH]; simpl.
  - intuition.
  - destruct (String.eqb_spec k k0) as [->|Hne]; simpl.
    + intuition.
    + rewrite IH. intuition.
Qed.

Lemma keys_set_NoDup V (d : Dict.t V) k v :
  NoDup (Dict.keys d) -> NoDup (Dict.keys (Dict.set d k v)).
Proof.
  induction d as [|[k0 v0] d IH]; simpl; intros Hnd.
  - constructor; [intros [] | constructor].
  - inversion Hnd as [|? ? Hnotin Hnd']; subst.
    destruct (String.eqb_spec k k0) as [->|Hne]; simpl.
    + constructor; assumption.
    + constructor; [|auto].
      rewrite keys_set_in. intros [Heq|Hin]; [congruence | contradiction].
Qed.

Lemma get_set_same V (d : Dict.t V) k v :
  Dict.get (Dict.set d k v) k = Some v.
Proof.
  induction d as [|[k0 v0] d IH]; simpl.
  - now rewrite String.eqb_refl.
  - destruct (String.eqb_spec k k0) as [->|Hne]; simpl.
    + now rewrite String.eqb_refl.
    + destruct (String.eqb_spec k k0); [contradiction | exact IH].
Qed.

Lemma get_set_other V (d : Dict.t V) k v k' :
  k' <> k -> Dict.get (Dict.set d k v) k' = Dict.get d k'.
Proof.
  intros Hne. induction d as [|[k0 v0] d IH]; simpl.
  - destruct (String.eqb_spec k' k); [contradiction | reflexivity].
  - destruct (String.eqb_spec k k0) as [->|Hne0]; simpl.
    + destruct (String.eqb_spec k' k0); [contradiction | reflexivity].
    + destruct (String.eqb_spec k' k0); [reflexivity | exact IH].
Qed.

Lemma get_None_notin V (d : Dict.t V) k :
  ~ In k (Dict.keys d) -> Dict.get d k = None.
Proof.
  induction d as [|[k0 v0] d IH]; simpl; intros Hnotin; [reflexivity|].
  destruct (String.eqb_spec k k0) as [->|Hne]; [tauto|].
  apply IH. tauto.
Qed.

End DictFacts.

(** ** Requests and the combinators *)

Module RuntimeFacts.
Import Py Spec.
Local Open Scope py_scope.

Section WithEnv.

Variable E : env.

Lemma after_steps r w : steps (Scraper.after E r w) = S (steps w).
Proof.
  unfold Scraper.after, Scraper._signal_handler.
  destruct (signal E (steps w)), (Scraper.answer E r w), r; reflexivity.
Qed.

Lemma after_trace r w :
  trace (Scraper.after E r w) = (trace w ++ [(r, Scraper.answer E r w)])%list.
Proof.
  unfold Scraper.after, Scraper._signal_handler.
  destruct (signal E (steps w)), (Scraper.answer E r w), r; reflexivity.
Qed.

Lemma after_browser r w : browser (Scraper.after E r w) = browser w.
Proof.
  unfold Scraper.after, Scraper._signal_handler.
  destruct (signal E (steps w)), (Scraper.answer E r w), r; reflexivity.
Qed.

Lemma after_log r w x : In x (log w) -> In x (log (Scraper.after E r w)).
Proof.
  unfold Scraper.after, Scraper._signal_handler.
  destruct (signal E (steps w)), (Scraper.answer E r w), r; simpl; auto;
    intros; apply in_or_app; auto.
Qed.

Lemma after_files r w x : In x (files w) -> In x (files (Scraper.after E r w)).
Proof.
  unfold Scraper.after, Scraper._signal_handler.
  destruct (signal E (steps w)), (Scraper.answer E r w), r; simpl; auto.
Qed.

Lemma after_screenshot p path fp w :
  Scraper.answer E (Screenshot p path fp) w = None ->
  In path (files (Scraper.after E (Screenshot p path fp) w)).
Proof.
  unfold Scraper.after, Scraper._signal_handler. intros ->.
  destruct (signal E (steps w)); simpl; auto.
Qed.

Lemma after_page_close p w :
  Scraper.answer E (PageClose p) w = None ->
  ~ In p (pages (Scraper.after E (PageClose p) w)).
Proof.
  unfold Scraper.after, Scraper._signal_handler. intros ->.
  destruct (signal E (steps w)); simpl; apply remove_In.
Qed.

Lemma after_scheduler r w :
  r <> SchedulerStart -> r <> SchedulerShutdown ->
  scheduler_running (Scraper.after E r w) = scheduler_running w.
Proof.
  unfold Scraper.after, Scraper._signal_handler. intros H1 H2.
  destruct (signal E (steps w)), (Scraper.answer E r w), r;
    try reflexivity; congruence.
Qed.

Lemma answer_from_env r w e :
  Scraper.answer E r w = Some e -> from_env E e.
Proof.
  unfold Scraper.answer.
  destruct (respond E (steps w) r) as [[c msg]|] eqn:Hr; [|discriminate].
  intros [= <-]. now exists (steps w), r, c, msg.
Qed.

Lemma from_env_not_init e : from_env E e -> e <> BrowserNotInitialized.
Proof. intros (n & r & c & msg & _ & ->). discriminate. Qed.

Lemma from_env_Exception e :
  exceptions_only E -> from_env E e -> isinstance_Exception e = true.
Proof.
  intros HE (n & r & c & msg & Hr & ->).
  now rewrite (HE _ _ _ _ Hr).
Qed.

(** *** Which exceptions a coroutine can raise *)

Lemma raises_ret A P (a : A) : raises_only P (ret a).
Proof. intros w. exact I. Qed.

Lemma raises_raise A P e : P e -> raises_only P (@raise A e).
Proof. intros He w. exact He. Qed.

Lemma raises_logging P l lv msg : raises_only P (logging l lv msg).
Proof. intros w. exact I. Qed.

Lemma raises_bind A B P (m : M A) (k : A -> M B) :
  raises_only P m -> (forall a, raises_only P (k a)) ->
  raises_only P (bind m k).
Proof.
  intros Hm Hk w. unfold bind. specialize (Hm w).
  destruct (m w) as [[a|e|] w']; simpl in *; auto.
  apply Hk.
Qed.

Lemma raises_call r : raises_only (from_env E) (Scraper.call E r).
Proof.
  intros w. unfold Scraper.call. simpl.
  destruct (Scraper.answer E r w) eqn:Ha; [|exact I].
  eapply answer_from_env; eauto.
Qed.

Lemma raises_create r : raises_only (from_env E) (Scraper.create E r).
Proof.
  intros w. unfold Scraper.create. generalize (raises_call r w).
  destruct (Scraper.call E r w) as [[a|e|] w']; simpl; auto.
Qed.

Lemma raises_try_except A P Q (body : M A) handler :
  raises_only P body ->
  (forall e, P e -> isinstance_Exception e = false -> Q e) ->
  (forall e, raises_only Q (handler e)) ->
  raises_only Q (try_except body handler).
Proof.
  intros Hb Hpq Hh w. unfold try_except. specialize (Hb w).
  destruct (body w) as [[a|e|] w']; simpl in *; auto.
  destruct (isinstance_Exception e) eqn:He; simpl; auto.
  apply Hh.
Qed.

Lemma raises_try_finally A P (body : M A) fin :
  raises_only P body -> raises_only P fin ->
  raises_only P (try_finally body fin).
Proof.
  intros Hb Hf w. unfold try_finally. specialize (Hb w).
  destruct (body w) as [[a|e|] w']; simpl in *; auto;
    specialize (Hf w'); destruct (fin w') as [[[]|e'|] w'']; simpl in *; auto.
Qed.

Lemma raises_weaken A (P Q : exc -> Prop) (m : M A) :
  (forall e, P e -> Q e) -> raises_only P m -> raises_only Q m.
Proof.
  intros Hpq Hm w. specialize (Hm w).
  destruct (fst (m w)); auto.
Qed.

(** *** Which requests a coroutine can send *)

Lemma sends_ret A R (a : A) : sends R (ret a).
Proof. intros w. exists []. simpl. now rewrite app_nil_r. Qed.

Lemma sends_raise A R e : sends R (@raise A e).
Proof. intros w. exists []. simpl. now rewrite app_nil_r. Qed.

Lemma sends_logging R l lv msg : sends R (logging l lv msg).
Proof. intros w. exists []. simpl. now rewrite app_nil_r. Qed.

Lemma sends_bind A B R (m : M A) (k : A -> M B) :
  sends R m -> (forall a, sends R (k a)) -> sends R (bind m k).
Proof.
  intros Hm Hk w. unfold bind. destruct (Hm w) as (t & Ht & HR).
  destruct (m w) as [[a|e|] w']; simpl in *; eauto.
  destruct (Hk a w') as (t' & Ht' & HR').
  exists (t ++ t')%list. rewrite Ht', Ht, app_assoc. split; [reflexivity|].
  apply Forall_app; auto.
Qed.

Lemma sends_call (R : request -> Prop) r : R r -> sends R (Scraper.call E r).
Proof.
  intros Hr w. exists [(r, Scraper.answer E r w)]. simpl.
  rewrite after_trace. split; [reflexivity|]. constructor; auto.
Qed.

Lemma sends_try_except A R (body : M A) handler :
  sends R body -> (forall e, sends R (handler e)) ->
  sends R (try_except body handler).
Proof.
  intros Hb Hh w. unfold try_except. destruct (Hb w) as (t & Ht & HR).
  destruct (body w) as [[a|e|] w']; simpl in *; eauto.
  destruct (isinstance_Exception e); simpl; eauto.
  destruct (Hh e w') as (t' & Ht' & HR').
  exists (t ++ t')%list. rewrite Ht', Ht, app_assoc. split; [reflexivity|].
  apply Forall_app; auto.
Qed.

Lemma new_trace_app w w' t :
  trace w' = (trace w ++ t)%list -> new_trace w w' = t.
Proof.
  intros H. unfold new_trace. rewrite H.
  rewrite skipn_app, skipn_all, Nat.sub_diag. reflexivity.
Qed.

End WithEnv.
End RuntimeFacts.

(** ** The capture routine and the aggregator *)

Module ScraperFacts.
Import Py Spec RuntimeFacts.
Local Open Scope py_scope.

Section WithEnv.

Variable E : env.
Variable BASE_DIR : Pathlib.Path.

Local Abbreviation capture_screenshot := (Scraper.capture_screenshot E BASE_DIR).
Local Abbreviation capture_one := (Scraper.capture_one E BASE_DIR).
Local Abbreviation capture_loop := (Scraper.capture_loop E BASE_DIR).
Local Abbreviation capture_all_screenshots := (Scraper.capture_all_screenshots E BASE_DIR).

Lemma raises_wait_for_chart_load p :
  raises_only (from_env E) (Scraper._wait_for_chart_load E p).
Proof.
  unfold Scraper._wait_for_chart_load.
  apply raises_try_except with (P := from_env E); auto.
  - repeat (apply raises_bind; [|intros ?]);
      auto using raises_call, raises_logging.
    apply raises_logging.
  - intros e. apply raises_logging.
Qed.

Lemma raises_configure_chart_view p :
  raises_only (from_env E) (Scraper._configure_chart_view E p).
Proof.
  unfold Scraper._configure_chart_view.
  apply raises_try_except with (P := from_env E); auto.
  - apply raises_bind; [apply raises_call | intros ?; apply raises_logging].
  - intros e. apply raises_logging.
Qed.

Lemma raises_capture_body p symbol url :
  raises_only (from_env E) (Scraper.capture_body E BASE_DIR p symbol url).
Proof.
  unfold Scraper.capture_body.
  apply raises_bind; [apply raises_call | intros _].
  apply raises_bind; [apply raises_logging | intros _].
  apply raises_bind; [apply raises_call | intros _].
  apply raises_bind; [apply raises_wait_for_chart_load | intros _].
  apply raises_bind; [apply raises_configure_chart_view | intros _].
  apply raises_bind; [intros w; exact I | intros t].
  apply raises_bind; [apply raises_call | intros _].
  apply raises_bind; [apply raises_logging | intros _].
  apply raises_ret.
Qed.

Lemma raises_capture_guarded symbol url (created : result nat) :
  match created with
  | Raise e => from_env E e
  | Diverge => False
  | Return _ => True
  end ->
  raises_only (from_env E) (Scraper.capture_guarded E BASE_DIR created symbol url).
Proof.
  intros Hc. unfold Scraper.capture_guarded.
  apply raises_try_except with (P := from_env E); auto.
  - apply raises_bind; [intros w; exact Hc | intros p].
    apply raises_bind; [apply raises_capture_body | intros path].
    apply raises_ret.
  - intros e. apply raises_bind; [apply raises_logging | intros _].
    apply raises_ret.
Qed.

Lemma raises_close_page page :
  raises_only (from_env E) (Scraper.close_page E page).
Proof. destruct page; [apply raises_call | apply raises_ret]. Qed.

(** [capture_screenshot] always ends; what it raises is its own
    initialization error when there is no browser, and an exception of a
    collaborator when there is one. *)
Lemma capture_screenshot_raises symbol url w :
  match fst (capture_screenshot symbol url w) with
  | Raise e =>
      match browser w with
      | None => e = BrowserNotInitialized
      | Some _ => from_env E e
      end
  | Diverge => False
  | Return _ => True
  end.
Proof.
  unfold Scraper.capture_screenshot.
  destruct (browser w) as [b|]; [|reflexivity].
  pose proof (raises_create E (NewPage b) w) as Hc.
  destruct (Scraper.create E (NewPage b) w) as [created w1]. simpl in Hc.
  apply raises_try_finally;
    [now apply raises_capture_guarded | apply raises_close_page].
Qed.

(** *** One turn of the aggregator's loop *)

Lemma capture_one_result results symbol url w r w' :
  capture_one results symbol url w = (Return r, w') ->
  exists v, r = Dict.set results symbol v.
Proof.
  unfold Scraper.capture_one, try_except, bind.
  destruct (capture_screenshot symbol url w) as [[v|e|] w1]; simpl.
  - intros [= <- _]. eauto.
  - destruct (isinstance_Exception e); simpl; [|discriminate].
    intros [= <- _]. eauto.
  - discriminate.
Qed.

Lemma capture_one_caught results symbol url w e w1 :
  capture_screenshot symbol url w = (Raise e, w1) ->
  isinstance_Exception e = true ->
  capture_one results symbol url w =
    (Return (Dict.set results symbol None),
     add_log ScraperLogger ERROR
       ("Error capturing " ++ symbol ++ ": " ++ exc_str e) w1).
Proof.
  intros Hc He. unfold Scraper.capture_one, try_except, bind.
  rewrite Hc. simpl. rewrite He. reflexivity.
Qed.

Lemma capture_one_returns results symbol url w :
  exceptions_only E ->
  exists v w', capture_one results symbol url w
               = (Return (Dict.set results symbol v), w').
Proof.
  intros HE. pose proof (capture_screenshot_raises symbol url w) as Hr.
  destruct (capture_screenshot symbol url w) as [[v|e|] w1] eqn:Hc;
    simpl in Hr.
  - exists v, w1. unfold Scraper.capture_one, try_except, bind.
    now rewrite Hc.
  - assert (He : isinstance_Exception e = true).
    { destruct (browser w); [eapply from_env_Exception; eauto | now subst]. }
    eexists _, _. apply capture_one_caught; eauto.
  - contradiction.
Qed.

(** *** The loop *)

Lemma bind_assoc A B C (m : M A) (k : A -> M B) (k' : B -> M C) w :
  bind (bind m k) k' w = bind m (fun a => bind (k a) k') w.
Proof. unfold bind. destruct (m w) as [[a|e|] w']; reflexivity. Qed.

Lemma bind_ext A B (m : M A) (k k' : A -> M B) w :
  (forall a w', k a w' = k' a w') -> bind m k w = bind m k' w.
Proof.
  intros H. unfold bind. destruct (m w) as [[a|e|] w']; auto.
Qed.

Lemma capture_loop_app xs ys results w :
  capture_loop (xs ++ ys) results w =
  bind (capture_loop xs results) (capture_loop ys) w.
Proof.
  revert results w. induction xs as [|[symbol url] xs IH]; intros results w.
  - reflexivity.
  - simpl. rewrite bind_assoc. apply bind_ext. intros r w1. apply IH.
Qed.

Lemma capture_loop_keys items results w r w' :
  capture_loop items results w = (Return r, w') ->
  (forall k, In k (Dict.keys r) <->
             In k (Dict.keys results) \/ In k (map fst items))
  /\ (NoDup (Dict.keys results) -> NoDup (Dict.keys r)).
Proof.
  revert results w. induction items as [|[symbol url] items IH];
    intros results w; simpl.
  - intros [= <- _]. split; [intuition | auto].
  - unfold bind.
    destruct (capture_one results symbol url w) as [[r1|e|] w1] eqn:H1;
      try discriminate.
    destruct (capture_one_result _ _ _ _ _ _ H1) as [v ->].
    intros Hloop. destruct (IH _ _ Hloop) as [Hk Hnd]. split.
    + intros k. rewrite Hk, DictFacts.keys_set_in. intuition.
    + intros H. apply Hnd, DictFacts.keys_set_NoDup, H.
Qed.

Lemma capture_loop_get_other items results w r w' k :
  capture_loop items results w = (Return r, w') ->
  ~ In k (map fst items) ->
  Dict.get r k = Dict.get results k.
Proof.
  revert results w. induction items as [|[symbol url] items IH];
    intros results w; simpl.
  - now intros [= <- _].
  - unfold bind.
    destruct (capture_one results symbol url w) as [[r1|e|] w1] eqn:H1;
      try discriminate.
    destruct (capture_one_result _ _ _ _ _ _ H1) as [v ->].
    intros Hloop Hnotin. rewrite (IH _ _ Hloop) by tauto.
    apply DictFacts.get_set_other. intros ->. tauto.
Qed.

Lemma capture_loop_returns items results w :
  exceptions_only E ->
  exists r w', capture_loop items results w = (Return r, w').
Proof.
  intros HE. revert results w.
  induction items as [|[symbol url] items IH]; intros results w; simpl.
  - eexists _, _. reflexivity.
  - destruct (capture_one_returns results symbol url w HE) as (v & w1 & H1).
    unfold bind. rewrite H1. apply IH.
Qed.

Lemma capture_loop_no_browser items results w :
  browser w = None ->
  exists r w',
    capture_loop items results w = (Return r, w')
    /\ trace w' = trace w
    /\ (forall k, In k (map fst items) -> Dict.get r k = Some None)
    /\ (forall k, ~ In k (map fst items) -> Dict.get r k = Dict.get results k).
Proof.
  revert results w. induction items as [|[symbol url] items IH];
    intros results w Hb; simpl.
  - exists results, w. intuition.
  - assert (H1 : capture_screenshot symbol url w = (Raise BrowserNotInitialized, w)).
    { unfold Scraper.capture_screenshot. now rewrite Hb. }
    unfold bind. rewrite (capture_one_caught results _ _ _ _ _ H1 eq_refl).
    set (w1 := add_log _ _ _ w).
    destruct (IH (Dict.set results symbol None) w1 Hb)
      as (r & w' & Hloop & Htr & Hin & Hout).
    exists r, w'. repeat split; auto.
    + intros k [<-|Hk]; [|auto].
      destruct (in_dec string_dec symbol (map fst items)) as [Hi|Hn]; [auto|].
      rewrite (Hout _ Hn). apply DictFacts.get_set_same.
    + intros k Hk. rewrite Hout by tauto.
      apply DictFacts.get_set_other. intros ->. tauto.
Qed.

(** Without a browser each turn of the loop ends in the [except] clause,
    which writes its line with the message of the initialization error. *)
Lemma capture_loop_no_browser_log items results w :
  browser w = None ->
  log (snd (capture_loop items results w))
  = (log w
       ++ map (fun item : string * string =>
                 (ScraperLogger, ERROR,
                  ("Error capturing " ++ fst item ++ ": "
                     ++ exc_str BrowserNotInitialized)%string))
              items)%list.
Proof.
  revert results w. induction items as [|[symbol url] items IH];
    intros results w Hb; simpl.
  - now rewrite app_nil_r.
  - assert (H1 : capture_screenshot symbol url w = (Raise BrowserNotInitialized, w)).
    { unfold Scraper.capture_screenshot. now rewrite Hb. }
    unfold bind. rewrite (capture_one_caught results _ _ _ _ _ H1 eq_refl).
    rewrite IH by exact Hb. cbn [log add_log]. now rewrite <- app_assoc.
Qed.

End WithEnv.
End ScraperFacts.

(** ** The capture routine, request by request *)

Module CaptureFacts.
Import Py Spec RuntimeFacts ScraperFacts.
Local Open Scope py_scope.

Lemma first_failure_app t1 t2 :
  first_failure (t1 ++ t2) =
  match first_failure t1 with
  | Some e => Some e
  | None => first_failure t2
  end.
Proof.
  induction t1 as [|[r [e|]] t1 IH]; simpl; auto.
  destruct (capture_level r); auto.
Qed.

Lemma first_failure_best_effort t :
  Forall (fun ra => best_effort (fst ra) = true) t -> first_failure t = None.
Proof.
  induction 1 as [|[r a] t Hr _ IH]; simpl in *; auto.
  destruct a; auto. destruct r; try discriminate; auto.
Qed.

Lemma best_effort_not_lifecycle t :
  Forall (fun ra => best_effort (fst ra) = true) t ->
  Forall (fun ra : request * option exc => page_lifecycle (fst ra) = false) t.
Proof.
  apply Forall_impl. intros [r a]. simpl. destruct r; auto; discriminate.
Qed.

Lemma last_snoc A (l : list A) (x d : A) : last (l ++ [x]) d = x.
Proof. apply last_last. Qed.

Section WithEnv.

Variable E : env.
Variable BASE_DIR : Pathlib.Path.
Hypothesis only : exceptions_only E.

Lemma answer_Exception r w e :
  Scraper.answer E r w = Some e -> isinstance_Exception e = true.
Proof.
  intros H. eapply from_env_Exception; eauto. eapply answer_from_env; eauto.
Qed.

Ltac solve_harmless :=
  eexists _, _; split; [reflexivity|]; simpl;
  rewrite ?after_trace, <- ?app_assoc; split; [reflexivity|];
  split; [repeat constructor|];
  split; intros x Hx;
  [ apply in_or_app; left; repeat apply after_log; assumption
  | repeat apply after_files; assumption ].

Lemma harmless_wait_for_chart_load p :
  harmless (Scraper._wait_for_chart_load E p).
Proof.
  intros w. unfold Scraper._wait_for_chart_load, try_except, bind, Scraper.call,
    Scraper.info, Scraper.warning, logging.
  destruct (Scraper.answer E (WaitForSelector _ _ _) w) as [e1|] eqn:H1; simpl.
  - rewrite (answer_Exception _ _ _ H1). solve_harmless.
  - destruct (Scraper.answer E (AsyncioSleep 3) _) as [e2|] eqn:H2; simpl.
    + rewrite (answer_Exception _ _ _ H2). solve_harmless.
    + solve_harmless.
Qed.

Lemma harmless_configure_chart_view p :
  harmless (Scraper._configure_chart_view E p).
Proof.
  intros w. unfold Scraper._configure_chart_view, try_except, bind, Scraper.call,
    Scraper.info, Scraper.warning, logging.
  destruct (Scraper.answer E (Evaluate _ _) w) as [e1|] eqn:H1; simpl.
  - rewrite (answer_Exception _ _ _ H1). solve_harmless.
  - solve_harmless.
Qed.

(** What [capture_body] does: it never opens or closes a page, it keeps the
    log, and it returns the path of the file it wrote unless a capture-level
    request raised, whose exception it then raises. *)
Lemma capture_body_spec p symbol url w r w' :
  Scraper.capture_body E BASE_DIR p symbol url w = (r, w') ->
  exists t,
    trace w' = (trace w ++ t)%list
    /\ Forall (fun ra => page_lifecycle (fst ra) = false) t
    /\ (forall x, In x (log w) -> In x (log w'))
    /\ match r with
       | Return path =>
           first_failure t = None
           /\ (exists tm,
                 path = Pathlib.str
                          (Pathlib.join (Config.SCREENSHOTS_DIR BASE_DIR)
                             (Scraper.screenshot_filename symbol tm)))
           /\ In path (files w')
       | Raise e => first_failure t = Some e
       | Diverge => False
       end.
Proof.
  unfold Scraper.capture_body.
  unfold bind at 1. unfold Scraper.call at 1.
  destruct (Scraper.answer E (SetViewportSize _ _ _) w) as [e1|] eqn:H1.
  { intros [= <- <-].
    exists [(SetViewportSize p Config.SCREENSHOT_WIDTH Config.SCREENSHOT_HEIGHT, Some e1)].
    rewrite after_trace, H1.
    repeat split; auto using after_log. }
  unfold bind at 1. unfold Scraper.info at 1, logging at 1.
  set (w1 := add_log _ _ _ (Scraper.after E _ w)).
  assert (Ht1 : trace w1 = (trace w ++ [(SetViewportSize p Config.SCREENSHOT_WIDTH Config.SCREENSHOT_HEIGHT, None)])%list).
  { unfold w1. simpl. now rewrite after_trace, H1. }
  assert (Hl1 : forall x, In x (log w) -> In x (log w1)).
  { intros x Hx. unfold w1. simpl. apply in_or_app. left. now apply after_log. }
  unfold bind at 1. unfold Scraper.call at 1.
  destruct (Scraper.answer E (Goto _ _ _) w1) as [e2|] eqn:H2.
  { intros [= <- <-].
    exists [(SetViewportSize p Config.SCREENSHOT_WIDTH Config.SCREENSHOT_HEIGHT, None);
            (Goto p url Config.BROWSER_TIMEOUT, Some e2)].
    rewrite after_trace, H2, Ht1, <- app_assoc.
    repeat split; auto using after_log. }
  set (w2 := Scraper.after E _ w1).
  assert (Ht2 : trace w2 = (trace w ++ [(SetViewportSize p Config.SCREENSHOT_WIDTH Config.SCREENSHOT_HEIGHT, None);
                                        (Goto p url Config.BROWSER_TIMEOUT, None)])%list).
  { unfold w2. now rewrite after_trace, H2, Ht1, <- app_assoc. }
  assert (Hl2 : forall x, In x (log w) -> In x (log w2)).
  { intros x Hx. unfold w2. now apply after_log, Hl1. }
  unfold bind at 1.
  destruct (harmless_wait_for_chart_load p w2) as (w3 & t3 & Heq3 & Ht3 & Hb3 & Hl3 & _).
  rewrite Heq3.
  unfold bind at 1.
  destruct (harmless_configure_chart_view p w3) as (w4 & t4 & Heq4 & Ht4 & Hb4 & Hl4 & _).
  rewrite Heq4.
  unfold bind at 1. unfold bind at 1. unfold Scraper.call at 1.
  set (path := Pathlib.str _).
  assert (Ht : trace w4 = (trace w ++ ([(SetViewportSize p Config.SCREENSHOT_WIDTH Config.SCREENSHOT_HEIGHT, None);
                                        (Goto p url Config.BROWSER_TIMEOUT, None)] ++ t3 ++ t4))%list).
  { rewrite Ht4, Ht3, Ht2, <- !app_assoc. reflexivity. }
  pose proof (best_effort_not_lifecycle _ Hb3) as Hc3.
  pose proof (best_effort_not_lifecycle _ Hb4) as Hc4.
  pose proof (first_failure_best_effort _ Hb3) as Hf3.
  pose proof (first_failure_best_effort _ Hb4) as Hf4.
  destruct (Scraper.answer E (Screenshot _ _ _) w4) as [e3|] eqn:H3.
  { intros [= <- <-].
    exists ([(SetViewportSize p Config.SCREENSHOT_WIDTH Config.SCREENSHOT_HEIGHT, None);
             (Goto p url Config.BROWSER_TIMEOUT, None)] ++ (t3 ++ t4)
            ++ [(Screenshot p path false, Some e3)])%list.
    rewrite after_trace, H3, Ht, <- !app_assoc.
    split; [reflexivity|]. split; [|split].
    - repeat first [apply Forall_cons | apply Forall_nil | apply Forall_app; split];
        auto.
    - intros x Hx. apply after_log. auto.
    - simpl. now rewrite !first_failure_app, Hf3, Hf4. }
  unfold bind at 1. unfold Scraper.info at 1, logging at 1. unfold ret.
  intros [= <- <-].
  exists ([(SetViewportSize p Config.SCREENSHOT_WIDTH Config.SCREENSHOT_HEIGHT, None);
           (Goto p url Config.BROWSER_TIMEOUT, None)] ++ (t3 ++ t4)
          ++ [(Screenshot p path false, None)])%list.
  split; [|split; [|split]].
  - simpl. rewrite after_trace, H3, Ht, <- !app_assoc. reflexivity.
  - repeat first [apply Forall_cons | apply Forall_nil | apply Forall_app; split];
      auto.
  - intros x Hx. simpl. apply in_or_app. left. apply after_log. auto.
  - split; [|split].
    + simpl. now rewrite !first_failure_app, Hf3, Hf4.
    + eexists. reflexivity.
    + simpl. now apply after_screenshot.
Qed.

(** The guarded part of a capture whose page exists: it returns the path
    of the file written, or, when a capture-level request raised, [None]
    with that exception logged. *)
Lemma capture_guarded_spec p symbol url w r w' :
  Scraper.capture_guarded E BASE_DIR (Return p) symbol url w = (r, w') ->
  exists t,
    trace w' = (trace w ++ t)%list
    /\ match first_failure t with
       | None =>
           exists tm,
             r = Return (Some (Pathlib.str
                                 (Pathlib.join (Config.SCREENSHOTS_DIR BASE_DIR)
                                    (Scraper.screenshot_filename symbol tm))))
             /\ In (Pathlib.str
                      (Pathlib.join (Config.SCREENSHOTS_DIR BASE_DIR)
                         (Scraper.screenshot_filename symbol tm)))
                   (files w')
       | Some e =>
           r = Return None
           /\ In (ScraperLogger, ERROR,
                  "Failed to capture screenshot for " ++ symbol ++ ": "
                    ++ exc_str e)
                 (log w')
       end.
Proof.
  unfold Scraper.capture_guarded, try_except. unfold bind at 1 2. unfold resume.
  pose proof (raises_capture_body E BASE_DIR p symbol url w) as Hr.
  destruct (Scraper.capture_body E BASE_DIR p symbol url w) as [rb wb] eqn:Hb.
  destruct (capture_body_spec _ _ _ _ _ _ Hb) as (t & Ht & _ & _ & Hcase).
  simpl in Hr. destruct rb as [path|e|]; [| |contradiction].
  - unfold ret. intros [= <- <-]. exists t. split; [exact Ht|].
    destruct Hcase as (-> & [tm ->] & Hin). eauto.
  - rewrite (from_env_Exception E e only Hr).
    unfold bind, Scraper.error, logging, ret. intros [= <- <-].
    exists t. split; [exact Ht|]. rewrite Hcase. split; [reflexivity|].
    simpl. apply in_or_app. right. now left.
Qed.

End WithEnv.
End CaptureFacts.

(** ** The page of one capture *)

Module PageFacts.
Import Py Spec RuntimeFacts ScraperFacts CaptureFacts.
Local Open Scope py_scope.

Section WithEnv.

Variable E : env.
Variable BASE_DIR : Pathlib.Path.

Lemma sends_wait_for_chart_load p :
  sends steady (Scraper._wait_for_chart_load E p).
Proof.
  unfold Scraper._wait_for_chart_load. apply sends_try_except.
  - repeat (apply sends_bind; [|intros ?]);
      try apply sends_logging; now apply sends_call.
  - intros e. apply sends_logging.
Qed.

Lemma sends_configure_chart_view p :
  sends steady (Scraper._configure_chart_view E p).
Proof.
  unfold Scraper._configure_chart_view. apply sends_try_except.
  - apply sends_bind; [now apply sends_call | intros ?; apply sends_logging].
  - intros e. apply sends_logging.
Qed.

Lemma sends_capture_body p symbol url :
  sends steady (Scraper.capture_body E BASE_DIR p symbol url).
Proof.
  unfold Scraper.capture_body.
  apply sends_bind; [now apply sends_call | intros _].
  apply sends_bind; [apply sends_logging | intros _].
  apply sends_bind; [now apply sends_call | intros _].
  apply sends_bind; [apply sends_wait_for_chart_load | intros _].
  apply sends_bind; [apply sends_configure_chart_view | intros _].
  apply sends_bind; [intros w; exists []; simpl; now rewrite app_nil_r | intros t].
  apply sends_bind; [now apply sends_call | intros _].
  apply sends_bind; [apply sends_logging | intros _].
  apply sends_ret.
Qed.

Lemma sends_capture_guarded created symbol url :
  sends steady (Scraper.capture_guarded E BASE_DIR created symbol url).
Proof.
  unfold Scraper.capture_guarded. apply sends_try_except.
  - apply sends_bind; [intros w; exists []; simpl; now rewrite app_nil_r | intros p].
    apply sends_bind; [apply sends_capture_body | intros path].
    apply sends_ret.
  - intros e. apply sends_bind; [apply sends_logging | intros _].
    apply sends_ret.
Qed.

(** When [new_page] raises, nothing else is requested. *)
Lemma capture_guarded_not_created e symbol url w :
  trace (snd (Scraper.capture_guarded E BASE_DIR (Raise e) symbol url w)) = trace w.
Proof.
  unfold Scraper.capture_guarded, try_except, bind, resume. simpl.
  destruct (isinstance_Exception e); reflexivity.
Qed.

(** The shape of a capture that holds a browser: either [new_page] raised
    and that was the only request, or the page was created, the guarded part
    ran without opening or closing a page, and [page.close()] was the last
    request. *)
Lemma capture_screenshot_shape symbol url w b r w' :
  browser w = Some b ->
  Scraper.capture_screenshot E BASE_DIR symbol url w = (r, w') ->
  (exists e,
      Scraper.answer E (NewPage b) w = Some e
      /\ (r, w') = Scraper.capture_guarded E BASE_DIR (Raise e) symbol url
                     (Scraper.after E (NewPage b) w)
      /\ new_trace w w' = [(NewPage b, Some e)])
  \/ (exists r1 w2 mid,
        Scraper.answer E (NewPage b) w = None
        /\ Scraper.capture_guarded E BASE_DIR (Return (steps w)) symbol url
             (Scraper.after E (NewPage b) w) = (r1, w2)
        /\ trace w2 = (trace w ++ (NewPage b, None) :: mid)%list
        /\ Forall (fun ra => page_lifecycle (fst ra) = false) mid
        /\ r1 <> Diverge
        /\ w' = Scraper.after E (PageClose (steps w)) w2
        /\ r = match Scraper.answer E (PageClose (steps w)) w2 with
               | None => r1
               | Some e => Raise e
               end
        /\ new_trace w w' =
             ((NewPage b, None) :: mid
                ++ [(PageClose (steps w), Scraper.answer E (PageClose (steps w)) w2)])%list).
Proof.
  intros Hb. unfold Scraper.capture_screenshot. rewrite Hb.
  unfold Scraper.create, Scraper.call.
  destruct (Scraper.answer E (NewPage b) w) as [e|] eqn:Ha.
  - intros H. left. exists e. split; [reflexivity|].
    unfold try_finally, Scraper.close_page, ret in H.
    pose proof (capture_guarded_not_created e symbol url (Scraper.after E (NewPage b) w)) as Ht.
    destruct (Scraper.capture_guarded E BASE_DIR (Raise e) symbol url _) as [[v|e'|] w1];
      injection H as <- <-; (split; [reflexivity|]);
      apply new_trace_app; simpl in Ht; now rewrite Ht, after_trace, Ha.
  - intros H. right.
    unfold try_finally, Scraper.close_page, Scraper.call in H.
    set (w1 := Scraper.after E (NewPage b) w) in *.
    destruct (sends_capture_guarded (Return (steps w)) symbol url w1) as (mid & Hmid & Hq).
    pose proof (raises_capture_guarded E BASE_DIR symbol url (Return (steps w)) I w1) as Hr.
    destruct (Scraper.capture_guarded E BASE_DIR (Return (steps w)) symbol url w1)
      as [r1 w2] eqn:Hg.
    simpl in Hmid, Hr.
    assert (Ht2 : trace w2 = (trace w ++ (NewPage b, None) :: mid)%list).
    { rewrite Hmid. unfold w1. rewrite after_trace, Ha, <- app_assoc. reflexivity. }
    exists r1, w2, mid. split; [reflexivity|]. split; [reflexivity|].
    split; [exact Ht2|]. split; [exact Hq|].
    assert (Hnd : r1 <> Diverge) by (intros ->; exact Hr).
    split; [exact Hnd|].
    assert (Hw' : w' = Scraper.after E (PageClose (steps w)) w2
                  /\ r = match Scraper.answer E (PageClose (steps w)) w2 with
                         | None => r1
                         | Some e => Raise e
                         end).
    { destruct r1 as [v|e1|]; [| |congruence];
        destruct (Scraper.answer E (PageClose (steps w)) w2);
        injection H as <- <-; auto. }
    destruct Hw' as [-> ->]. split; [reflexivity|]. split; [reflexivity|].
    apply new_trace_app. rewrite after_trace, Ht2, <- app_assoc. reflexivity.
Qed.

End WithEnv.
End PageFacts.

(** ** Warnings of the best-effort steps *)

Module WarningFacts.
Import Py Spec RuntimeFacts CaptureFacts.
Local Open Scope py_scope.

Lemma warned_mono rq e w w' :
  (forall x, In x (log w) -> In x (log w')) -> warned rq e w -> warned rq e w'.
Proof.
  intros Hl. unfold warned. destruct rq; auto.
Qed.

Lemma warns_silent A (m : M A) :
  (forall w, trace (snd (m w)) = trace w /\ log (snd (m w)) = log w) ->
  warns m.
Proof.
  intros H w. destruct (H w) as [Ht Hl]. exists []. rewrite app_nil_r.
  split; [exact Ht|]. split; [now rewrite Hl|]. intros rq e [].
Qed.

Lemma warns_logging l lv msg : warns (logging l lv msg).
Proof.
  intros w. exists []. rewrite app_nil_r. split; [reflexivity|].
  split; [|intros rq e []].
  intros x Hx. cbn [logging snd log add_log]. apply in_or_app. now left.
Qed.

Lemma warns_bind A B (m : M A) (k : A -> M B) :
  warns m -> (forall a, warns (k a)) -> warns (bind m k).
Proof.
  intros Hm Hk w. unfold bind.
  destruct (Hm w) as (t1 & Ht1 & Hl1 & Hw1).
  destruct (m w) as [[a|e|] w1]; cbn [snd] in *; eauto.
  destruct (Hk a w1) as (t2 & Ht2 & Hl2 & Hw2).
  exists (t1 ++ t2)%list. rewrite Ht2, Ht1, app_assoc.
  split; [reflexivity|]. split; [auto|].
  intros rq e Hin. apply in_app_or in Hin. destruct Hin as [Hin|Hin].
  - apply (warned_mono rq e w1); auto.
  - auto.
Qed.

Lemma warns_try_except A (body : M A) handler :
  warns body -> (forall e, warns (handler e)) -> warns (try_except body handler).
Proof.
  intros Hb Hh w. unfold try_except.
  destruct (Hb w) as (t1 & Ht1 & Hl1 & Hw1).
  destruct (body w) as [[a|e|] w1]; cbn [snd] in *; eauto.
  destruct (isinstance_Exception e); cbn [snd]; eauto.
  destruct (Hh e w1) as (t2 & Ht2 & Hl2 & Hw2).
  exists (t1 ++ t2)%list. rewrite Ht2, Ht1, app_assoc.
  split; [reflexivity|]. split; [auto|].
  intros rq e' Hin. apply in_app_or in Hin. destruct Hin as [Hin|Hin].
  - apply (warned_mono rq e' w1); auto.
  - auto.
Qed.

Lemma warns_try_finally A (body : M A) fin :
  warns body -> warns fin -> warns (try_finally body fin).
Proof.
  intros Hb Hf w. unfold try_finally.
  destruct (Hb w) as (t1 & Ht1 & Hl1 & Hw1).
  destruct (body w) as [r w1]; cbn [snd] in *.
  destruct (Hf w1) as (t2 & Ht2 & Hl2 & Hw2).
  assert (Hboth :
    exists t, trace (snd (fin w1)) = (trace w ++ t)%list
              /\ (forall x, In x (log w) -> In x (log (snd (fin w1))))
              /\ (forall rq e, In (rq, Some e) t -> warned rq e (snd (fin w1)))).
  { exists (t1 ++ t2)%list. rewrite Ht2, Ht1, app_assoc.
    split; [reflexivity|]. split; [auto|].
    intros rq e Hin. apply in_app_or in Hin. destruct Hin as [Hin|Hin].
    - apply (warned_mono rq e w1); auto.
    - auto. }
  destruct r as [a|e|]; [| |cbn [snd]; eauto];
    destruct (fin w1) as [[u|e'|] w2]; cbn [snd] in *; exact Hboth.
Qed.

Section WithEnv.

Variable E : env.
Variable BASE_DIR : Pathlib.Path.
Hypothesis only : exceptions_only E.

Lemma warns_call r : best_effort r = false -> warns (Scraper.call E r).
Proof.
  intros Hr w. exists [(r, Scraper.answer E r w)].
  unfold Scraper.call. cbn [snd]. rewrite after_trace.
  split; [reflexivity|]. split; [intros x; apply after_log|].
  intros rq e [[= <- _]|[]]. unfold warned. destruct r; try discriminate; exact I.
Qed.

Lemma warns_create r : best_effort r = false -> warns (Scraper.create E r).
Proof.
  intros Hr w. destruct (warns_call r Hr w) as (t & Ht & Hl & Hw).
  exists t. unfold Scraper.create.
  destruct (Scraper.call E r w) as [[u|e|] w1]; cbn [snd] in *; auto.
Qed.

Lemma warns_wait_for_chart_load p : warns (Scraper._wait_for_chart_load E p).
Proof.
  intros w. unfold Scraper._wait_for_chart_load, try_except, bind, Scraper.call,
    Scraper.info, Scraper.warning, logging.
  destruct (Scraper.answer E (WaitForSelector _ _ _) w) as [e1|] eqn:H1.
  - rewrite (answer_Exception E only _ _ _ H1). cbn [snd].
    exists [(WaitForSelector p Scraper.LEGEND_SELECTOR Config.BROWSER_TIMEOUT, Some e1)].
    cbn [trace log add_log]. rewrite after_trace, H1.
    split; [reflexivity|]. split.
    + intros x Hx. apply in_or_app. left. now apply after_log.
    + intros rq e [[= <- <-]|[]]. unfold warned. cbn [log add_log].
      apply in_or_app. right. now left.
  - destruct (Scraper.answer E (AsyncioSleep 3) (Scraper.after E _ w))
      as [e2|] eqn:H2.
    + rewrite (answer_Exception E only _ _ _ H2). cbn [snd].
      exists [(WaitForSelector p Scraper.LEGEND_SELECTOR Config.BROWSER_TIMEOUT, None);
              (AsyncioSleep 3, Some e2)].
      cbn [trace log add_log]. rewrite !after_trace, H1, H2, <- app_assoc.
      split; [reflexivity|]. split.
      * intros x Hx. apply in_or_app. left. now apply after_log, after_log.
      * intros rq e [[=]|[[= <- <-]|[]]]. unfold warned. cbn [log add_log].
        apply in_or_app. right. now left.
    + cbn [snd].
      exists [(WaitForSelector p Scraper.LEGEND_SELECTOR Config.BROWSER_TIMEOUT, None);
              (AsyncioSleep 3, None)].
      cbn [trace log add_log]. rewrite !after_trace, H1, H2, <- app_assoc.
      split; [reflexivity|]. split.
      * intros x Hx. apply in_or_app. left. now apply after_log, after_log.
      * intros rq e [[=]|[[=]|[]]].
Qed.

Lemma warns_configure_chart_view p : warns (Scraper._configure_chart_view E p).
Proof.
  intros w. unfold Scraper._configure_chart_view, try_except, bind, Scraper.call,
    Scraper.info, Scraper.warning, logging.
  destruct (Scraper.answer E (Evaluate _ _) w) as [e1|] eqn:H1.
  - rewrite (answer_Exception E only _ _ _ H1). cbn [snd].
    exists [(Evaluate p Scraper.HIDE_CHROME_SCRIPT, Some e1)].
    cbn [trace log add_log]. rewrite after_trace, H1.
    split; [reflexivity|]. split.
    + intros x Hx. apply in_or_app. left. now apply after_log.
    + intros rq e [[= <- <-]|[]]. unfold warned. cbn [log add_log].
      apply in_or_app. right. now left.
  - cbn [snd]. exists [(Evaluate p Scraper.HIDE_CHROME_SCRIPT, None)].
    cbn [trace log add_log]. rewrite after_trace, H1.
    split; [reflexivity|]. split.
    + intros x Hx. apply in_or_app. left. now apply after_log.
    + intros rq e [[=]|[]].
Qed.

Lemma warns_capture_body p symbol url :
  warns (Scraper.capture_body E BASE_DIR p symbol url).
Proof.
  unfold Scraper.capture_body, Scraper.info, ret.
  repeat first
    [ apply warns_bind; [|intros ?]
    | apply warns_call; reflexivity
    | apply warns_logging
    | apply warns_wait_for_chart_load
    | apply warns_configure_chart_view
    | apply warns_silent; intros ?; split; reflexivity ].
Qed.

Lemma warns_capture_guarded created symbol url :
  warns (Scraper.capture_guarded E BASE_DIR created symbol url).
Proof.
  unfold Scraper.capture_guarded, Scraper.error, resume, ret.
  apply warns_try_except; [|intros e];
    repeat first
      [ apply warns_capture_body
      | apply warns_logging
      | apply warns_bind; [|intros ?]
      | apply warns_silent; intros ?; split; reflexivity ].
Qed.

Lemma warns_close_page page : warns (Scraper.close_page E page).
Proof.
  destruct page as [p|]; simpl.
  - apply warns_call. reflexivity.
  - apply warns_silent. intros w. split; reflexivity.
Qed.

(** A capture leaves a warning in the log for every request that raised
    inside one of its two best-effort steps. *)
Lemma warns_capture_screenshot symbol url :
  warns (Scraper.capture_screenshot E BASE_DIR symbol url).
Proof.
  intros w. unfold Scraper.capture_screenshot.
  destruct (browser w) as [b|].
  - destruct (warns_create (NewPage b) eq_refl w) as (t1 & Ht1 & Hl1 & Hw1).
    destruct (Scraper.create E (NewPage b) w) as [created w1]. cbn [snd] in *.
    destruct (warns_try_finally _ _ _
                (warns_capture_guarded created symbol url)
                (warns_close_page
                   (match created with Return p => Some p | _ => None end)) w1)
      as (t2 & Ht2 & Hl2 & Hw2).
    exists (t1 ++ t2)%list. rewrite Ht2, Ht1, app_assoc.
    split; [reflexivity|]. split; [auto|].
    intros rq e Hin. apply in_app_or in Hin. destruct Hin as [Hin|Hin].
    + apply (warned_mono rq e w1); auto.
    + auto.
  - exists []. cbn [snd]. rewrite app_nil_r.
    split; [reflexivity|]. split; [auto|]. intros rq e [].
Qed.

End WithEnv.
End WarningFacts.

(** ** Paths and timestamps *)

Module PathFacts.

Lemma lacks_app sep a b :
  Str.lacks sep (a ++ b) = Str.lacks sep a && Str.lacks sep b.
Proof.
  induction a as [|c a IH]; simpl; [reflexivity|].
  now rewrite IH, andb_assoc.
Qed.

Lemma split_on_lacks sep s :
  Str.lacks sep s = true -> Str.split_on sep s = [s].
Proof.
  induction s as [|c s IH]; simpl; [reflexivity|].
  intros H. apply andb_prop in H. destruct H as [Hc Hs].
  destruct (Ascii.eqb c sep); [discriminate|].
  now rewrite (IH Hs).
Qed.

Lemma split_on_app_sep sep p s :
  Str.lacks sep p = true ->
  Str.split_on sep (p ++ String sep s) = p :: Str.split_on sep s.
Proof.
  induction p as [|c p IH]; simpl.
  - intros _. now rewrite Ascii.eqb_refl.
  - intros H. apply andb_prop in H. destruct H as [Hc Hp].
    destruct (Ascii.eqb c sep); [discriminate|].
    now rewrite (IH Hp).
Qed.

Lemma split_on_join sep ps :
  forallb (Str.lacks sep) ps = true ->
  Str.split_on sep (Str.join (String sep EmptyString) ps) =
  match ps with [] => [EmptyString] | _ => ps end.
Proof.
  induction ps as [|p ps IH]; [reflexivity|].
  intros H. simpl in H. apply andb_prop in H. destruct H as [Hp Hps].
  destruct ps as [|q ps].
  - simpl. now apply split_on_lacks.
  - change (Str.join (String sep EmptyString) (p :: q :: ps))
      with (p ++ String sep (Str.join (String sep EmptyString) (q :: ps))).
    rewrite (split_on_app_sep _ _ _ Hp), (IH Hps). reflexivity.
Qed.

Lemma parse_root_other c s :
  Ascii.eqb c "/" = false -> Pathlib.parse_root (String c s) = "".
Proof.
  destruct c as [[] [] [] [] [] [] [] []]; simpl; intros H;
    try reflexivity; discriminate.
Qed.

Lemma parse_root_one c s :
  Ascii.eqb c "/" = false -> Pathlib.parse_root (String "/" (String c s)) = "/".
Proof.
  destruct c as [[] [] [] [] [] [] [] []]; simpl; intros H;
    try reflexivity; discriminate.
Qed.

Lemma parse_root_two c s :
  Ascii.eqb c "/" = false ->
  Pathlib.parse_root (String "/" (String "/" (String c s))) = "//".
Proof.
  destruct c as [[] [] [] [] [] [] [] []]; simpl; intros H;
    try reflexivity; discriminate.
Qed.

Lemma parse_root_lacks s :
  Str.lacks Str.slash s = true -> Pathlib.parse_root s = "".
Proof.
  destruct s as [|c s]; [reflexivity|]. intros H.
  cbn [Str.lacks] in H. apply andb_prop in H. destruct H as [Hc _].
  apply parse_root_other. unfold Str.slash in Hc.
  now destruct (Ascii.eqb c "/").
Qed.

Lemma is_component_underscore s rest :
  Pathlib.is_component (s ++ String "_" rest) = true.
Proof.
  unfold Pathlib.is_component.
  destruct s as [|c s]; simpl; [reflexivity|].
  destruct (Ascii.eqb c "."); [|reflexivity].
  destruct s; reflexivity.
Qed.

(** A right operand that is one component is appended. *)
Lemma join_component p n :
  Str.lacks Str.slash n = true -> Pathlib.is_component n = true ->
  Pathlib.join p n = Pathlib.child p n.
Proof.
  intros Hl Hc. unfold Pathlib.join, Pathlib.parse, Pathlib.child.
  rewrite (parse_root_lacks _ Hl), (split_on_lacks _ _ Hl). simpl.
  now rewrite Hc.
Qed.

Lemma parent_child p n : Pathlib.parent (Pathlib.child p n) = p.
Proof.
  destruct p as [r ps]. unfold Pathlib.parent, Pathlib.child. simpl.
  now rewrite removelast_last.
Qed.

Lemma name_child p n : Pathlib.name (Pathlib.child p n) = n.
Proof. unfold Pathlib.name, Pathlib.child. simpl. apply last_last. Qed.

Lemma wf_child p n :
  Pathlib.wf p = true ->
  Str.lacks Str.slash n = true -> Pathlib.is_component n = true ->
  Pathlib.wf (Pathlib.child p n) = true.
Proof.
  unfold Pathlib.wf, Pathlib.child. simpl. intros H Hl Hc.
  apply andb_prop in H. destruct H as [Hr Hps].
  rewrite Hr, forallb_app, Hps. simpl. now rewrite Hl, Hc.
Qed.

Lemma filter_components ps :
  forallb (fun s => Str.lacks Str.slash s && Pathlib.is_component s) ps = true ->
  filter Pathlib.is_component ps = ps
  /\ forallb (Str.lacks Str.slash) ps = true.
Proof.
  induction ps as [|p ps IH]; simpl; [auto|].
  intros H. apply andb_prop in H. destruct H as [Hp Hps].
  apply andb_prop in Hp. destruct Hp as [Hl Hc].
  destruct (IH Hps) as [-> ->]. now rewrite Hl, Hc.
Qed.

(** The first character of a joined list of components is not a slash. *)
Lemma join_head p ps :
  Str.lacks Str.slash p = true -> Pathlib.is_component p = true ->
  exists c s, Str.join "/" (p :: ps) = String c s /\ Ascii.eqb c "/" = false.
Proof.
  intros Hl Hc. destruct p as [|c p]; [discriminate|].
  cbn [Str.lacks] in Hl. apply andb_prop in Hl. destruct Hl as [Hne _].
  unfold Str.slash in Hne.
  exists c. destruct ps as [|q ps]; simpl; eexists; split; try reflexivity;
    now destruct (Ascii.eqb c "/").
Qed.

Lemma split_on_slash_head s :
  Str.split_on Str.slash (String "/" s) = "" :: Str.split_on Str.slash s.
Proof. reflexivity. Qed.

Lemma filter_drop_empty l :
  filter Pathlib.is_component ("" :: l) = filter Pathlib.is_component l.
Proof. reflexivity. Qed.

(** [Path(str(p)) == p]. *)
Lemma parse_str p : Pathlib.wf p = true -> Pathlib.parse (Pathlib.str p) = p.
Proof.
  destruct p as [r ps]. unfold Pathlib.wf. simpl. intros H.
  apply andb_prop in H. destruct H as [Hr Hps].
  destruct (filter_components _ Hps) as [Hf Hl].
  pose proof (split_on_join Str.slash ps Hl) as Hsplit.
  change (String Str.slash EmptyString) with "/" in Hsplit.
  assert (Hhead : ps <> [] -> exists c s,
             Str.join "/" ps = String c s /\ Ascii.eqb c "/" = false).
  { destruct ps as [|p ps']; [congruence|]. intros _.
    simpl in Hps. apply andb_prop in Hps. destruct Hps as [Hp _].
    apply andb_prop in Hp. destruct Hp as [Hpl Hpc]. now apply join_head. }
  unfold Pathlib.parse, Pathlib.str. cbn [Pathlib.root Pathlib.parts].
  destruct (String.eqb_spec r "") as [->|Hr0].
  - destruct ps as [|p ps']; [reflexivity|].
    destruct Hhead as (c & s & Hj & Hc); [discriminate|].
    change (("" ++ Str.join "/" (p :: ps'))%string) with (Str.join "/" (p :: ps')).
    rewrite Hsplit, Hf, Hj. now rewrite (parse_root_other _ _ Hc).
  - destruct (String.eqb_spec r "/") as [->|Hr1].
    + destruct ps as [|p ps'].
      * reflexivity.
      * destruct Hhead as (c & s & Hj & Hc); [discriminate|].
        change (("/" ++ Str.join "/" (p :: ps'))%string)
          with (String "/" (Str.join "/" (p :: ps'))).
        rewrite split_on_slash_head, filter_drop_empty, Hsplit, Hf, Hj.
        now rewrite (parse_root_one _ _ Hc).
    + destruct (String.eqb_spec r "//") as [->|Hr2]; [|discriminate].
      destruct ps as [|p ps'].
      * reflexivity.
      * destruct Hhead as (c & s & Hj & Hc); [discriminate|].
        change (("//" ++ Str.join "/" (p :: ps'))%string)
          with (String "/" (String "/" (Str.join "/" (p :: ps')))).
        rewrite !split_on_slash_head, !filter_drop_empty, Hsplit, Hf, Hj.
        now rewrite (parse_root_two _ _ Hc).
Qed.

Lemma digit_not_slash n : Ascii.eqb (Str.digit n) "/" = false.
Proof.
  unfold Str.digit. pose proof (Nat.mod_upper_bound n 10) as H.
  destruct (n mod 10) as [|[|[|[|[|[|[|[|[|[|m]]]]]]]]]]; try reflexivity.
  lia.
Qed.

Lemma lacks_pad2 n : Str.lacks Str.slash (Str.pad2 n) = true.
Proof.
  unfold Str.pad2. cbn [Str.lacks]. unfold Str.slash.
  now rewrite !digit_not_slash.
Qed.

Lemma lacks_pad4 n : Str.lacks Str.slash (Str.pad4 n) = true.
Proof.
  unfold Str.pad4. cbn [Str.lacks]. rewrite lacks_pad2. unfold Str.slash.
  now rewrite !digit_not_slash.
Qed.

Lemma append_empty_r s : (s ++ "")%string = s.
Proof. induction s as [|c s IH]; simpl; [reflexivity | now rewrite IH]. Qed.

(** The configured format, directive by directive: nothing finer than the
    second enters the timestamp. *)
Lemma strftime_configured t :
  Datetime.strftime Config.TIMESTAMP_FORMAT t =
  Str.pad4 (Datetime.year t) ++ Str.pad2 (Datetime.month t)
    ++ Str.pad2 (Datetime.day t) ++ "_" ++ Str.pad2 (Datetime.hour t)
    ++ Str.pad2 (Datetime.minute t) ++ Str.pad2 (Datetime.second t).
Proof.
  unfold Config.TIMESTAMP_FORMAT.
  cbn [Datetime.strftime Datetime.directive Ascii.eqb Bool.eqb].
  now rewrite append_empty_r.
Qed.

Lemma lacks_timestamp t :
  Str.lacks Str.slash (Datetime.strftime Config.TIMESTAMP_FORMAT t) = true.
Proof.
  rewrite strftime_configured.
  rewrite !lacks_app, lacks_pad4, !lacks_pad2. reflexivity.
Qed.

Lemma filename_component symbol t :
  Str.lacks Str.slash symbol = true ->
  Str.lacks Str.slash (Scraper.screenshot_filename symbol t) = true
  /\ Pathlib.is_component (Scraper.screenshot_filename symbol t) = true.
Proof.
  intros Hs. unfold Scraper.screenshot_filename. split.
  - rewrite !lacks_app, Hs, lacks_timestamp. reflexivity.
  - apply is_component_underscore.
Qed.

End PathFacts.

(** ** What a capture returns *)

Module ReturnFacts.
Import Py Spec.
Local Open Scope py_scope.

Lemma bind_returns A B (m : M A) (k : A -> M B) w b w' :
  bind m k w = (Return b, w') ->
  exists a w1, m w = (Return a, w1) /\ k a w1 = (Return b, w').
Proof.
  unfold bind. destruct (m w) as [[a|e|] w1]; try discriminate. eauto.
Qed.

Lemma capture_body_returns E BASE_DIR p symbol url w path w' :
  Scraper.capture_body E BASE_DIR p symbol url w = (Return path, w') ->
  exists n,
    path = Pathlib.str (Pathlib.join (Config.SCREENSHOTS_DIR BASE_DIR)
                          (Scraper.screenshot_filename symbol (now E n))).
Proof.
  unfold Scraper.capture_body. intros H.
  do 5 (apply bind_returns in H; destruct H as (? & ? & _ & H)).
  apply bind_returns in H. destruct H as (tm & w1 & Htm & H).
  injection Htm as <- _.
  do 2 (apply bind_returns in H; destruct H as (? & ? & _ & H)).
  unfold ret in H. injection H as <- _. eauto.
Qed.

Lemma capture_guarded_returns E BASE_DIR created symbol url w path w' :
  Scraper.capture_guarded E BASE_DIR created symbol url w
    = (Return (Some path), w') ->
  exists n,
    path = Pathlib.str (Pathlib.join (Config.SCREENSHOTS_DIR BASE_DIR)
                          (Scraper.screenshot_filename symbol (now E n))).
Proof.
  unfold Scraper.capture_guarded, try_except.
  match goal with
  | |- context [match ?body w with _ => _ end] =>
      destruct (body w) as [[v|e|] w1] eqn:Hbody
  end.
  - intros [= -> ->].
    apply bind_returns in Hbody. destruct Hbody as (p & w2 & _ & Hbody).
    apply bind_returns in Hbody. destruct Hbody as (path' & w3 & Hcb & Hret).
    unfold ret in Hret. injection Hret as -> _.
    eapply capture_body_returns; eauto.
  - destruct (isinstance_Exception e); [|discriminate].
    unfold bind, Scraper.error, logging, ret. discriminate.
  - discriminate.
Qed.

Lemma capture_screenshot_returns E BASE_DIR symbol url w path w' :
  Scraper.capture_screenshot E BASE_DIR symbol url w = (Return (Some path), w') ->
  exists n,
    path = Pathlib.str (Pathlib.join (Config.SCREENSHOTS_DIR BASE_DIR)
                          (Scraper.screenshot_filename symbol (now E n))).
Proof.
  unfold Scraper.capture_screenshot.
  destruct (browser w) as [b|]; [|discriminate].
  destruct (Scraper.create E (NewPage b) w) as [created w1].
  unfold try_finally.
  destruct (Scraper.capture_guarded E BASE_DIR created symbol url w1)
    as [[v|e|] w2] eqn:Hg; [| |discriminate];
    destruct (Scraper.close_page E _ w2) as [[[]|e'|] w3]; try discriminate.
  intros [= -> _]. eapply capture_guarded_returns; eauto.
Qed.

End ReturnFacts.

(** ** The pipeline's shutdown *)

Module PipelineFacts.
Import Py Spec RuntimeFacts.
Local Open Scope py_scope.

Lemma stop_without_browser E w :
  browser w = None -> scheduler_running w = false ->
  Pipeline.stop E w =
    (Return tt,
     add_log PipelineLogger INFO "Pipeline stopped successfully"
       (add_log PipelineLogger INFO "Stopping pipeline..." w)).
Proof.
  intros Hb Hs.
  unfold Pipeline.stop, bind, Pipeline.info, logging, Scraper.close_browser.
  simpl. rewrite Hs. unfold ret. simpl. rewrite Hb. reflexivity.
Qed.

(** A failed [start_browser] leaves the scraper without the browser it did
    not have, and does not touch the scheduler. *)
Lemma start_browser_failure E w e w1 :
  Scraper.start_browser E w = (Raise e, w1) ->
  browser w1 = browser w /\ scheduler_running w1 = scheduler_running w.
Proof.
  unfold Scraper.start_browser, try_except, bind, Scraper.create,
    Scraper.call, Scraper.info, Scraper.error, logging, raise.
  destruct (Scraper.answer E PlaywrightStart w) as [e1|]; simpl.
  - destruct (isinstance_Exception e1); simpl; intros [= _ <-]; simpl;
      rewrite after_browser, after_scheduler by discriminate; auto.
  - destruct (Scraper.answer E (Launch _ _) _) as [e2|]; simpl;
      [|discriminate].
    destruct (isinstance_Exception e2); simpl; intros [= _ <-]; simpl;
      rewrite !after_browser, !after_scheduler by discriminate; auto.
Qed.

Lemma launch_failure E w msg :
  launch_fails E (steps w) msg ->
  exists w1,
    Scraper.start_browser E w = (Raise (Raised ExceptionClass msg), w1)
    /\ In (ScraperLogger, ERROR, "Failed to start browser: " ++ msg) (log w1).
Proof.
  unfold Scraper.start_browser, try_except, bind, Scraper.create, Scraper.call,
    Scraper.answer.
  intros [H|[H1 H2]].
  - rewrite H. simpl. eexists. split; [reflexivity|].
    simpl. apply in_or_app. right. now left.
  - rewrite H1. rewrite after_steps, H2. simpl. eexists. split; [reflexivity|].
    simpl. apply in_or_app. right. now left.
Qed.

(** [start] after a launch that failed: the exception is logged twice, [stop]
    runs, and [main] returns. *)
Lemma main_after_launch_failure E BASE_DIR SYMBOLS fuel w msg :
  launch_fails E (steps w) msg ->
  exists w',
    Pipeline.main E BASE_DIR SYMBOLS fuel w = (Return tt, w')
    /\ In (ScraperLogger, ERROR, "Failed to start browser: " ++ msg) (log w')
    /\ In (PipelineLogger, ERROR, "Pipeline error: " ++ msg) (log w').
Proof.
  intros Hfail.
  unfold Pipeline.main, bind, Pipeline.__init__, Pipeline.start, try_finally,
    Pipeline.start_body.
  unfold bind at 1. unfold Pipeline.info at 1, logging at 1.
  set (w0 := add_log PipelineLogger INFO _ _).
  destruct (launch_failure E w0 msg Hfail) as (w1 & Hsb & Hlog).
  destruct (start_browser_failure _ _ _ _ Hsb) as [Hb1 Hs1].
  unfold bind at 1. rewrite Hsb. cbn [isinstance_KeyboardInterrupt isinstance_Exception].
  unfold Pipeline.error at 1, logging at 1. cbn [exc_str].
  rewrite stop_without_browser; [| exact Hb1 | exact Hs1].
  eexists. split; [reflexivity|]. simpl. split.
  - apply in_or_app. left. apply in_or_app. left. apply in_or_app. left. exact Hlog.
  - apply in_or_app. left. apply in_or_app. left. apply in_or_app. right. now left.
Qed.

End PipelineFacts.

(** * The claims *)

Module Claims.
Import Py Spec RuntimeFacts ScraperFacts PipelineFacts.
Local Open Scope py_scope.

(** C1.  Whatever the symbol table and however many captures fail, one call
    of [capture_all_screenshots] returns a mapping whose keys are the
    configured symbol names, each of them once.  (A failure is a returned
    [None] or a raised [Exception].) *)
Theorem capture_all_keys E BASE_DIR SYMBOLS w :
  exceptions_only E ->
  exists results w',
    Scraper.capture_all_screenshots E BASE_DIR SYMBOLS w = (Return results, w')
    /\ NoDup (Dict.keys results)
    /\ (forall k, In k (Dict.keys results) <-> In k (Dict.keys SYMBOLS)).
Proof.
  intros HE. unfold Scraper.capture_all_screenshots.
  destruct (capture_loop_returns E BASE_DIR (Dict.items SYMBOLS) [] w HE)
    as (results & w' & Hloop).
  exists results, w'. split; [exact Hloop|].
  destruct (capture_loop_keys _ _ _ _ _ _ _ Hloop) as [Hk Hnd]. split.
  - apply Hnd. constructor.
  - intros k. rewrite Hk. simpl. unfold Dict.keys, Dict.items. tauto.
Qed.

Lemma E_eth_times_out_exceptions_only :
  exceptions_only Examples.E_eth_times_out.
Proof.
  intros n r c msg. simpl. destruct r; try discriminate.
  destruct (String.eqb url _); [|discriminate].
  now intros [= <- _].
Qed.

Lemma capture_all_keys_witness :
  exists results w',
    Scraper.capture_all_screenshots Examples.E_eth_times_out Examples.base
      Config.CRYPTO_SYMBOLS Examples.live = (Return results, w')
    /\ NoDup (Dict.keys results)
    /\ (forall k, In k (Dict.keys results)
                  <-> In k (Dict.keys Config.CRYPTO_SYMBOLS)).
Proof.
  apply capture_all_keys. exact E_eth_times_out_exceptions_only.
Defined.

(** C2.  When the capture of a symbol raises an [Exception], the aggregator
    catches it, logs it, records [None] for the symbol and goes on with the
    loop over every later symbol: the run over the whole table is the run
    over the symbols that follow, and it returns a mapping that holds all of
    them. *)
Theorem aggregator_continues_past_failure
  E BASE_DIR SYMBOLS pre symbol url post w results1 w1 e w2 :
  Dict.items SYMBOLS = (pre ++ (symbol, url) :: post)%list ->
  Scraper.capture_loop E BASE_DIR pre [] w = (Return results1, w1) ->
  Scraper.capture_screenshot E BASE_DIR symbol url w1 = (Raise e, w2) ->
  isinstance_Exception e = true ->
  Scraper.capture_all_screenshots E BASE_DIR SYMBOLS w =
    Scraper.capture_loop E BASE_DIR post (Dict.set results1 symbol None)
      (add_log ScraperLogger ERROR
         ("Error capturing " ++ symbol ++ ": " ++ exc_str e) w2)
  /\ (exceptions_only E ->
      exists results w',
        Scraper.capture_all_screenshots E BASE_DIR SYMBOLS w = (Return results, w')
        /\ (~ In symbol (map fst post) -> Dict.get results symbol = Some None)
        /\ (forall k, In k (map fst post) -> In k (Dict.keys results))).
Proof.
  intros Hitems Hpre Hcap He.
  assert (Heq : Scraper.capture_all_screenshots E BASE_DIR SYMBOLS w =
    Scraper.capture_loop E BASE_DIR post (Dict.set results1 symbol None)
      (add_log ScraperLogger ERROR
         ("Error capturing " ++ symbol ++ ": " ++ exc_str e) w2)).
  { unfold Scraper.capture_all_screenshots. rewrite Hitems, capture_loop_app.
    unfold bind at 1. rewrite Hpre. simpl. unfold bind at 1.
    now rewrite (capture_one_caught E BASE_DIR results1 _ _ _ _ _ Hcap He). }
  split; [exact Heq|].
  intros HE. rewrite Heq.
  destruct (capture_loop_returns E BASE_DIR post (Dict.set results1 symbol None)
              (add_log ScraperLogger ERROR
                 ("Error capturing " ++ symbol ++ ": " ++ exc_str e) w2) HE)
    as (results & w' & Hloop).
  exists results, w'. split; [exact Hloop|]. split.
  - intros Hnotin. rewrite (capture_loop_get_other _ _ _ _ _ _ _ _ Hloop Hnotin).
    apply DictFacts.get_set_same.
  - intros k Hk. apply (capture_loop_keys _ _ _ _ _ _ _ Hloop). now right.
Qed.

(** C5.  [capture_screenshot] raises its initialization error exactly when
    the scraper holds no browser. *)
Theorem initialization_error_iff E BASE_DIR symbol url w :
  fst (Scraper.capture_screenshot E BASE_DIR symbol url w)
    = Raise BrowserNotInitialized
  <-> browser w = None.
Proof.
  split.
  - intros Hr.
    pose proof (capture_screenshot_raises E BASE_DIR symbol url w) as H.
    rewrite Hr in H. destruct (browser w); [|reflexivity].
    now apply from_env_not_init in H.
  - intros Hb. unfold Scraper.capture_screenshot. now rewrite Hb.
Qed.

(** C9.  Without a browser the aggregator does not raise: it returns a
    mapping that sends every configured symbol, and nothing else, to [None],
    and no request reaches a collaborator.  Each turn of its loop caught the
    initialization error: the log has gained, in the order of the table and
    nothing else, one error line per symbol that carries the message of that
    error. *)
Theorem capture_all_without_browser E BASE_DIR SYMBOLS w :
  browser w = None ->
  exists results w',
    Scraper.capture_all_screenshots E BASE_DIR SYMBOLS w = (Return results, w')
    /\ (forall k, In k (Dict.keys SYMBOLS) -> Dict.get results k = Some None)
    /\ (forall k, ~ In k (Dict.keys SYMBOLS) -> Dict.get results k = None)
    /\ trace w' = trace w
    /\ log w'
       = (log w
            ++ map (fun symbol =>
                      (ScraperLogger, ERROR,
                       ("Error capturing " ++ symbol
                          ++ ": Browser not initialized. Call start_browser() first.")%string))
                   (Dict.keys SYMBOLS))%list.
Proof.
  intros Hb. unfold Scraper.capture_all_screenshots.
  pose proof (capture_loop_no_browser_log E BASE_DIR (Dict.items SYMBOLS) [] w Hb)
    as Hlog.
  destruct (capture_loop_no_browser E BASE_DIR (Dict.items SYMBOLS) [] w Hb)
    as (results & w' & Hloop & Htr & Hin & Hout).
  exists results, w'. rewrite Hloop in Hlog. cbn [snd] in Hlog.
  repeat split; auto.
  rewrite Hlog. unfold Dict.keys, Dict.items. now rewrite map_map.
Qed.

Lemma capture_all_without_browser_witness :
  exists results w',
    Scraper.capture_all_screenshots Examples.E_ok Examples.base
      Config.CRYPTO_SYMBOLS initial_world = (Return results, w')
    /\ (forall k, In k (Dict.keys Config.CRYPTO_SYMBOLS) ->
                  Dict.get results k = Some None)
    /\ (forall k, ~ In k (Dict.keys Config.CRYPTO_SYMBOLS) ->
                  Dict.get results k = None)
    /\ trace w' = trace initial_world
    /\ log w'
       = (log initial_world
            ++ map (fun symbol =>
                      (ScraperLogger, ERROR,
                       ("Error capturing " ++ symbol
                          ++ ": Browser not initialized. Call start_browser() first.")%string))
                   (Dict.keys Config.CRYPTO_SYMBOLS))%list.
Proof.
  apply capture_all_without_browser. reflexivity.
Defined.

(** C10.  Without a browser [close_browser] returns at once and leaves the
    world as it was; so [stop] returns, having written only its two log
    lines, when the browser was never started, and also after a start in
    which [start_browser] raised. *)
Theorem close_browser_without_browser E w :
  browser w = None ->
  Scraper.close_browser E w = (Return tt, w)
  /\ (scheduler_running w = false ->
      Pipeline.stop E w =
        (Return tt,
         add_log PipelineLogger INFO "Pipeline stopped successfully"
           (add_log PipelineLogger INFO "Stopping pipeline..." w)))
  /\ (forall e w1,
        scheduler_running w = false ->
        Scraper.start_browser E w = (Raise e, w1) ->
        fst (Pipeline.stop E w1) = Return tt).
Proof.
  intros Hb. split; [|split].
  - unfold Scraper.close_browser. now rewrite Hb.
  - intros Hs. now apply stop_without_browser.
  - intros e w1 Hs Hstart.
    destruct (start_browser_failure _ _ _ _ Hstart) as [Hb1 Hs1].
    rewrite stop_without_browser; [reflexivity | congruence | congruence].
Qed.

Lemma close_browser_without_browser_witness :
  Scraper.close_browser Examples.E_launch_fails initial_world
    = (Return tt, initial_world)
  /\ (scheduler_running initial_world = false ->
      Pipeline.stop Examples.E_launch_fails initial_world =
        (Return tt,
         add_log PipelineLogger INFO "Pipeline stopped successfully"
           (add_log PipelineLogger INFO "Stopping pipeline..." initial_world)))
  /\ (forall e w1,
        scheduler_running initial_world = false ->
        Scraper.start_browser Examples.E_launch_fails initial_world = (Raise e, w1) ->
        fst (Pipeline.stop Examples.E_launch_fails w1) = Return tt).
Proof.
  apply close_browser_without_browser. reflexivity.
Defined.

Lemma E_close_fails_exceptions_only : exceptions_only Examples.E_close_fails.
Proof.
  intros n r c msg. simpl. destruct r; try discriminate. now intros [= <- _].
Qed.

Lemma aggregator_continues_past_failure_witness :
  let E := Examples.E_close_fails in
  let btc := ("BTC", "https://www.tradingview.com/chart/?symbol=BINANCE%3ABTCUSDT") in
  let eth_url := "https://www.tradingview.com/chart/?symbol=BINANCE%3AETHUSDT" in
  let sol := ("SOL", "https://www.tradingview.com/chart/?symbol=BINANCE%3ASOLUSDT") in
  let w1 := snd (Scraper.capture_loop E Examples.base [btc] [] Examples.live) in
  let e := Raised ExceptionClass "Connection closed" in
  let w2 := snd (Scraper.capture_screenshot E Examples.base "ETH" eth_url w1) in
  Scraper.capture_all_screenshots E Examples.base Config.CRYPTO_SYMBOLS Examples.live =
    Scraper.capture_loop E Examples.base [sol] (Dict.set [("BTC", None)] "ETH" None)
      (add_log ScraperLogger ERROR
         ("Error capturing " ++ "ETH" ++ ": " ++ exc_str e) w2)
  /\ (exceptions_only E ->
      exists results w',
        Scraper.capture_all_screenshots E Examples.base Config.CRYPTO_SYMBOLS
          Examples.live = (Return results, w')
        /\ (~ In "ETH" (map fst [sol]) -> Dict.get results "ETH" = Some None)
        /\ (forall k, In k (map fst [sol]) -> In k (Dict.keys results))).
Proof.
  intros E btc eth_url sol w1 e w2.
  apply (aggregator_continues_past_failure E Examples.base Config.CRYPTO_SYMBOLS
           [btc] "ETH" eth_url [sol] Examples.live [("BTC", None)] w1 e w2).
  - reflexivity.
  - vm_compute. reflexivity.
  - vm_compute. reflexivity.
  - reflexivity.
Defined.

(** C4.  In every call of [capture_screenshot] that created a page, the last
    request sent is [close] on that page, whether the call returns a path,
    returns [None] or raises; no other page is opened or closed in between,
    and once that [close] has returned the page is no longer open. *)
Theorem page_closed_on_every_exit E BASE_DIR symbol url w r w' :
  Scraper.capture_screenshot E BASE_DIR symbol url w = (r, w') ->
  (exists b, In (NewPage b, None) (new_trace w w')) ->
  exists b mid a,
    browser w = Some b
    /\ new_trace w w'
       = ((NewPage b, None) :: mid ++ [(PageClose (steps w), a)])%list
    /\ Forall (fun ra => steady (fst ra)) mid
    /\ r <> Diverge
    /\ (a = None -> ~ In (steps w) (pages w')).
Proof.
  intros Hcap [b' Hin].
  destruct (browser w) as [b|] eqn:Hb.
  - destruct (PageFacts.capture_screenshot_shape E BASE_DIR symbol url w b r w' Hb Hcap)
      as [(e & _ & _ & Hnew) | (r1 & w2 & mid & Ha & Hg & Ht2 & Hmid & Hnd & Hw' & Hr & Hnew)].
    + rewrite Hnew in Hin. destruct Hin as [Hin|[]]. discriminate.
    + exists b, mid, (Scraper.answer E (PageClose (steps w)) w2).
      split; [reflexivity|]. split; [exact Hnew|]. split; [exact Hmid|]. split.
      * rewrite Hr. destruct (Scraper.answer E (PageClose (steps w)) w2);
          [discriminate | exact Hnd].
      * intros Hclose. rewrite Hw'. now apply after_page_close.
  - unfold Scraper.capture_screenshot in Hcap. rewrite Hb in Hcap.
    injection Hcap as _ <-.
    rewrite (new_trace_app w w []) in Hin by now rewrite app_nil_r.
    destruct Hin.
Qed.

Lemma page_closed_on_every_exit_witness :
  let run := Scraper.capture_screenshot Examples.E_goto_times_out Examples.base
               "BTC" "https://www.tradingview.com/chart/?symbol=BINANCE%3ABTCUSDT"
               Examples.live in
  exists b mid a,
    browser Examples.live = Some b
    /\ new_trace Examples.live (snd run)
       = ((NewPage b, None) :: mid ++ [(PageClose (steps Examples.live), a)])%list
    /\ Forall (fun ra => steady (fst ra)) mid
    /\ fst run <> Diverge
    /\ (a = None -> ~ In (steps Examples.live) (pages (snd run))).
Proof.
  intros run.
  apply (page_closed_on_every_exit Examples.E_goto_times_out Examples.base
           "BTC" "https://www.tradingview.com/chart/?symbol=BINANCE%3ABTCUSDT"
           Examples.live (fst run) (snd run)).
  - vm_compute. reflexivity.
  - exists 0. vm_compute. left. reflexivity.
Defined.

(** C6, as the code has it.  With a browser, collaborators that raise only
    [Exception]s, and a [page.close()] that did not raise:  when none of
    [new_page], [set_viewport_size], [goto] and [screenshot] raised, the
    call returns the path of the file it wrote, whatever happened in the two
    best-effort steps; when one of them raised, the call returns [None] and
    the exception is in the log as an error.  In both cases every request
    that raised inside a best-effort step (the wait for the chart marker,
    the settle sleep, the script that hides the chrome) has its exception in
    the log as the warning of that step. *)
Theorem capture_outcome E BASE_DIR symbol url w b r w' :
  browser w = Some b ->
  exceptions_only E ->
  Scraper.capture_screenshot E BASE_DIR symbol url w = (r, w') ->
  close_failed (new_trace w w') = false ->
  match first_failure (new_trace w w') with
  | None =>
      exists tm,
        r = Return (Some (Pathlib.str
                            (Pathlib.join (Config.SCREENSHOTS_DIR BASE_DIR)
                               (Scraper.screenshot_filename symbol tm))))
        /\ In (Pathlib.str
                 (Pathlib.join (Config.SCREENSHOTS_DIR BASE_DIR)
                    (Scraper.screenshot_filename symbol tm)))
              (files w')
  | Some e =>
      r = Return None
      /\ In (ScraperLogger, ERROR,
             "Failed to capture screenshot for " ++ symbol ++ ": " ++ exc_str e)
            (log w')
  end
  /\ (forall rq e, In (rq, Some e) (new_trace w w') -> warned rq e w').
Proof.
  intros Hb HE Hcap Hclose. split.
  2:{ destruct (WarningFacts.warns_capture_screenshot E BASE_DIR HE symbol url w)
        as (t & Ht & _ & Hw).
      rewrite Hcap in Ht, Hw. cbn [snd] in Ht, Hw.
      now rewrite (new_trace_app w w' t Ht). }
  destruct (PageFacts.capture_screenshot_shape E BASE_DIR symbol url w b r w' Hb Hcap)
    as [(e & Ha & Hg & Hnew) | (r1 & w2 & mid & Ha & Hg & Ht2 & Hmid & Hnd & Hw' & Hr & Hnew)].
  - rewrite Hnew. simpl.
    unfold Scraper.capture_guarded, try_except, bind, resume in Hg.
    rewrite (CaptureFacts.answer_Exception E HE _ _ _ Ha) in Hg.
    unfold Scraper.error, logging, ret in Hg. injection Hg as -> ->.
    split; [reflexivity|]. simpl. apply in_or_app. right. now left.
  - rewrite Hnew in *.
    destruct (Scraper.answer E (PageClose (steps w)) w2) as [e|] eqn:Hc.
    { unfold close_failed in Hclose.
      change ((NewPage b, None) :: mid ++ [(PageClose (steps w), Some e)])%list
        with (((NewPage b, @None exc) :: mid) ++ [(PageClose (steps w), Some e)])%list
        in Hclose.
      rewrite last_last in Hclose. discriminate. }
    subst r w'.
    destruct (CaptureFacts.capture_guarded_spec E BASE_DIR HE _ _ _ _ _ _ Hg)
      as (t & Ht & Hcase).
    assert (mid = t) as ->.
    { rewrite Ht, after_trace, Ha, <- app_assoc in Ht2.
      apply app_inv_head in Ht2. now injection Ht2. }
    simpl. rewrite CaptureFacts.first_failure_app. simpl.
    destruct (first_failure t) as [e|].
    + destruct Hcase as [-> Hlog]. split; [reflexivity|]. now apply after_log.
    + destruct Hcase as (tm & -> & Hfile). exists tm.
      split; [reflexivity|]. now apply after_files.
Qed.

Lemma E_selector_times_out_exceptions_only :
  exceptions_only Examples.E_selector_times_out.
Proof.
  intros n r c msg. simpl. destruct r; try discriminate. now intros [= <- _].
Qed.

Lemma capture_outcome_witness :
  let run := Scraper.capture_screenshot Examples.E_selector_times_out Examples.base
               "BTC" "https://www.tradingview.com/chart/?symbol=BINANCE%3ABTCUSDT"
               Examples.live in
  match first_failure (new_trace Examples.live (snd run)) with
  | None =>
      exists tm,
        fst run
        = Return (Some (Pathlib.str
                          (Pathlib.join (Config.SCREENSHOTS_DIR Examples.base)
                             (Scraper.screenshot_filename "BTC" tm))))
        /\ In (Pathlib.str
                 (Pathlib.join (Config.SCREENSHOTS_DIR Examples.base)
                    (Scraper.screenshot_filename "BTC" tm)))
              (files (snd run))
  | Some e =>
      fst run = Return None
      /\ In (ScraperLogger, ERROR,
             "Failed to capture screenshot for " ++ "BTC" ++ ": " ++ exc_str e)
            (log (snd run))
  end
  /\ (forall rq e,
        In (rq, Some e) (new_trace Examples.live (snd run)) ->
        warned rq e (snd run)).
Proof.
  intros run.
  apply (capture_outcome Examples.E_selector_times_out Examples.base
           "BTC" "https://www.tradingview.com/chart/?symbol=BINANCE%3ABTCUSDT"
           Examples.live 0 (fst run) (snd run)).
  - reflexivity.
  - exact E_selector_times_out_exceptions_only.
  - vm_compute. reflexivity.
  - vm_compute. reflexivity.
Defined.

(** C6 as stated fails.  With a browser and a page that cannot be closed,
    every step of the capture succeeds and the call raises the exception of
    [page.close()] instead of returning [None]; and when the chart marker
    never appears, the exception of [wait_for_selector] ends in a warning
    and the call returns the path, not [None]. *)
Lemma capture_exception_not_absorbed :
  let url := "https://www.tradingview.com/chart/?symbol=BINANCE%3ABTCUSDT" in
  let closing := Scraper.capture_screenshot Examples.E_close_fails Examples.base
                   "BTC" url Examples.live in
  let waiting := Scraper.capture_screenshot Examples.E_selector_times_out
                   Examples.base "BTC" url Examples.live in
  browser Examples.live = Some 0
  /\ fst closing = Raise (Raised ExceptionClass "Connection closed")
  /\ fst closing <> Return None
  /\ In (WaitForSelector 0 Scraper.LEGEND_SELECTOR Config.BROWSER_TIMEOUT,
         Some (Raised ExceptionClass "Timeout 30000ms exceeded."))
        (trace (snd waiting))
  /\ fst waiting = Return (Some "/app/screenshots/BTC_20240315_093000.png")
  /\ fst waiting <> Return None.
Proof.
  vm_compute. repeat split; try discriminate.
  right. right. right. now left.
Qed.

(** C7, as the code has it.  A capture of a symbol whose name holds no
    slash returns a path whose parent is the screenshots directory and whose
    name is the symbol, an underscore, the time the clock showed during the
    call in the configured format (year, month, day, underscore, hour,
    minute, second) and [.png]. *)
Theorem screenshot_path_and_name E BASE_DIR symbol url w path w' :
  Pathlib.wf BASE_DIR = true ->
  Str.lacks Str.slash symbol = true ->
  Scraper.capture_screenshot E BASE_DIR symbol url w = (Return (Some path), w') ->
  exists n,
    let tm := now E n in
    Pathlib.parent (Pathlib.parse path) = Config.SCREENSHOTS_DIR BASE_DIR
    /\ Pathlib.name (Pathlib.parse path)
       = symbol ++ "_" ++ Datetime.strftime Config.TIMESTAMP_FORMAT tm ++ ".png"
    /\ Datetime.strftime Config.TIMESTAMP_FORMAT tm
       = Str.pad4 (Datetime.year tm) ++ Str.pad2 (Datetime.month tm)
           ++ Str.pad2 (Datetime.day tm) ++ "_" ++ Str.pad2 (Datetime.hour tm)
           ++ Str.pad2 (Datetime.minute tm) ++ Str.pad2 (Datetime.second tm).
Proof.
  intros Hwf Hsym Hcap.
  destruct (ReturnFacts.capture_screenshot_returns _ _ _ _ _ _ _ Hcap) as [n ->].
  exists n. intros tm.
  destruct (PathFacts.filename_component symbol tm Hsym) as [Hl Hc].
  assert (Hdir : Pathlib.wf (Config.SCREENSHOTS_DIR BASE_DIR) = true).
  { unfold Config.SCREENSHOTS_DIR.
    rewrite PathFacts.join_component by reflexivity.
    now apply PathFacts.wf_child. }
  rewrite (PathFacts.join_component _ _ Hl Hc).
  rewrite PathFacts.parse_str by now apply PathFacts.wf_child.
  split; [apply PathFacts.parent_child|].
  split; [apply PathFacts.name_child | apply PathFacts.strftime_configured].
Qed.

Lemma screenshot_path_and_name_witness :
  exists n,
    let tm := now Examples.E_ok n in
    Pathlib.parent (Pathlib.parse "/app/screenshots/BTC_20240315_093000.png")
      = Config.SCREENSHOTS_DIR Examples.base
    /\ Pathlib.name (Pathlib.parse "/app/screenshots/BTC_20240315_093000.png")
       = "BTC" ++ "_" ++ Datetime.strftime Config.TIMESTAMP_FORMAT tm ++ ".png"
    /\ Datetime.strftime Config.TIMESTAMP_FORMAT tm
       = Str.pad4 (Datetime.year tm) ++ Str.pad2 (Datetime.month tm)
           ++ Str.pad2 (Datetime.day tm) ++ "_" ++ Str.pad2 (Datetime.hour tm)
           ++ Str.pad2 (Datetime.minute tm) ++ Str.pad2 (Datetime.second tm).
Proof.
  apply (screenshot_path_and_name Examples.E_ok Examples.base "BTC"
           "https://www.tradingview.com/chart/?symbol=BINANCE%3ABTCUSDT"
           Examples.live "/app/screenshots/BTC_20240315_093000.png"
           (snd (Scraper.capture_screenshot Examples.E_ok Examples.base "BTC"
                   "https://www.tradingview.com/chart/?symbol=BINANCE%3ABTCUSDT"
                   Examples.live))).
  - reflexivity.
  - reflexivity.
  - vm_compute. reflexivity.
Defined.

(** C7 as stated fails.  The capture of a symbol named like a trading pair
    succeeds, and the path it returns has the name [USDT_20240315_093000.png],
    which is not the symbol followed by the timestamp, in the directory
    [BTC] below the screenshots directory. *)
Lemma symbol_with_slash_breaks_filename :
  let run := Scraper.capture_screenshot Examples.E_ok Examples.base "BTC/USDT"
               "https://www.tradingview.com/chart/?symbol=BINANCE%3ABTCUSDT"
               Examples.live in
  let path := "/app/screenshots/BTC/USDT_20240315_093000.png" in
  fst run = Return (Some path)
  /\ Pathlib.name (Pathlib.parse path) = "USDT_20240315_093000.png"
  /\ Pathlib.name (Pathlib.parse path)
     <> "BTC/USDT" ++ "_"
          ++ Datetime.strftime Config.TIMESTAMP_FORMAT Examples.t0 ++ ".png"
  /\ Pathlib.parent (Pathlib.parse path) = Pathlib.parse "/app/screenshots/BTC"
  /\ Pathlib.parent (Pathlib.parse path) <> Config.SCREENSHOTS_DIR Examples.base.
Proof.
  vm_compute. repeat split; discriminate.
Qed.

(** C3, as the code has it.  When the browser does not come up, the
    exception that [start_browser] logs and raises again is caught in
    [start], logged, and followed by [stop]; [main] returns and the process
    ends with status 0.  The status is 1 when an exception other than
    [KeyboardInterrupt] leaves [main]. *)
Theorem launch_failure_exit_status E BASE_DIR SYMBOLS fuel w :
  (forall msg,
      launch_fails E (steps w) msg ->
      exists w',
        Pipeline.main E BASE_DIR SYMBOLS fuel w = (Return tt, w')
        /\ Pipeline.run_script E BASE_DIR SYMBOLS fuel w = (Some 0, w')
        /\ In (ScraperLogger, ERROR, "Failed to start browser: " ++ msg) (log w')
        /\ In (PipelineLogger, ERROR, "Pipeline error: " ++ msg) (log w'))
  /\ (forall e w',
        Pipeline.main E BASE_DIR SYMBOLS fuel w = (Raise e, w') ->
        isinstance_KeyboardInterrupt e = false ->
        fst (Pipeline.run_script E BASE_DIR SYMBOLS fuel w) = Some 1).
Proof.
  split.
  - intros msg Hfail.
    destruct (main_after_launch_failure E BASE_DIR SYMBOLS fuel w msg Hfail)
      as (w' & Hmain & Hlog1 & Hlog2).
    exists w'. unfold Pipeline.run_script. rewrite Hmain. auto.
  - intros e w' Hmain Hki. unfold Pipeline.run_script. rewrite Hmain, Hki.
    now destruct (isinstance_Exception e).
Qed.

Lemma launch_failure_exit_status_witness :
  (exists w',
      Pipeline.main Examples.E_launch_fails Examples.base Config.CRYPTO_SYMBOLS
        5 initial_world = (Return tt, w')
      /\ Pipeline.run_script Examples.E_launch_fails Examples.base
           Config.CRYPTO_SYMBOLS 5 initial_world = (Some 0, w')
      /\ In (ScraperLogger, ERROR,
             "Failed to start browser: " ++ "Executable doesn't exist") (log w')
      /\ In (PipelineLogger, ERROR,
             "Pipeline error: " ++ "Executable doesn't exist") (log w'))
  /\ fst (Pipeline.run_script Examples.E_browser_close_fails Examples.base
            Config.CRYPTO_SYMBOLS 5 initial_world) = Some 1.
Proof.
  split.
  - apply (proj1 (launch_failure_exit_status Examples.E_launch_fails
                    Examples.base Config.CRYPTO_SYMBOLS 5 initial_world)).
    right. split; reflexivity.
  - apply (proj2 (launch_failure_exit_status Examples.E_browser_close_fails
                    Examples.base Config.CRYPTO_SYMBOLS 5 initial_world)
             (Raised ExceptionClass "Connection closed")
             (snd (Pipeline.main Examples.E_browser_close_fails Examples.base
                     Config.CRYPTO_SYMBOLS 5 initial_world))).
    + vm_compute. reflexivity.
    + reflexivity.
Defined.

(** C3 as stated fails.  The browser cannot be launched: [start_browser]
    raises, yet [main] returns to its caller and the exit status is 0. *)
Lemma launch_failure_exits_zero :
  let E := Examples.E_launch_fails in
  fst (Scraper.start_browser E initial_world)
    = Raise (Raised ExceptionClass "Executable doesn't exist")
  /\ fst (Pipeline.main E Examples.base Config.CRYPTO_SYMBOLS 5 initial_world)
     = Return tt
  /\ fst (Pipeline.run_script E Examples.base Config.CRYPTO_SYMBOLS 5 initial_world)
     = Some 0.
Proof. vm_compute. repeat split. Qed.

End Claims.

(** ** Runs in flight *)

Module EventLoopFacts.
Import EventLoop.

Lemma invariant_init : invariant init.
Proof.
  unfold invariant, init. simpl.
  split; [lia|]. split; [now left | discriminate].
Qed.

Lemma invariant_step s e : invariant s -> invariant (step s e).
Proof.
  destruct s as [ph st mx runs dr]. unfold invariant. simpl.
  intros (Hruns & Hmax & Hdirect).
  assert (Hkeep : forall ph', ph <> InitialCapture -> dr = true -> ph' = InitialCapture).
  { intros ph' Hne Hdr. elim Hne. auto. }
  destruct e, ph; simpl; auto;
    try (split; [lia|]; split; [auto|];
         first [ discriminate | reflexivity
               | apply Hkeep; discriminate | exact Hdirect ]).
  all: destruct st; auto; destruct Hmax as [->| ->]; auto;
    change (N.to_nat 1) with 1; destruct (Nat.ltb_spec runs 1); simpl; auto;
    (split; [lia|]; split; [auto | exact Hdirect]).
Qed.

Lemma invariant_run events : invariant (run events).
Proof.
  unfold run. generalize invariant_init. generalize init.
  induction events as [|e events IH]; intros s Hs; simpl; auto.
  apply IH, invariant_step, Hs.
Qed.

(** The instances that the scheduler launches never overlap one another. *)
Lemma scheduled_runs_never_overlap events :
  scheduled_runs (run events) <= 1.
Proof. apply invariant_run. Qed.

(** Outside the capture that [start] awaits itself, at most one run is in
    flight. *)
Lemma one_run_outside_initial_capture events :
  at_phase (run events) <> InitialCapture -> in_flight (run events) <= 1.
Proof.
  destruct (invariant_run events) as (Hruns & _ & Hdirect).
  unfold in_flight. intros Hphase.
  destruct (direct_run (run events)); [now elim Hphase; auto | simpl; lia].
Qed.

(** C8 fails on the code.  [start] starts the scheduler and then awaits a
    capture of its own; when the interval fires before that capture has
    finished, the scheduler, which counts only the instances it launched,
    launches one: two runs are in flight. *)
Theorem initial_capture_overlaps_first_tick :
  let s := run [Begin; BrowserReady; Tick] in
  at_phase s = InitialCapture
  /\ direct_run s = true
  /\ scheduled_runs s = 1
  /\ in_flight s = 2.
Proof. repeat split. Qed.

End EventLoopFacts.

(** ** What a coroutine leaves alone *)

Module FrameFacts.
Import Py Spec Frame RuntimeFacts.
Local Open Scope py_scope.

Lemma preserves_ret A X (f : world -> X) (a : A) : preserves f (ret a).
Proof. intros w. reflexivity. Qed.

Lemma preserves_raise A X (f : world -> X) e : preserves f (@raise A e).
Proof. intros w. reflexivity. Qed.

Lemma preserves_resume A X (f : world -> X) (r : result A) :
  preserves f (resume r).
Proof. intros w. reflexivity. Qed.

Lemma preserves_bind A B X (f : world -> X) (m : M A) (k : A -> M B) :
  preserves f m -> (forall a, preserves f (k a)) -> preserves f (bind m k).
Proof.
  intros Hm Hk w. unfold bind. specialize (Hm w).
  destruct (m w) as [[a|e|] w1]; simpl in *; auto.
  now rewrite Hk.
Qed.

Lemma preserves_try_except A X (f : world -> X) (body : M A) handler :
  preserves f body -> (forall e, preserves f (handler e)) ->
  preserves f (try_except body handler).
Proof.
  intros Hb Hh w. unfold try_except. specialize (Hb w).
  destruct (body w) as [[a|e|] w1]; simpl in *; auto.
  destruct (isinstance_Exception e); simpl; auto.
  now rewrite Hh.
Qed.

Lemma preserves_try_finally A X (f : world -> X) (body : M A) fin :
  preserves f body -> preserves f fin -> preserves f (try_finally body fin).
Proof.
  intros Hb Hf w. unfold try_finally. specialize (Hb w).
  destruct (body w) as [[a|e|] w1]; simpl in *; auto;
    specialize (Hf w1); destruct (fin w1) as [[[]|e'|] w2]; simpl in *;
    congruence.
Qed.

Lemma preserves_for_each A X (f : world -> X) (xs : list A) body :
  (forall x, preserves f (body x)) -> preserves f (for_each xs body).
Proof.
  intros Hb. induction xs as [|x xs IH]; simpl.
  - apply preserves_ret.
  - apply preserves_bind; auto.
Qed.

Lemma monotone_ret A X (f : world -> list X) (a : A) : monotone f (ret a).
Proof. intros w x H. exact H. Qed.

Lemma monotone_resume A X (f : world -> list X) (r : result A) :
  monotone f (resume r).
Proof. intros w x H. exact H. Qed.

Lemma monotone_bind A B X (f : world -> list X) (m : M A) (k : A -> M B) :
  monotone f m -> (forall a, monotone f (k a)) -> monotone f (bind m k).
Proof.
  intros Hm Hk w x Hx. unfold bind. specialize (Hm w x Hx).
  destruct (m w) as [[a|e|] w1]; simpl in *; auto.
  now apply Hk.
Qed.

Lemma monotone_try_except A X (f : world -> list X) (body : M A) handler :
  monotone f body -> (forall e, monotone f (handler e)) ->
  monotone f (try_except body handler).
Proof.
  intros Hb Hh w x Hx. unfold try_except. specialize (Hb w x Hx).
  destruct (body w) as [[a|e|] w1]; simpl in *; auto.
  destruct (isinstance_Exception e); simpl; auto.
  now apply Hh.
Qed.

Lemma monotone_try_finally A X (f : world -> list X) (body : M A) fin :
  monotone f body -> monotone f fin -> monotone f (try_finally body fin).
Proof.
  intros Hb Hf w x Hx. unfold try_finally. specialize (Hb w x Hx).
  destruct (body w) as [[a|e|] w1]; simpl in *; auto;
    specialize (Hf w1 x Hb); destruct (fin w1) as [[[]|e'|] w2]; simpl in *;
    auto.
Qed.

Lemma monotone_for_each A X (f : world -> list X) (xs : list A) body :
  (forall x, monotone f (body x)) -> monotone f (for_each xs body).
Proof.
  intros Hb. induction xs as [|x xs IH]; simpl.
  - apply monotone_ret.
  - apply monotone_bind; auto.
Qed.

Lemma may_raise_weaker A P (m : M A) : raises_only P m -> may_raise P m.
Proof.
  intros H w. specialize (H w). destruct (fst (m w)); auto.
Qed.

Lemma may_raise_bind A B P (m : M A) (k : A -> M B) :
  may_raise P m -> (forall a, may_raise P (k a)) -> may_raise P (bind m k).
Proof.
  intros Hm Hk w. unfold bind. specialize (Hm w).
  destruct (m w) as [[a|e|] w1]; simpl in *; auto.
  apply Hk.
Qed.

(** A handler is run only on the [Exception]s of its [try] block. *)
Lemma raises_try_except_caught A P Q (body : M A) handler :
  raises_only P body ->
  (forall e, P e -> isinstance_Exception e = false -> Q e) ->
  (forall e, P e -> isinstance_Exception e = true -> raises_only Q (handler e)) ->
  raises_only Q (try_except body handler).
Proof.
  intros Hb Hpq Hh w. unfold try_except. specialize (Hb w).
  destruct (body w) as [[a|e|] w1]; simpl in *; auto.
  destruct (isinstance_Exception e) eqn:He; simpl; auto.
  now apply Hh.
Qed.

Lemma raises_for_each A P (xs : list A) body :
  (forall x, raises_only P (body x)) -> raises_only P (for_each xs body).
Proof.
  intros Hb. induction xs as [|x xs IH]; simpl.
  - apply raises_ret.
  - apply raises_bind; auto.
Qed.

Section WithEnv.

Variable E : env.

Lemma preserves_logging_browser l lv msg : preserves browser (logging l lv msg).
Proof. intros w. reflexivity. Qed.

Lemma preserves_print_browser line : preserves browser (print line).
Proof. intros w. reflexivity. Qed.

Lemma preserves_call_browser r : preserves browser (Scraper.call E r).
Proof. intros w. apply after_browser. Qed.

Lemma preserves_create_browser r : preserves browser (Scraper.create E r).
Proof.
  intros w. unfold Scraper.create.
  pose proof (preserves_call_browser r w) as H.
  destruct (Scraper.call E r w) as [[[]|e|] w1]; exact H.
Qed.

Lemma monotone_logging_files l lv msg : monotone files (logging l lv msg).
Proof. intros w x H. exact H. Qed.

Lemma monotone_call_files r : monotone files (Scraper.call E r).
Proof. intros w x H. now apply after_files. Qed.

Lemma monotone_logging_log l lv msg : monotone log (logging l lv msg).
Proof. intros w x H. simpl. apply in_or_app. now left. Qed.

Lemma monotone_print_log line : monotone log (print line).
Proof. intros w x H. exact H. Qed.

Lemma monotone_call_log r : monotone log (Scraper.call E r).
Proof. intros w x H. now apply after_log. Qed.

Lemma monotone_create (X : Type) (f : world -> list X) r :
  monotone f (Scraper.call E r) -> monotone f (Scraper.create E r).
Proof.
  intros Hc w x Hx. unfold Scraper.create. specialize (Hc w x Hx).
  destruct (Scraper.call E r w) as [[[]|e|] w1]; exact Hc.
Qed.

End WithEnv.
End FrameFacts.

(** ** The browser handle *)

Module BrowserFacts.
Import Py Spec Frame RuntimeFacts ScraperFacts FrameFacts.
Local Open Scope py_scope.

Ltac frame :=
  repeat first
    [ apply preserves_logging_browser | apply preserves_print_browser
    | apply preserves_call_browser | apply preserves_create_browser
    | apply monotone_logging_files | apply monotone_call_files
    | apply monotone_logging_log | apply monotone_call_log
    | apply monotone_print_log
    | apply preserves_bind; [|intros ?]
    | apply preserves_try_except; [|intros ?]
    | apply preserves_try_finally
    | apply monotone_bind; [|intros ?]
    | apply monotone_try_except; [|intros ?]
    | apply monotone_try_finally
    | solve [intros ?w; reflexivity]
    | solve [intros ?w ?x ?H; exact H] ].

Section WithEnv.

Variable E : env.
Variable BASE_DIR : Pathlib.Path.

Lemma capture_guarded_keeps_browser created symbol url :
  preserves browser (Scraper.capture_guarded E BASE_DIR created symbol url).
Proof. unfold Scraper.capture_guarded, Scraper.capture_body. frame. Qed.

Lemma close_page_keeps_browser page :
  preserves browser (Scraper.close_page E page).
Proof. destruct page; simpl; frame. Qed.

Lemma capture_screenshot_keeps_browser symbol url :
  preserves browser (Scraper.capture_screenshot E BASE_DIR symbol url).
Proof.
  intros w. unfold Scraper.capture_screenshot.
  destruct (browser w) as [b|] eqn:Hb; [|exact Hb].
  pose proof (preserves_create_browser E (NewPage b) w) as Hc.
  destruct (Scraper.create E (NewPage b) w) as [created w1]. simpl in Hc.
  rewrite <- Hb, <- Hc.
  apply preserves_try_finally;
    [apply capture_guarded_keeps_browser | apply close_page_keeps_browser].
Qed.

Lemma capture_one_keeps_browser results symbol url :
  preserves browser (Scraper.capture_one E BASE_DIR results symbol url).
Proof.
  unfold Scraper.capture_one. apply preserves_try_except.
  - apply preserves_bind; [apply capture_screenshot_keeps_browser | intros ?].
    frame.
  - intros e. frame.
Qed.

Lemma capture_loop_keeps_browser items results :
  preserves browser (Scraper.capture_loop E BASE_DIR items results).
Proof.
  revert results. induction items as [|[symbol url] items IH]; intros results.
  - frame.
  - simpl. apply preserves_bind; [apply capture_one_keeps_browser | apply IH].
Qed.

End WithEnv.

(** X1.  [start_browser] either returns, having sent its two requests and
    stored the handle of the browser it launched, or raises the exception of
    the collaborator with the scraper's browser as it was; an [Exception] is
    logged as an error before it is raised again. *)
Theorem start_browser_outcome E w :
  let run := Scraper.start_browser E w in
  match fst run with
  | Return _ =>
      browser (snd run) = Some (S (steps w))
      /\ new_trace w (snd run)
         = [(PlaywrightStart, None);
            (Launch Config.BROWSER_HEADLESS
               ["--no-sandbox"; "--disable-dev-shm-usage"], None)]
      /\ In (ScraperLogger, INFO, "Browser started successfully") (log (snd run))
  | Raise e =>
      browser (snd run) = browser w
      /\ from_env E e
      /\ (isinstance_Exception e = true ->
          In (ScraperLogger, ERROR, "Failed to start browser: " ++ exc_str e)
             (log (snd run)))
  | Diverge => False
  end.
Proof.
  unfold Scraper.start_browser, try_except, bind, Scraper.create, Scraper.call,
    Scraper.info, Scraper.error, logging, raise.
  destruct (Scraper.answer E PlaywrightStart w) as [e1|] eqn:H1; simpl.
  - pose proof (answer_from_env E _ _ _ H1) as Hfrom.
    destruct (isinstance_Exception e1) eqn:He; simpl.
    + rewrite after_browser. split; [reflexivity|]. split; [exact Hfrom|].
      intros _. apply in_or_app. right. now left.
    + rewrite after_browser. split; [reflexivity|]. split; [exact Hfrom|].
      intros He'. congruence.
  - destruct (Scraper.answer E (Launch _ _) _) as [e2|] eqn:H2; simpl.
    + pose proof (answer_from_env E _ _ _ H2) as Hfrom.
      destruct (isinstance_Exception e2) eqn:He; simpl.
      * rewrite !after_browser. split; [reflexivity|]. split; [exact Hfrom|].
        intros _. apply in_or_app. right. now left.
      * rewrite !after_browser. split; [reflexivity|]. split; [exact Hfrom|].
        intros He'. congruence.
    + rewrite after_steps. split; [reflexivity|]. split.
      * apply new_trace_app. cbn [trace add_log set_browser].
        rewrite !after_trace, H1, H2, <- app_assoc. reflexivity.
      * apply in_or_app. right. now left.
Qed.

(** X2.  The two best-effort steps never raise an [Exception] and always
    end: what leaves them is an exception of a collaborator that is not an
    [Exception]. *)
Theorem best_effort_steps_absorb E p w :
  match fst (Scraper._wait_for_chart_load E p w) with
  | Raise e => from_env E e /\ isinstance_Exception e = false
  | Diverge => False
  | Return _ => True
  end
  /\ match fst (Scraper._configure_chart_view E p w) with
     | Raise e => from_env E e /\ isinstance_Exception e = false
     | Diverge => False
     | Return _ => True
     end.
Proof.
  split.
  - apply (raises_try_except unit (from_env E)
             (fun e => from_env E e /\ isinstance_Exception e = false)); auto.
    + repeat (apply raises_bind; [|intros ?]);
        auto using raises_call, raises_logging.
      apply raises_logging.
    + intros e. apply raises_logging.
  - apply (raises_try_except unit (from_env E)
             (fun e => from_env E e /\ isinstance_Exception e = false)); auto.
    + apply raises_bind; [apply raises_call | intros ?; apply raises_logging].
    + intros e. apply raises_logging.
Qed.

(** X3.  When the chart marker does not appear, [_wait_for_chart_load]
    skips the settle delay: the wait is its only request, the exception
    becomes a warning, and the step returns. *)
Theorem missing_marker_skips_settle_delay E p w e :
  Scraper.answer E
    (WaitForSelector p Scraper.LEGEND_SELECTOR Config.BROWSER_TIMEOUT) w = Some e ->
  isinstance_Exception e = true ->
  let run := Scraper._wait_for_chart_load E p w in
  fst run = Return tt
  /\ new_trace w (snd run)
     = [(WaitForSelector p Scraper.LEGEND_SELECTOR Config.BROWSER_TIMEOUT, Some e)]
  /\ In (ScraperLogger, WARNING, "Chart loading timeout or error: " ++ exc_str e)
        (log (snd run)).
Proof.
  intros Ha He.
  unfold Scraper._wait_for_chart_load, try_except, bind, Scraper.call,
    Scraper.warning, logging.
  rewrite Ha. simpl. rewrite He. simpl. split; [reflexivity|]. split.
  - apply new_trace_app. cbn [trace add_log]. now rewrite after_trace, Ha.
  - apply in_or_app. right. now left.
Qed.

Lemma missing_marker_skips_settle_delay_witness :
  let e := Raised ExceptionClass "Timeout 30000ms exceeded." in
  let run := Scraper._wait_for_chart_load Examples.E_selector_times_out 7
               Examples.live in
  fst run = Return tt
  /\ new_trace Examples.live (snd run)
     = [(WaitForSelector 7 Scraper.LEGEND_SELECTOR Config.BROWSER_TIMEOUT, Some e)]
  /\ In (ScraperLogger, WARNING, "Chart loading timeout or error: " ++ exc_str e)
        (log (snd run)).
Proof.
  intros e.
  apply (missing_marker_skips_settle_delay Examples.E_selector_times_out 7
           Examples.live e); reflexivity.
Defined.

End BrowserFacts.

(** ** One run of the aggregator *)

Module AggregatorFacts.
Import Py Spec Frame RuntimeFacts ScraperFacts FrameFacts BrowserFacts.
Local Open Scope py_scope.

Lemma pages_requested_app t1 t2 :
  pages_requested (t1 ++ t2) = pages_requested t1 + pages_requested t2.
Proof.
  unfold pages_requested. now rewrite filter_app, length_app.
Qed.

Lemma pages_requested_steady t :
  Forall (fun ra => page_lifecycle (fst ra) = false) t -> pages_requested t = 0.
Proof.
  unfold pages_requested. induction 1 as [|[r a] t Hr _ IH]; [reflexivity|].
  simpl in *. destruct r; try discriminate; exact IH.
Qed.

Lemma keys_set_fresh V (d : Dict.t V) k v :
  ~ In k (Dict.keys d) -> Dict.keys (Dict.set d k v) = (Dict.keys d ++ [k])%list.
Proof.
  induction d as [|[k0 v0] d IH]; simpl; intros Hnotin; [reflexivity|].
  destruct (String.eqb_spec k k0) as [->|Hne]; [tauto|].
  simpl. rewrite IH by tauto. reflexivity.
Qed.

Section WithEnv.

Variable E : env.
Variable BASE_DIR : Pathlib.Path.

Local Abbreviation capture_screenshot := (Scraper.capture_screenshot E BASE_DIR).
Local Abbreviation capture_one := (Scraper.capture_one E BASE_DIR).
Local Abbreviation capture_loop := (Scraper.capture_loop E BASE_DIR).

(** *** Pages *)

Lemma capture_screenshot_one_page symbol url w b r w' :
  browser w = Some b ->
  capture_screenshot symbol url w = (r, w') ->
  exists t, trace w' = (trace w ++ t)%list /\ pages_requested t = 1.
Proof.
  intros Hb Hcap.
  destruct (PageFacts.capture_screenshot_shape E BASE_DIR symbol url w b r w' Hb Hcap)
    as [(e & Ha & Hg & _) | (r1 & w2 & mid & Ha & Hg & Ht2 & Hmid & _ & Hw' & _ & _)].
  - exists [(NewPage b, Some e)]. split; [|reflexivity].
    pose proof (PageFacts.capture_guarded_not_created E BASE_DIR e symbol url
                  (Scraper.after E (NewPage b) w)) as Ht.
    rewrite <- Hg in Ht. simpl in Ht. now rewrite Ht, after_trace, Ha.
  - exists ((NewPage b, None) :: mid
            ++ [(PageClose (steps w), Scraper.answer E (PageClose (steps w)) w2)])%list.
    split.
    + rewrite Hw', after_trace, Ht2, <- app_assoc. reflexivity.
    + change (pages_requested
                ([(NewPage b, @None exc)] ++ mid ++
                 [(PageClose (steps w), Scraper.answer E (PageClose (steps w)) w2)]) = 1).
      rewrite !pages_requested_app, (pages_requested_steady _ Hmid). reflexivity.
Qed.

Lemma capture_one_one_page results symbol url w b r w' :
  browser w = Some b ->
  capture_one results symbol url w = (r, w') ->
  exists t, trace w' = (trace w ++ t)%list /\ pages_requested t = 1.
Proof.
  intros Hb. unfold Scraper.capture_one, try_except, bind.
  destruct (capture_screenshot symbol url w) as [[v|e|] w1] eqn:Hcap;
    destruct (capture_screenshot_one_page _ _ _ _ _ _ Hb Hcap) as (t & Ht & Hn).
  - intros [= _ <-]. eauto.
  - destruct (isinstance_Exception e); intros [= _ <-]; eauto.
  - intros [= _ <-]. eauto.
Qed.

Lemma capture_loop_pages items results w b r w' :
  browser w = Some b ->
  capture_loop items results w = (Return r, w') ->
  exists t,
    trace w' = (trace w ++ t)%list
    /\ pages_requested t = List.length items.
Proof.
  revert results w. induction items as [|[symbol url] items IH];
    intros results w Hb; simpl.
  - intros [= _ <-]. exists []. now rewrite app_nil_r.
  - unfold bind.
    destruct (capture_one results symbol url w) as [[r1|e|] w1] eqn:H1;
      try discriminate.
    intros Hloop.
    destruct (capture_one_one_page _ _ _ _ _ _ _ Hb H1) as (t1 & Ht1 & Hn1).
    assert (Hb1 : browser w1 = Some b).
    { pose proof (capture_one_keeps_browser E BASE_DIR results symbol url w) as H.
      rewrite H1 in H. simpl in H. congruence. }
    destruct (IH _ _ Hb1 Hloop) as (t2 & Ht2 & Hn2).
    exists (t1 ++ t2)%list. split.
    + now rewrite Ht2, Ht1, app_assoc.
    + rewrite pages_requested_app, Hn1, Hn2. reflexivity.
Qed.

(** *** Order *)

Lemma capture_loop_order items results w r w' :
  capture_loop items results w = (Return r, w') ->
  NoDup (Dict.keys results ++ map fst items) ->
  Dict.keys r = (Dict.keys results ++ map fst items)%list.
Proof.
  revert results w. induction items as [|[symbol url] items IH];
    intros results w; simpl.
  - intros [= <- _] _. now rewrite app_nil_r.
  - unfold bind.
    destruct (capture_one results symbol url w) as [[r1|e|] w1] eqn:H1;
      try discriminate.
    destruct (capture_one_result _ _ _ _ _ _ _ _ H1) as [v ->].
    intros Hloop Hnd.
    assert (Hfresh : ~ In symbol (Dict.keys results)).
    { intros Hin. apply NoDup_remove_2 in Hnd. apply Hnd.
      apply in_or_app. now left. }
    rewrite (IH _ _ Hloop); rewrite (keys_set_fresh _ _ _ _ Hfresh).
    + now rewrite <- app_assoc.
    + rewrite <- app_assoc. exact Hnd.
Qed.

(** *** Files *)

Lemma capture_body_writes p symbol url w path w' :
  Scraper.capture_body E BASE_DIR p symbol url w = (Return path, w') ->
  In path (files w').
Proof.
  unfold Scraper.capture_body. intros H.
  do 6 (apply ReturnFacts.bind_returns in H; destruct H as (? & ? & _ & H)).
  apply ReturnFacts.bind_returns in H. destruct H as ([] & w1 & Hshot & H).
  apply ReturnFacts.bind_returns in H. destruct H as ([] & w2 & Hlog & H).
  unfold ret in H. injection H as <- <-.
  unfold Scraper.info, logging in Hlog. injection Hlog as <-.
  unfold Scraper.call in Hshot.
  destruct (Scraper.answer E _ _) eqn:Ha in Hshot; [discriminate|].
  injection Hshot as <-. simpl. now apply after_screenshot.
Qed.

Lemma capture_guarded_writes created symbol url w path w' :
  Scraper.capture_guarded E BASE_DIR created symbol url w
    = (Return (Some path), w') ->
  In path (files w').
Proof.
  unfold Scraper.capture_guarded, try_except.
  match goal with
  | |- context [match ?body w with _ => _ end] =>
      destruct (body w) as [[v|e|] w1] eqn:Hbody
  end.
  - intros [= -> ->].
    apply ReturnFacts.bind_returns in Hbody. destruct Hbody as (p & w2 & _ & Hbody).
    apply ReturnFacts.bind_returns in Hbody.
    destruct Hbody as (path' & w3 & Hcb & Hret).
    unfold ret in Hret. injection Hret as -> <-.
    eapply capture_body_writes; eauto.
  - destruct (isinstance_Exception e); [|discriminate].
    unfold bind, Scraper.error, logging, ret. discriminate.
  - discriminate.
Qed.

Lemma close_page_keeps_files page : monotone files (Scraper.close_page E page).
Proof. destruct page; simpl; frame. Qed.

Lemma capture_screenshot_writes symbol url w path w' :
  capture_screenshot symbol url w = (Return (Some path), w') ->
  In path (files w').
Proof.
  unfold Scraper.capture_screenshot.
  destruct (browser w) as [b|]; [|discriminate].
  destruct (Scraper.create E (NewPage b) w) as [created w1].
  unfold try_finally.
  destruct (Scraper.capture_guarded E BASE_DIR created symbol url w1)
    as [[v|e|] w2] eqn:Hg; [| |discriminate].
  - pose proof (close_page_keeps_files
                  match created with Return p => Some p | _ => None end w2) as Hm.
    destruct (Scraper.close_page E _ w2) as [[[]|e'|] w3]; try discriminate.
    intros [= -> <-]. apply Hm. eapply capture_guarded_writes; eauto.
  - destruct (Scraper.close_page E _ w2) as [[[]|e'|] w3]; discriminate.
Qed.

Lemma capture_screenshot_keeps_files symbol url :
  monotone files (capture_screenshot symbol url).
Proof.
  intros w x Hx. unfold Scraper.capture_screenshot.
  destruct (browser w) as [b|]; [|exact Hx].
  pose proof (monotone_create E string files (NewPage b) (monotone_call_files E _) w x Hx)
    as Hc.
  destruct (Scraper.create E (NewPage b) w) as [created w1]. simpl in Hc.
  assert (Hm : monotone files
                 (try_finally
                    (Scraper.capture_guarded E BASE_DIR created symbol url)
                    (Scraper.close_page E
                       match created with Return p => Some p | _ => None end))).
  { apply monotone_try_finally.
    - unfold Scraper.capture_guarded, Scraper.capture_body. frame.
    - apply close_page_keeps_files. }
  exact (Hm w1 x Hc).
Qed.

Lemma capture_one_files results symbol url w r w' :
  capture_one results symbol url w = (Return r, w') ->
  (forall k path, Dict.get results k = Some (Some path) -> In path (files w)) ->
  forall k path, Dict.get r k = Some (Some path) -> In path (files w').
Proof.
  unfold Scraper.capture_one, try_except, bind.
  pose proof (capture_screenshot_keeps_files symbol url w) as Hm.
  destruct (capture_screenshot symbol url w) as [[v|e|] w1] eqn:Hcap;
    simpl in Hm.
  - intros [= <- <-] Hinv k path.
    destruct (String.eqb_spec k symbol) as [->|Hne].
    + rewrite DictFacts.get_set_same. intros [= ->].
      eapply capture_screenshot_writes; eauto.
    + rewrite DictFacts.get_set_other by exact Hne. eauto.
  - destruct (isinstance_Exception e); [|discriminate].
    intros [= <- <-] Hinv k path.
    destruct (String.eqb_spec k symbol) as [->|Hne].
    + rewrite DictFacts.get_set_same. discriminate.
    + rewrite DictFacts.get_set_other by exact Hne. simpl. eauto.
  - discriminate.
Qed.

Lemma capture_loop_files items results w r w' :
  capture_loop items results w = (Return r, w') ->
  (forall k path, Dict.get results k = Some (Some path) -> In path (files w)) ->
  forall k path, Dict.get r k = Some (Some path) -> In path (files w').
Proof.
  revert results w. induction items as [|[symbol url] items IH];
    intros results w; simpl.
  - intros [= <- <-]. auto.
  - unfold bind.
    destruct (capture_one results symbol url w) as [[r1|e|] w1] eqn:H1;
      try discriminate.
    intros Hloop Hinv. apply (IH _ _ Hloop).
    eapply capture_one_files; eauto.
Qed.

End WithEnv.

(** X4.  With a browser, one run of the aggregator asks for exactly one
    page per entry of the symbol table, and leaves the scraper's browser in
    place. *)
Theorem one_page_per_symbol E BASE_DIR SYMBOLS w b :
  browser w = Some b ->
  exceptions_only E ->
  exists results w',
    Scraper.capture_all_screenshots E BASE_DIR SYMBOLS w = (Return results, w')
    /\ pages_requested (new_trace w w') = List.length SYMBOLS
    /\ browser w' = Some b.
Proof.
  intros Hb HE. unfold Scraper.capture_all_screenshots.
  destruct (capture_loop_returns E BASE_DIR (Dict.items SYMBOLS) [] w HE)
    as (results & w' & Hloop).
  exists results, w'. split; [exact Hloop|].
  destruct (capture_loop_pages E BASE_DIR _ _ _ _ _ _ Hb Hloop) as (t & Ht & Hn).
  split.
  - now rewrite (new_trace_app _ _ _ Ht).
  - pose proof (capture_loop_keeps_browser E BASE_DIR (Dict.items SYMBOLS) [] w) as H.
    rewrite Hloop in H. simpl in H. congruence.
Qed.

Lemma one_page_per_symbol_witness :
  exists results w',
    Scraper.capture_all_screenshots Examples.E_eth_times_out Examples.base
      Config.CRYPTO_SYMBOLS Examples.live = (Return results, w')
    /\ pages_requested (new_trace Examples.live w')
       = List.length Config.CRYPTO_SYMBOLS
    /\ browser w' = Some 0.
Proof.
  apply one_page_per_symbol.
  - reflexivity.
  - intros n r c msg. simpl. destruct r; try discriminate.
    destruct (String.eqb url _); [|discriminate]. now intros [= <- _].
Defined.

(** X5.  The result mapping lists the symbols in the order of the table. *)
Theorem results_in_table_order E BASE_DIR SYMBOLS w :
  exceptions_only E ->
  NoDup (Dict.keys SYMBOLS) ->
  exists results w',
    Scraper.capture_all_screenshots E BASE_DIR SYMBOLS w = (Return results, w')
    /\ Dict.keys results = Dict.keys SYMBOLS.
Proof.
  intros HE Hnd. unfold Scraper.capture_all_screenshots.
  destruct (capture_loop_returns E BASE_DIR (Dict.items SYMBOLS) [] w HE)
    as (results & w' & Hloop).
  exists results, w'. split; [exact Hloop|].
  apply (capture_loop_order E BASE_DIR _ _ _ _ _ Hloop). exact Hnd.
Qed.

Lemma results_in_table_order_witness :
  exists results w',
    Scraper.capture_all_screenshots Examples.E_ok Examples.base
      Config.CRYPTO_SYMBOLS Examples.live = (Return results, w')
    /\ Dict.keys results = Dict.keys Config.CRYPTO_SYMBOLS.
Proof.
  apply results_in_table_order.
  - intros n r c msg. discriminate.
  - repeat constructor; simpl; intuition discriminate.
Defined.

(** X6.  Every path in the result mapping is the path of a screenshot that
    a [screenshot] request of this run wrote, or of a file that was there
    already. *)
Theorem result_paths_are_files E BASE_DIR SYMBOLS w :
  exceptions_only E ->
  exists results w',
    Scraper.capture_all_screenshots E BASE_DIR SYMBOLS w = (Return results, w')
    /\ forall k path,
         Dict.get results k = Some (Some path) -> In path (files w').
Proof.
  intros HE. unfold Scraper.capture_all_screenshots.
  destruct (capture_loop_returns E BASE_DIR (Dict.items SYMBOLS) [] w HE)
    as (results & w' & Hloop).
  exists results, w'. split; [exact Hloop|].
  apply (capture_loop_files E BASE_DIR _ _ _ _ _ Hloop).
  intros k path. discriminate.
Qed.

Lemma result_paths_are_files_witness :
  exists results w',
    Scraper.capture_all_screenshots Examples.E_ok Examples.base
      Config.CRYPTO_SYMBOLS Examples.live = (Return results, w')
    /\ forall k path,
         Dict.get results k = Some (Some path) -> In path (files w').
Proof.
  apply result_paths_are_files. intros n r c msg. discriminate.
Defined.

End AggregatorFacts.

(** ** The job and the idle loop *)

Module JobFacts.
Import Py Spec Frame RuntimeFacts ScraperFacts FrameFacts BrowserFacts
  AggregatorFacts.
Local Open Scope py_scope.

Section WithEnv.

Variable E : env.
Variable BASE_DIR : Pathlib.Path.
Variable SYMBOLS : Dict.t string.

Lemma raises_capture_one results symbol url :
  raises_only (fun e => from_env E e /\ isinstance_Exception e = false)
    (Scraper.capture_one E BASE_DIR results symbol url).
Proof.
  unfold Scraper.capture_one.
  apply raises_try_except
    with (P := fun e => e = BrowserNotInitialized \/ from_env E e).
  - apply raises_bind; [|intros ?; apply raises_ret].
    intros w. pose proof (capture_screenshot_raises E BASE_DIR symbol url w) as H.
    destruct (fst (Scraper.capture_screenshot E BASE_DIR symbol url w)); auto.
    destruct (browser w); auto.
  - intros e [->|He] Hno; [discriminate | auto].
  - intros e. apply raises_bind; [apply raises_logging | intros ?; apply raises_ret].
Qed.

Lemma raises_capture_loop items results :
  raises_only (fun e => from_env E e /\ isinstance_Exception e = false)
    (Scraper.capture_loop E BASE_DIR items results).
Proof.
  revert results. induction items as [|[symbol url] items IH]; intros results.
  - apply raises_ret.
  - simpl. apply raises_bind; [apply raises_capture_one | apply IH].
Qed.

Lemma raises_report item P : raises_only P (ScraperScript.report item).
Proof.
  destruct item as [symbol [p|]]; simpl; [|intros w; exact I].
  destruct (negb (p =? "")%string); intros w; exact I.
Qed.

Lemma raises_job_body :
  raises_only (fun e => from_env E e /\ isinstance_Exception e = false)
    (Pipeline.capture_screenshots_job E BASE_DIR SYMBOLS).
Proof.
  unfold Pipeline.capture_screenshots_job.
  apply raises_try_except
    with (P := fun e => from_env E e /\ isinstance_Exception e = false); auto.
  - apply raises_bind; [apply raises_logging | intros _].
    apply raises_bind; [apply raises_capture_loop | intros results].
    apply raises_bind; [apply raises_logging | intros _].
    apply raises_for_each. intros [symbol [p|]]; [|apply raises_logging].
    destruct (Pipeline.truthy (Some p)); apply raises_logging.
  - intros e. apply raises_logging.
Qed.

Lemma logging_returns l lv msg : returns_keeping_log (logging l lv msg).
Proof.
  intros w. eexists. split; [reflexivity|].
  intros x Hx. cbn [log add_log]. apply in_or_app. now left.
Qed.

Lemma for_each_returns A (xs : list A) body :
  (forall x, returns_keeping_log (body x)) ->
  returns_keeping_log (for_each xs body).
Proof.
  intros Hb. induction xs as [|x xs IH]; intros w; simpl.
  - exists w. auto.
  - unfold bind. destruct (Hb x w) as (w1 & -> & Hl1).
    destruct (IH w1) as (w' & -> & Hl). exists w'. auto.
Qed.

End WithEnv.

(** X7.  [capture_screenshots_job] never raises an [Exception] and always
    ends: what leaves it is an exception of a collaborator that is not an
    [Exception]. *)
Theorem job_absorbs_exceptions E BASE_DIR SYMBOLS w :
  match fst (Pipeline.capture_screenshots_job E BASE_DIR SYMBOLS w) with
  | Raise e => from_env E e /\ isinstance_Exception e = false
  | Diverge => False
  | Return _ => True
  end.
Proof. apply raises_job_body. Qed.

(** X8.  With collaborators that raise only [Exception]s the job returns,
    and the summary it logs counts the paths in the result mapping against
    the number of symbols in the table. *)
Theorem job_logs_summary E BASE_DIR SYMBOLS w :
  exceptions_only E ->
  NoDup (Dict.keys SYMBOLS) ->
  exists results w1 w',
    Scraper.capture_all_screenshots E BASE_DIR SYMBOLS
      (add_log PipelineLogger INFO "Starting screenshot capture job..." w)
      = (Return results, w1)
    /\ Pipeline.capture_screenshots_job E BASE_DIR SYMBOLS w = (Return tt, w')
    /\ List.length (filter Pipeline.truthy (Dict.values results))
       <= List.length SYMBOLS
    /\ In (PipelineLogger, INFO,
           "Screenshot job completed: "
             ++ Str.of_nat (List.length (filter Pipeline.truthy (Dict.values results)))
             ++ "/" ++ Str.of_nat (List.length SYMBOLS) ++ " successful")
          (log w').
Proof.
  intros HE Hnd.
  destruct (capture_loop_returns E BASE_DIR (Dict.items SYMBOLS) []
              (add_log PipelineLogger INFO "Starting screenshot capture job..." w)
              HE) as (results & w1 & Hall).
  pose proof (capture_loop_order E BASE_DIR _ _ _ _ _ Hall Hnd) as Hkeys.
  change (Dict.keys [] ++ map fst (Dict.items SYMBOLS))%list
    with (Dict.keys SYMBOLS) in Hkeys.
  change (Scraper.capture_loop E BASE_DIR (Dict.items SYMBOLS) [])
    with (Scraper.capture_all_screenshots E BASE_DIR SYMBOLS) in Hall.
  assert (Hlen : List.length results = List.length SYMBOLS).
  { apply (f_equal (@List.length string)) in Hkeys.
    unfold Dict.keys in Hkeys. now rewrite !length_map in Hkeys. }
  assert (Hjob : exists w',
    Pipeline.capture_screenshots_job E BASE_DIR SYMBOLS w = (Return tt, w')
    /\ In (PipelineLogger, INFO,
           "Screenshot job completed: "
             ++ Str.of_nat (List.length (filter Pipeline.truthy (Dict.values results)))
             ++ "/" ++ Str.of_nat (List.length results) ++ " successful")
          (log w')).
  { unfold Pipeline.capture_screenshots_job, try_except.
    unfold bind at 1. unfold Pipeline.info at 1, logging at 1.
    unfold bind at 1. rewrite Hall.
    unfold bind at 1. unfold Pipeline.info at 1, logging at 1.
    match goal with
    | |- context [for_each ?xs ?body ?w2] =>
        assert (Hb : forall x, returns_keeping_log (body x));
        [ intros [symbol [p|]]; [destruct (Pipeline.truthy (Some p))|];
          apply logging_returns
        | destruct (for_each_returns _ xs body Hb w2) as (w' & Hfor & Hlog) ]
    end.
    rewrite Hfor. exists w'. split; [reflexivity|].
    apply Hlog. cbn [log add_log]. apply in_or_app. right. now left. }
  destruct Hjob as (w' & Hjob & Hsummary).
  exists results, w1, w'. split; [exact Hall|]. split; [exact Hjob|]. split.
  - rewrite <- Hlen. unfold Dict.values.
    eapply Nat.le_trans; [apply filter_length_le|]. now rewrite length_map.
  - now rewrite <- Hlen.
Qed.

Lemma job_logs_summary_witness :
  exists results w1 w',
    Scraper.capture_all_screenshots Examples.E_eth_times_out Examples.base
      Config.CRYPTO_SYMBOLS
      (add_log PipelineLogger INFO "Starting screenshot capture job..." Examples.live)
      = (Return results, w1)
    /\ Pipeline.capture_screenshots_job Examples.E_eth_times_out Examples.base
         Config.CRYPTO_SYMBOLS Examples.live = (Return tt, w')
    /\ List.length (filter Pipeline.truthy (Dict.values results))
       <= List.length Config.CRYPTO_SYMBOLS
    /\ In (PipelineLogger, INFO,
           "Screenshot job completed: "
             ++ Str.of_nat (List.length (filter Pipeline.truthy (Dict.values results)))
             ++ "/" ++ Str.of_nat (List.length Config.CRYPTO_SYMBOLS) ++ " successful")
          (log w').
Proof.
  apply job_logs_summary.
  - intros n r c msg. simpl. destruct r; try discriminate.
    destruct (String.eqb url _); [|discriminate]. now intros [= <- _].
  - repeat constructor; simpl; intuition discriminate.
Defined.

End JobFacts.

(** ** The idle loop and the shutdown *)

Module ShutdownFacts.
Import Py Spec Frame RuntimeFacts ScraperFacts FrameFacts PipelineFacts JobFacts.
Local Open Scope py_scope.

Section WithEnv.

Variable E : env.

Lemma answer_None r w :
  respond E (steps w) r = None -> Scraper.answer E r w = None.
Proof. unfold Scraper.answer. now intros ->. Qed.

Lemma after_running_signal r w s :
  signal E (steps w) = Some s -> running (Scraper.after E r w) = false.
Proof. unfold Scraper.after. now intros ->. Qed.

Lemma after_running_quiet r w :
  signal E (steps w) = None -> running (Scraper.after E r w) = running w.
Proof.
  unfold Scraper.after. intros ->.
  destruct (Scraper.answer E r w), r; reflexivity.
Qed.

Lemma after_browser_close b w :
  Scraper.answer E (BrowserClose b) w = None ->
  pages (Scraper.after E (BrowserClose b) w) = [].
Proof.
  unfold Scraper.after. intros ->. destruct (signal E (steps w)); reflexivity.
Qed.

Lemma after_scheduler_shutdown w :
  Scraper.answer E SchedulerShutdown w = None ->
  scheduler_running (Scraper.after E SchedulerShutdown w) = false.
Proof.
  unfold Scraper.after. intros ->. destruct (signal E (steps w)); reflexivity.
Qed.

Lemma idle_loop_stopped fuel w :
  running w = false -> Pipeline.idle_loop E fuel w = (Return tt, w).
Proof. intros H. destruct fuel; cbn [Pipeline.idle_loop]; now rewrite H. Qed.

Lemma may_raise_idle_loop fuel : may_raise (from_env E) (Pipeline.idle_loop E fuel).
Proof.
  induction fuel as [|fuel IH]; intros w; cbn [Pipeline.idle_loop];
    destruct (running w); try exact I.
  apply (may_raise_bind _ _ _ (Scraper.call E (AsyncioSleep 1))
           (fun _ => Pipeline.idle_loop E fuel)); auto.
  apply may_raise_weaker, raises_call.
Qed.

End WithEnv.

(** X9.  The idle loop returns only with the flag cleared, and by then it
    has sent nothing but one-second sleeps, each of which returned. *)
Theorem idle_loop_returns_cleared E fuel w w' :
  Pipeline.idle_loop E fuel w = (Return tt, w') ->
  running w' = false
  /\ exists k,
       k <= fuel
       /\ trace w' = (trace w ++ repeat (AsyncioSleep 1, None) k)%list.
Proof.
  revert w. induction fuel as [|fuel IH]; intros w; cbn [Pipeline.idle_loop];
    destruct (running w) eqn:Hrun; try discriminate.
  - intros [= <-]. split; [exact Hrun|]. exists 0. split; [lia|].
    simpl. now rewrite app_nil_r.
  - unfold bind, Scraper.call.
    destruct (Scraper.answer E (AsyncioSleep 1) w) as [e|] eqn:Ha;
      [discriminate|].
    intros Hloop. destruct (IH _ Hloop) as (Hstop & k & Hk & Ht).
    split; [exact Hstop|]. exists (S k). split; [lia|].
    rewrite Ht, after_trace, Ha, <- app_assoc. reflexivity.
  - intros [= <-]. split; [exact Hrun|]. exists 0. split; [lia|].
    simpl. now rewrite app_nil_r.
Qed.

Lemma idle_loop_returns_cleared_witness :
  let w' := snd (Pipeline.idle_loop MoreExamples.E_sigterm 10 MoreExamples.idle) in
  running w' = false
  /\ exists k,
       k <= 10
       /\ trace w' = (trace MoreExamples.idle ++ repeat (AsyncioSleep 1, None) k)%list.
Proof.
  intros w'.
  apply (idle_loop_returns_cleared MoreExamples.E_sigterm 10 MoreExamples.idle w').
  vm_compute. reflexivity.
Defined.

(** X10.  A signal ends the idle loop: when the sleeps return and the first
    signal arrives during the [k+1]-th of them, the loop returns after that
    sleep, with the flag cleared. *)
Theorem idle_loop_stops_on_signal E fuel w k s :
  running w = true ->
  undisturbed E (AsyncioSleep 1) (steps w) k ->
  respond E (steps w + k) (AsyncioSleep 1) = None ->
  signal E (steps w + k) = Some s ->
  k < fuel ->
  exists w',
    Pipeline.idle_loop E fuel w = (Return tt, w')
    /\ running w' = false
    /\ trace w' = (trace w ++ repeat (AsyncioSleep 1, None) (S k))%list.
Proof.
  revert fuel w. induction k as [|k IH]; intros fuel w Hrun Hquiet Hans Hsig Hfuel;
    (destruct fuel as [|fuel]; [lia|]); cbn [Pipeline.idle_loop]; rewrite Hrun;
    unfold bind, Scraper.call.
  - rewrite Nat.add_0_r in Hans, Hsig.
    rewrite (answer_None E _ _ Hans).
    rewrite idle_loop_stopped by (eapply after_running_signal; eauto).
    eexists. split; [reflexivity|]. split.
    + eapply after_running_signal; eauto.
    + now rewrite after_trace, (answer_None E _ _ Hans).
  - destruct (Hquiet 0) as [Hans0 Hsig0]; [lia|].
    rewrite Nat.add_0_r in Hans0, Hsig0.
    rewrite (answer_None E _ _ Hans0).
    destruct (IH fuel (Scraper.after E (AsyncioSleep 1) w)) as (w' & Hloop & Hstop & Ht).
    + now rewrite after_running_quiet.
    + rewrite after_steps. intros j Hj. specialize (Hquiet (S j)).
      rewrite Nat.add_succ_r in Hquiet. apply Hquiet. lia.
    + rewrite after_steps. now rewrite Nat.add_succ_r in Hans.
    + rewrite after_steps. now rewrite Nat.add_succ_r in Hsig.
    + lia.
    + exists w'. split; [exact Hloop|]. split; [exact Hstop|].
      rewrite Ht, after_trace, (answer_None E _ _ Hans0), <- app_assoc.
      reflexivity.
Qed.

Lemma idle_loop_stops_on_signal_witness :
  exists w',
    Pipeline.idle_loop MoreExamples.E_sigterm 10 MoreExamples.idle = (Return tt, w')
    /\ running w' = false
    /\ trace w' = (trace MoreExamples.idle ++ repeat (AsyncioSleep 1, None) 3)%list.
Proof.
  apply (idle_loop_stops_on_signal MoreExamples.E_sigterm 10 MoreExamples.idle 2 15).
  - reflexivity.
  - intros j Hj. split; [reflexivity|].
    destruct j as [|[|j]]; [reflexivity | reflexivity | lia].
  - reflexivity.
  - reflexivity.
  - lia.
Defined.

End ShutdownFacts.

(** ** Stopping *)

Module StopFacts.
Import Py Spec Frame RuntimeFacts ScraperFacts FrameFacts PipelineFacts JobFacts
  ShutdownFacts BrowserFacts.
Local Open Scope py_scope.

Lemma exception_not_interrupt e :
  isinstance_Exception e = true -> isinstance_KeyboardInterrupt e = false.
Proof. destruct e as [|[] msg]; simpl; congruence. Qed.

Lemma try_finally_returns A (body : M A) fin w a w' :
  try_finally body fin w = (Return a, w') ->
  exists w1, body w = (Return a, w1) /\ fin w1 = (Return tt, w').
Proof.
  unfold try_finally.
  destruct (body w) as [[v|e|] w1]; [| |discriminate];
    destruct (fin w1) as [[[]|e'|] w2] eqn:Hf; try discriminate.
  intros [= -> ->]. eauto.
Qed.

(** How [try ... finally] can raise: the [finally] clause raised, or the
    body raised and the clause returned. *)
Lemma try_finally_raises A (body : M A) fin w e w' :
  try_finally body fin w = (Raise e, w') ->
  (exists r1 w1, body w = (r1, w1) /\ fin w1 = (Raise e, w'))
  \/ (exists w1, body w = (Raise e, w1) /\ fin w1 = (Return tt, w')).
Proof.
  unfold try_finally.
  destruct (body w) as [[v|e0|] w1]; [| |discriminate];
    destruct (fin w1) as [[[]|e'|] w2] eqn:Hf; try discriminate;
    intros [= -> ->]; eauto.
Qed.

Section WithEnv.

Variable E : env.

Lemma close_browser_returns w w' :
  Scraper.close_browser E w = (Return tt, w') ->
  browser w' = browser w
  /\ scheduler_running w' = scheduler_running w
  /\ (browser w = None \/ pages w' = []).
Proof.
  unfold Scraper.close_browser.
  destruct (browser w) as [b|] eqn:Hb.
  - unfold bind, Scraper.call, Scraper.info, logging.
    destruct (Scraper.answer E (BrowserClose b) w) as [e|] eqn:Ha;
      [discriminate|].
    intros [= <-]. cbn [browser scheduler_running pages add_log].
    rewrite after_browser, after_scheduler by discriminate.
    rewrite (after_browser_close E _ _ Ha). auto.
  - intros [= <-]. auto.
Qed.

Lemma close_browser_raises w e w' :
  Scraper.close_browser E w = (Raise e, w') ->
  exists t b, trace w' = (t ++ [(BrowserClose b, Some e)])%list.
Proof.
  unfold Scraper.close_browser.
  destruct (browser w) as [b|]; [|discriminate].
  unfold bind, Scraper.call, Scraper.info, logging.
  destruct (Scraper.answer E (BrowserClose b) w) as [e1|] eqn:Ha;
    [|discriminate].
  intros [= <- <-]. exists (trace w), b. now rewrite after_trace, Ha.
Qed.

Lemma stop_returns w w' :
  Pipeline.stop E w = (Return tt, w') ->
  scheduler_running w' = false
  /\ browser w' = browser w
  /\ (browser w = None \/ pages w' = []).
Proof.
  unfold Pipeline.stop. intros H.
  apply ReturnFacts.bind_returns in H. destruct H as ([] & w0 & Hlog & H).
  unfold Pipeline.info, logging in Hlog. injection Hlog as <-.
  apply ReturnFacts.bind_returns in H. destruct H as (r & w0' & Hr & H).
  injection Hr as <- <-. cbn [scheduler_running add_log] in H.
  apply ReturnFacts.bind_returns in H. destruct H as ([] & w1 & Hsched & H).
  apply ReturnFacts.bind_returns in H. destruct H as ([] & w2 & Hclose & H).
  unfold Pipeline.info, logging in H. injection H as <-.
  destruct (close_browser_returns _ _ Hclose) as (Hb2 & Hs2 & Hp2).
  cbn [scheduler_running browser pages add_log].
  assert (H1 : scheduler_running w1 = false /\ browser w1 = browser w).
  { destruct (scheduler_running w) eqn:Hs.
    - unfold Scraper.call in Hsched.
      destruct (Scraper.answer E SchedulerShutdown _) eqn:Ha in Hsched;
        [discriminate|].
      injection Hsched as <-.
      rewrite (after_scheduler_shutdown E _ Ha), after_browser. auto.
    - unfold ret in Hsched. injection Hsched as <-. auto. }
  destruct H1 as [Hs1 Hb1]. rewrite Hs2, Hb2, Hs1, Hb1.
  split; [reflexivity|]. split; [reflexivity|].
  rewrite <- Hb1. exact Hp2.
Qed.

Lemma stop_raises w e w' :
  Pipeline.stop E w = (Raise e, w') ->
  exists t r, trace w' = (t ++ [(r, Some e)])%list /\ shutdown_request r.
Proof.
  unfold Pipeline.stop, bind, Pipeline.info, logging.
  cbn [scheduler_running add_log].
  destruct (scheduler_running w).
  - unfold Scraper.call at 1.
    destruct (Scraper.answer E SchedulerShutdown _) as [e1|] eqn:Ha.
    + intros [= <- <-]. eexists _, SchedulerShutdown.
      rewrite after_trace, Ha. split; [reflexivity | now left].
    + destruct (Scraper.close_browser E _) as [[[]|e2|] w2] eqn:Hc;
        try discriminate.
      intros [= <- <-].
      destruct (close_browser_raises _ _ _ Hc) as (t & b & Ht).
      exists t, (BrowserClose b). split; [exact Ht | right; eauto].
  - unfold ret.
    destruct (Scraper.close_browser E _) as [[[]|e2|] w2] eqn:Hc;
      try discriminate.
    intros [= <- <-].
    destruct (close_browser_raises _ _ _ Hc) as (t & b & Ht).
    exists t, (BrowserClose b). split; [exact Ht | right; eauto].
Qed.

Lemma raises_start_browser : raises_only (from_env E) (Scraper.start_browser E).
Proof.
  unfold Scraper.start_browser.
  apply raises_try_except_caught with (P := from_env E); auto.
  - apply raises_bind; [apply raises_call | intros _].
    apply raises_bind; [apply raises_create | intros b].
    apply raises_bind; [intros w; exact I | intros _].
    apply raises_logging.
  - intros e He _. apply raises_bind; [apply raises_logging | intros _].
    now apply raises_raise.
Qed.

Lemma may_raise_start_body BASE_DIR SYMBOLS fuel :
  may_raise (from_env E) (Pipeline.start_body E BASE_DIR SYMBOLS fuel).
Proof.
  unfold Pipeline.start_body.
  apply may_raise_bind; [apply may_raise_weaker, raises_logging | intros _].
  apply may_raise_bind; [apply may_raise_weaker, raises_start_browser | intros _].
  apply may_raise_bind; [apply may_raise_weaker, raises_call | intros _].
  apply may_raise_bind; [apply may_raise_weaker, raises_call | intros _].
  apply may_raise_bind; [intros w; exact I | intros _].
  apply may_raise_bind; [apply may_raise_weaker, raises_logging | intros _].
  apply may_raise_bind; [apply may_raise_weaker, raises_logging | intros _].
  apply may_raise_bind; [|intros _; apply may_raise_idle_loop].
  apply may_raise_weaker.
  apply raises_weaken
    with (P := fun e => from_env E e /\ isinstance_Exception e = false);
    [tauto | apply raises_job_body].
Qed.

End WithEnv.

(** X11.  When [stop] returns, the scraper still holds the handle it held
    ([close_browser] does not reset it); a scheduler that was not running
    is still not running; and if the scraper held a browser, so that [stop]
    awaited its [close], the scheduler is not running and no page is open. *)
Theorem stop_postcondition E w w' :
  Pipeline.stop E w = (Return tt, w') ->
  browser w' = browser w
  /\ (scheduler_running w = false -> scheduler_running w' = false)
  /\ (forall b, browser w = Some b ->
                scheduler_running w' = false /\ pages w' = []).
Proof.
  intros H. destruct (stop_returns E w w' H) as (Hs & Hb & Hp).
  split; [exact Hb|]. split; [auto|].
  intros b Hw. split; [exact Hs|].
  destruct Hp as [Hn|Hp]; [congruence | exact Hp].
Qed.

Lemma stop_postcondition_witness :
  let w' := snd (Pipeline.stop Examples.E_ok MoreExamples.idle) in
  browser w' = browser MoreExamples.idle
  /\ (scheduler_running MoreExamples.idle = false -> scheduler_running w' = false)
  /\ (forall b, browser MoreExamples.idle = Some b ->
                scheduler_running w' = false /\ pages w' = []).
Proof.
  intros w'. apply (stop_postcondition Examples.E_ok MoreExamples.idle w').
  vm_compute. reflexivity.
Defined.

(** X12.  [start] returns only after [stop] has returned: by then the
    scheduler is not running and, if the scraper holds a browser, no page
    is open. *)
Theorem start_returns_shut_down E BASE_DIR SYMBOLS fuel w w' :
  Pipeline.start E BASE_DIR SYMBOLS fuel w = (Return tt, w') ->
  scheduler_running w' = false
  /\ (browser w' = None \/ pages w' = []).
Proof.
  unfold Pipeline.start. intros H.
  apply try_finally_returns in H. destruct H as (w1 & _ & Hstop).
  destruct (stop_returns E _ _ Hstop) as (Hs & Hb & Hp).
  split; [exact Hs|]. rewrite Hb. exact Hp.
Qed.

Lemma start_returns_shut_down_witness :
  let w' := snd (Pipeline.start MoreExamples.E_sigint Examples.base
                   Config.CRYPTO_SYMBOLS 5 initial_world) in
  scheduler_running w' = false
  /\ (browser w' = None \/ pages w' = []).
Proof.
  intros w'.
  apply (start_returns_shut_down MoreExamples.E_sigint Examples.base
           Config.CRYPTO_SYMBOLS 5 initial_world w').
  vm_compute. reflexivity.
Defined.

(** X13.  [close_browser] does not forget the browser it closed: after a
    [stop] that returned, a second [stop] leaves the scheduler alone and
    sends [close] to the same browser again. *)
Theorem second_stop_closes_again E w b w1 :
  browser w = Some b ->
  Pipeline.stop E w = (Return tt, w1) ->
  exists a, new_trace w1 (snd (Pipeline.stop E w1)) = [(BrowserClose b, a)].
Proof.
  intros Hb Hstop.
  destruct (stop_returns E _ _ Hstop) as (Hs1 & Hb1 & _).
  rewrite Hb in Hb1.
  unfold Pipeline.stop, bind, Pipeline.info, logging.
  cbn [scheduler_running add_log]. rewrite Hs1. unfold ret.
  unfold Scraper.close_browser. cbn [browser add_log]. rewrite Hb1.
  unfold bind, Scraper.call, Scraper.info, logging.
  exists (Scraper.answer E (BrowserClose b)
            (add_log PipelineLogger INFO "Stopping pipeline..." w1)).
  apply new_trace_app.
  destruct (Scraper.answer E (BrowserClose b) _) eqn:Ha;
    cbn [snd trace add_log]; now rewrite after_trace, Ha.
Qed.

Lemma second_stop_closes_again_witness :
  let w1 := snd (Pipeline.stop Examples.E_ok MoreExamples.idle) in
  exists a,
    new_trace w1 (snd (Pipeline.stop Examples.E_ok w1)) = [(BrowserClose 1, a)].
Proof.
  intros w1.
  apply (second_stop_closes_again Examples.E_ok MoreExamples.idle 1 w1).
  - reflexivity.
  - vm_compute. reflexivity.
Defined.

(** X14.  With collaborators that raise only [Exception]s, [start] raises
    only when the shutdown itself failed: the exception it raises is the one
    the last request raised, and that request was the scheduler's [shutdown]
    or the browser's [close].  Whatever the [try] block raised has been
    caught by then. *)
Theorem start_raises_only_from_shutdown E BASE_DIR SYMBOLS fuel w e w' :
  exceptions_only E ->
  Pipeline.start E BASE_DIR SYMBOLS fuel w = (Raise e, w') ->
  exists t r, trace w' = (t ++ [(r, Some e)])%list /\ shutdown_request r.
Proof.
  intros HE Hstart. unfold Pipeline.start in Hstart.
  apply try_finally_raises in Hstart.
  destruct Hstart as [(r1 & w0 & _ & Hstop) | (w0 & Hbody & _)].
  - eapply stop_raises; eauto.
  - exfalso.
    pose proof (may_raise_start_body E BASE_DIR SYMBOLS fuel w) as Hr.
    destruct (Pipeline.start_body E BASE_DIR SYMBOLS fuel w) as [[[]|e0|] w2];
      try discriminate.
    simpl in Hr. pose proof (from_env_Exception E e0 HE Hr) as He0.
    rewrite (exception_not_interrupt _ He0), He0 in Hbody.
    discriminate.
Qed.

Lemma start_raises_only_from_shutdown_witness :
  let run := Pipeline.start Examples.E_browser_close_fails Examples.base
               Config.CRYPTO_SYMBOLS 5 initial_world in
  exists t r,
    trace (snd run)
    = (t ++ [(r, Some (Raised ExceptionClass "Connection closed"))])%list
    /\ shutdown_request r.
Proof.
  intros run.
  apply (start_raises_only_from_shutdown Examples.E_browser_close_fails
           Examples.base Config.CRYPTO_SYMBOLS 5 initial_world
           (Raised ExceptionClass "Connection closed") (snd run)).
  - intros n r c msg. simpl. destruct r; try discriminate. now intros [= <- _].
  - vm_compute. reflexivity.
Defined.

End StopFacts.

(** ** The scraper run as a script *)

Module ScraperScriptFacts.
Import Py Spec Frame RuntimeFacts ScraperFacts FrameFacts PipelineFacts JobFacts
  BrowserFacts StopFacts.
Local Open Scope py_scope.

Section WithEnv.

Variable E : env.
Variable BASE_DIR : Pathlib.Path.
Variable SYMBOLS : Dict.t string.

Lemma sends_create (R : request -> Prop) r :
  R r -> sends R (Scraper.create E r).
Proof.
  intros Hr w. destruct (sends_call E R r Hr w) as (t & Ht & HR).
  exists t. split; [|exact HR]. unfold Scraper.create.
  destruct (Scraper.call E r w) as [[[]|e|] w1]; exact Ht.
Qed.

Lemma sends_start_browser : sends startup_request (Scraper.start_browser E).
Proof.
  unfold Scraper.start_browser. apply sends_try_except.
  - apply sends_bind; [apply sends_call; now left | intros _].
    apply sends_bind; [apply sends_create; now right | intros b].
    apply sends_bind; [|intros _; apply sends_logging].
    intros w. exists []. simpl. now rewrite app_nil_r.
  - intros e. apply sends_bind; [apply sends_logging | intros _].
    apply sends_raise.
Qed.

Lemma start_browser_returns w :
  respond E (steps w) PlaywrightStart = None ->
  respond E (S (steps w))
    (Launch Config.BROWSER_HEADLESS ["--no-sandbox"; "--disable-dev-shm-usage"])
    = None ->
  exists w1,
    Scraper.start_browser E w = (Return tt, w1)
    /\ browser w1 = Some (S (steps w))
    /\ steps w1 = S (S (steps w))
    /\ trace w1 = (trace w ++ firstn 2 STARTUP_TRACE)%list.
Proof.
  intros H1 H2.
  unfold Scraper.start_browser, try_except, bind, Scraper.create, Scraper.call.
  rewrite (ShutdownFacts.answer_None E _ _ H1).
  rewrite (ShutdownFacts.answer_None E _ (Scraper.after E PlaywrightStart w))
    by (rewrite after_steps; exact H2).
  eexists. split; [reflexivity|].
  cbn [browser steps trace add_log set_browser].
  rewrite !after_steps, !after_trace.
  rewrite (ShutdownFacts.answer_None E _ _ H1).
  rewrite (ShutdownFacts.answer_None E _ (Scraper.after E PlaywrightStart w))
    by (rewrite after_steps; exact H2).
  rewrite <- app_assoc. auto.
Qed.

(** What [main] does between [start_browser] and the [finally] clause. *)
Lemma capture_and_report_keeps_browser :
  preserves browser (ScraperScript.capture_and_report E BASE_DIR SYMBOLS).
Proof.
  unfold ScraperScript.capture_and_report.
  apply preserves_bind; [apply capture_loop_keeps_browser | intros results].
  apply preserves_bind; [apply preserves_print_browser | intros _].
  apply preserves_for_each. intros [symbol [p|]]; simpl;
    [destruct (negb (p =? "")%string)|]; apply preserves_print_browser.
Qed.

Lemma raises_capture_and_report :
  raises_only (from_env E) (ScraperScript.capture_and_report E BASE_DIR SYMBOLS).
Proof.
  unfold ScraperScript.capture_and_report.
  apply raises_bind.
  - apply raises_weaken
      with (P := fun e => from_env E e /\ isinstance_Exception e = false);
      [tauto | apply raises_capture_loop].
  - intros results. apply raises_bind; [intros w; exact I | intros _].
    apply raises_for_each. intros item. apply raises_report.
Qed.

End WithEnv.

(** X15.  In the scraper's own [main], once the browser is launched the
    last request is always [close] on that browser, whatever the capture
    did; when that [close] raises, [main] raises its exception. *)
Theorem scraper_main_closes_browser E BASE_DIR SYMBOLS w :
  respond E (steps w) PlaywrightStart = None ->
  respond E (S (steps w))
    (Launch Config.BROWSER_HEADLESS ["--no-sandbox"; "--disable-dev-shm-usage"])
    = None ->
  let run := ScraperScript.main E BASE_DIR SYMBOLS w in
  fst run <> Diverge
  /\ exists t a,
       trace (snd run) = (t ++ [(BrowserClose (S (steps w)), a)])%list
       /\ match a with
          | Some e => fst run = Raise e
          | None => True
          end.
Proof.
  intros H1 H2. cbv zeta.
  destruct (ScraperScript.main E BASE_DIR SYMBOLS w) as [r w'] eqn:Hmain.
  cbn [fst snd].
  unfold ScraperScript.main in Hmain. unfold bind at 1 in Hmain.
  unfold ScraperScript.__init__ in Hmain.
  destruct (start_browser_returns E (set_browser None w) H1 H2) as (w1 & Hstart & Hb1 & _).
  unfold try_finally in Hmain. unfold bind at 1 in Hmain. rewrite Hstart in Hmain.
  pose proof (capture_and_report_keeps_browser E BASE_DIR SYMBOLS w1) as Hkeep.
  pose proof (raises_capture_and_report E BASE_DIR SYMBOLS w1) as Hraise.
  destruct (ScraperScript.capture_and_report E BASE_DIR SYMBOLS w1)
    as [rb wb] eqn:Hbody.
  simpl in Hkeep, Hraise. rewrite Hb1 in Hkeep. cbn [steps set_browser] in Hkeep.
  unfold Scraper.close_browser in Hmain. rewrite Hkeep in Hmain.
  unfold bind, Scraper.call, Scraper.info, logging in Hmain.
  destruct rb as [[]|e|]; [| |contradiction];
    destruct (Scraper.answer E (BrowserClose (S (steps w))) wb) as [e'|] eqn:Ha;
    injection Hmain as <- <-; (split; [discriminate|]);
    eexists _, _; cbn [trace add_log]; rewrite after_trace, Ha;
    (split; [reflexivity|]); reflexivity.
Qed.

Lemma scraper_main_closes_browser_witness :
  let run := ScraperScript.main Examples.E_goto_times_out Examples.base
               Config.CRYPTO_SYMBOLS initial_world in
  fst run <> Diverge
  /\ exists t a,
       trace (snd run) = (t ++ [(BrowserClose (S (steps initial_world)), a)])%list
       /\ match a with
          | Some e => fst run = Raise e
          | None => True
          end.
Proof.
  apply scraper_main_closes_browser; reflexivity.
Defined.

(** X16.  In the scraper's own [main] a browser that does not come up is
    fatal: [main] raises the exception of the launch, having sent nothing
    but the start-up requests, and the scraper holds no browser. *)
Theorem scraper_main_propagates_launch_failure E BASE_DIR SYMBOLS w msg :
  launch_fails E (steps w) msg ->
  exists w',
    ScraperScript.main E BASE_DIR SYMBOLS w = (Raise (Raised ExceptionClass msg), w')
    /\ browser w' = None
    /\ Forall (fun ra => startup_request (fst ra)) (new_trace w w').
Proof.
  intros Hfail.
  unfold ScraperScript.main. unfold bind at 1. unfold ScraperScript.__init__.
  destruct (launch_failure E (set_browser None w) msg Hfail) as (w1 & Hstart & _).
  destruct (start_browser_failure _ _ _ _ Hstart) as [Hb1 _].
  destruct (sends_start_browser E (set_browser None w)) as (t & Ht & HR).
  rewrite Hstart in Ht. simpl in Ht.
  unfold try_finally. unfold bind at 1. rewrite Hstart.
  unfold Scraper.close_browser. rewrite Hb1. cbn [browser set_browser].
  exists w1. split; [reflexivity|]. split; [exact Hb1|].
  now rewrite (new_trace_app _ _ _ Ht).
Qed.

Lemma scraper_main_propagates_launch_failure_witness :
  exists w',
    ScraperScript.main Examples.E_launch_fails Examples.base Config.CRYPTO_SYMBOLS
      initial_world = (Raise (Raised ExceptionClass "Executable doesn't exist"), w')
    /\ browser w' = None
    /\ Forall (fun ra => startup_request (fst ra)) (new_trace initial_world w').
Proof.
  apply scraper_main_propagates_launch_failure. right. split; reflexivity.
Defined.

End ScraperScriptFacts.

(** ** File names of different symbols *)

Module NameFacts.
Import Py Spec.

Lemma length_app_string a b :
  String.length (a ++ b) = String.length a + String.length b.
Proof. induction a as [|c a IH]; simpl; [reflexivity | now rewrite IH]. Qed.

(** Two strings with suffixes of one length are equal piece by piece. *)
Lemma append_inj_suffix a1 a2 b1 b2 :
  (a1 ++ b1)%string = (a2 ++ b2)%string ->
  String.length b1 = String.length b2 ->
  a1 = a2 /\ b1 = b2.
Proof.
  revert a2. induction a1 as [|c a1 IH]; intros [|c2 a2]; simpl; intros H Hl.
  - auto.
  - rewrite H in Hl. simpl in Hl. rewrite length_app_string in Hl. lia.
  - rewrite <- H in Hl. simpl in Hl. rewrite length_app_string in Hl. lia.
  - injection H as -> H. destruct (IH _ H Hl) as [-> ->]. auto.
Qed.

Lemma timestamp_length t :
  String.length (Datetime.strftime Config.TIMESTAMP_FORMAT t) = 15.
Proof.
  rewrite PathFacts.strftime_configured, !length_app_string.
  unfold Str.pad4, Str.pad2. reflexivity.
Qed.

Lemma screenshot_filename_symbol s1 t1 s2 t2 :
  Scraper.screenshot_filename s1 t1 = Scraper.screenshot_filename s2 t2 ->
  s1 = s2.
Proof.
  unfold Scraper.screenshot_filename. intros H.
  apply append_inj_suffix in H; [tauto|].
  change (("_" ++ ?x)%string) with (String "_" x).
  cbn [String.length]. now rewrite !length_app_string, !timestamp_length.
Qed.

(** X17.  Captures of different symbols never return the same path: for
    symbol names without a slash, two captures that return one path are
    captures of one symbol. *)
Theorem one_path_one_symbol
  E BASE_DIR symbol1 url1 w1 w1' symbol2 url2 w2 w2' path :
  Pathlib.wf BASE_DIR = true ->
  Str.lacks Str.slash symbol1 = true ->
  Str.lacks Str.slash symbol2 = true ->
  Scraper.capture_screenshot E BASE_DIR symbol1 url1 w1 = (Return (Some path), w1') ->
  Scraper.capture_screenshot E BASE_DIR symbol2 url2 w2 = (Return (Some path), w2') ->
  symbol1 = symbol2.
Proof.
  intros Hwf Hs1 Hs2 Hc1 Hc2.
  destruct (ReturnFacts.capture_screenshot_returns _ _ _ _ _ _ _ Hc1) as [n1 Hp1].
  destruct (ReturnFacts.capture_screenshot_returns _ _ _ _ _ _ _ Hc2) as [n2 Hp2].
  destruct (PathFacts.filename_component symbol1 (now E n1) Hs1) as [Hl1 Hk1].
  destruct (PathFacts.filename_component symbol2 (now E n2) Hs2) as [Hl2 Hk2].
  assert (Hdir : Pathlib.wf (Config.SCREENSHOTS_DIR BASE_DIR) = true).
  { unfold Config.SCREENSHOTS_DIR.
    rewrite PathFacts.join_component by reflexivity.
    now apply PathFacts.wf_child. }
  rewrite (PathFacts.join_component _ _ Hl1 Hk1) in Hp1.
  rewrite (PathFacts.join_component _ _ Hl2 Hk2) in Hp2.
  apply (f_equal Pathlib.parse) in Hp1, Hp2.
  rewrite PathFacts.parse_str in Hp1 by now apply PathFacts.wf_child.
  rewrite PathFacts.parse_str in Hp2 by now apply PathFacts.wf_child.
  rewrite Hp1 in Hp2. unfold Pathlib.child in Hp2.
  injection Hp2 as Hparts. apply app_inv_head in Hparts.
  injection Hparts as Hname.
  eapply screenshot_filename_symbol; eauto.
Qed.

Lemma one_path_one_symbol_witness : "BTC" = "BTC".
Proof.
  apply (one_path_one_symbol Examples.E_ok Examples.base
           "BTC" "https://www.tradingview.com/chart/?symbol=BINANCE%3ABTCUSDT"
           Examples.live
           (snd (Scraper.capture_screenshot Examples.E_ok Examples.base "BTC"
                   "https://www.tradingview.com/chart/?symbol=BINANCE%3ABTCUSDT"
                   Examples.live))
           "BTC" "u"
           Examples.live
           (snd (Scraper.capture_screenshot Examples.E_ok Examples.base "BTC" "u"
                   Examples.live))
           "/app/screenshots/BTC_20240315_093000.png").
  - reflexivity.
  - reflexivity.
  - reflexivity.
  - vm_compute. reflexivity.
  - vm_compute. reflexivity.
Defined.

End NameFacts.

(** ** The order of a start *)

Module StartFacts.
Import Py Spec Frame RuntimeFacts ScraperFacts FrameFacts PipelineFacts
  ShutdownFacts StopFacts.
Local Open Scope py_scope.

Lemma sends_try_finally A R (body : M A) fin :
  sends R body -> sends R fin -> sends R (try_finally body fin).
Proof.
  intros Hb Hf w. unfold try_finally. destruct (Hb w) as (t & Ht & HR).
  destruct (body w) as [[a|e|] w1]; simpl in *; eauto;
    destruct (Hf w1) as (t' & Ht' & HR');
    exists (t ++ t')%list; (split; [|apply Forall_app; auto]);
    destruct (fin w1) as [[[]|e'|] w2]; simpl in *;
    now rewrite Ht', Ht, app_assoc.
Qed.

Lemma sends_for_each A R (xs : list A) body :
  (forall x, sends R (body x)) -> sends R (for_each xs body).
Proof.
  intros Hb. induction xs as [|x xs IH]; simpl.
  - apply sends_ret.
  - apply sends_bind; auto.
Qed.

Lemma sends_silent A R (m : M A) :
  (forall w, trace (snd (m w)) = trace w) -> sends R m.
Proof. intros H w. exists []. now rewrite H, app_nil_r. Qed.

Ltac extend :=
  repeat first
    [ apply sends_logging | apply sends_ret | apply sends_raise
    | apply sends_call; exact I
    | apply sends_bind; [|intros ?]
    | apply sends_try_except; [|intros ?]
    | apply sends_try_finally
    | apply sends_silent; intros ?w; reflexivity ].

Section WithEnv.

Variable E : env.
Variable BASE_DIR : Pathlib.Path.
Variable SYMBOLS : Dict.t string.

Lemma sends_capture_screenshot symbol url :
  sends any_request (Scraper.capture_screenshot E BASE_DIR symbol url).
Proof.
  intros w. unfold Scraper.capture_screenshot.
  destruct (browser w) as [b|].
  - destruct (ScraperScriptFacts.sends_create E any_request (NewPage b) I w)
      as (t & Ht & HR).
    destruct (Scraper.create E (NewPage b) w) as [created w1]. simpl in Ht.
    assert (Hs : sends any_request
                   (try_finally
                      (Scraper.capture_guarded E BASE_DIR created symbol url)
                      (Scraper.close_page E
                         match created with Return p => Some p | _ => None end))).
    { apply sends_try_finally.
      - unfold Scraper.capture_guarded, Scraper.capture_body,
          Scraper._wait_for_chart_load, Scraper._configure_chart_view. extend.
      - destruct created; simpl; extend. }
    destruct (Hs w1) as (t' & Ht' & HR').
    exists (t ++ t')%list. split; [|apply Forall_app; auto].
    now rewrite Ht', Ht, app_assoc.
  - exists []. simpl. now rewrite app_nil_r.
Qed.

Lemma sends_capture_loop items results :
  sends any_request (Scraper.capture_loop E BASE_DIR items results).
Proof.
  revert results. induction items as [|[symbol url] items IH]; intros results.
  - apply sends_ret.
  - simpl. apply sends_bind; [|apply IH].
    unfold Scraper.capture_one. apply sends_try_except.
    + apply sends_bind; [apply sends_capture_screenshot | intros ?; apply sends_ret].
    + intros e. extend.
Qed.

Lemma sends_job :
  sends any_request (Pipeline.capture_screenshots_job E BASE_DIR SYMBOLS).
Proof.
  unfold Pipeline.capture_screenshots_job. apply sends_try_except.
  - apply sends_bind; [apply sends_logging | intros _].
    apply sends_bind; [apply sends_capture_loop | intros results].
    apply sends_bind; [apply sends_logging | intros _].
    apply sends_for_each. intros [symbol [p|]]; [|apply sends_logging].
    destruct (Pipeline.truthy (Some p)); apply sends_logging.
  - intros e. apply sends_logging.
Qed.

Lemma sends_idle_loop fuel : sends any_request (Pipeline.idle_loop E fuel).
Proof.
  induction fuel as [|fuel IH]; intros w; cbn [Pipeline.idle_loop];
    destruct (running w);
    try (exists []; simpl; now rewrite app_nil_r).
  apply (sends_bind _ _ _ (Scraper.call E (AsyncioSleep 1))
           (fun _ => Pipeline.idle_loop E fuel)); auto.
  now apply sends_call.
Qed.

Lemma sends_stop : sends any_request (Pipeline.stop E).
Proof.
  unfold Pipeline.stop.
  apply sends_bind; [apply sends_logging | intros _].
  apply sends_bind; [apply sends_silent; intros w; reflexivity | intros r].
  apply sends_bind; [destruct r; extend | intros _].
  apply sends_bind; [|intros _; apply sends_logging].
  intros w. unfold Scraper.close_browser. destruct (browser w) as [b|].
  - assert (Hs : sends any_request
                   (Scraper.call E (BrowserClose b) ;; Scraper.info "Browser closed"))
      by extend.
    apply Hs.
  - exists []. simpl. now rewrite app_nil_r.
Qed.

(** A start that gets as far as the initial capture. *)
Lemma start_body_reaches_capture fuel w :
  (forall i,
      i < 4 ->
      respond E (steps w + i) (fst (nth i STARTUP_TRACE (PlaywrightStart, None)))
      = None) ->
  exists w4,
    trace w4 = (trace w ++ STARTUP_TRACE)%list
    /\ Pipeline.start_body E BASE_DIR SYMBOLS fuel w
       = (Pipeline.capture_screenshots_job E BASE_DIR SYMBOLS ;;
          Pipeline.idle_loop E fuel) w4.
Proof.
  intros Hok.
  pose proof (Hok 0) as H0. pose proof (Hok 1) as H1.
  pose proof (Hok 2) as H2. pose proof (Hok 3) as H3.
  cbn [nth STARTUP_TRACE fst] in H0, H1, H2, H3.
  rewrite Nat.add_0_r in H0.
  replace (steps w + 1) with (S (steps w)) in H1 by lia.
  replace (steps w + 2) with (S (S (steps w))) in H2 by lia.
  replace (steps w + 3) with (S (S (S (steps w)))) in H3 by lia.
  specialize (H0 ltac:(lia)). specialize (H1 ltac:(lia)).
  specialize (H2 ltac:(lia)). specialize (H3 ltac:(lia)).
  unfold Pipeline.start_body.
  unfold bind at 1. unfold Pipeline.info at 1, logging at 1.
  set (w0 := add_log PipelineLogger INFO _ w).
  destruct (ScraperScriptFacts.start_browser_returns E w0 H0 H1)
    as (w1 & Hstart & _ & Hs1 & Ht1).
  cbn [steps trace add_log] in Hs1, Ht1. unfold w0 in Hs1, Ht1.
  cbn [steps trace add_log] in Hs1, Ht1.
  unfold bind at 1. rewrite Hstart.
  unfold bind at 1. unfold Scraper.call at 1.
  rewrite (answer_None E _ w1) by (rewrite Hs1; exact H2).
  unfold bind at 1. unfold Scraper.call at 1.
  rewrite (answer_None E _ (Scraper.after E _ w1))
    by (rewrite after_steps, Hs1; exact H3).
  unfold bind at 1. unfold bind at 1. unfold Pipeline.info at 1, logging at 1.
  unfold bind at 1. unfold Pipeline.info at 1, logging at 1.
  eexists. split; [|reflexivity].
  cbn [trace add_log set_running].
  rewrite !after_trace, Ht1.
  rewrite (answer_None E _ w1) by (rewrite Hs1; exact H2).
  rewrite (answer_None E _ (Scraper.after E _ w1))
    by (rewrite after_steps, Hs1; exact H3).
  rewrite <- !app_assoc. reflexivity.
Qed.

End WithEnv.

(** X19.  When the browser comes up and the job is registered, [start] has
    started the scheduler, with the job limited to one instance, before it
    opens the first page of the capture it awaits itself: its requests
    begin with start-up, launch, [add_job] and the scheduler's [start]. *)
Theorem scheduler_started_before_capture E BASE_DIR SYMBOLS fuel w :
  (forall i,
      i < 4 ->
      respond E (steps w + i) (fst (nth i STARTUP_TRACE (PlaywrightStart, None)))
      = None) ->
  exists rest,
    new_trace w (snd (Pipeline.start E BASE_DIR SYMBOLS fuel w))
    = (STARTUP_TRACE ++ rest)%list.
Proof.
  intros Hok.
  destruct (start_body_reaches_capture E BASE_DIR SYMBOLS fuel w Hok)
    as (w4 & Ht4 & Hbody).
  assert (Hrest : sends any_request
                    (Pipeline.capture_screenshots_job E BASE_DIR SYMBOLS ;;
                     Pipeline.idle_loop E fuel)).
  { apply sends_bind; [apply sends_job | intros _; apply sends_idle_loop]. }
  destruct (Hrest w4) as (t & Ht & _). rewrite <- Hbody in Ht.
  unfold Pipeline.start, try_finally.
  destruct (Pipeline.start_body E BASE_DIR SYMBOLS fuel w) as [r1 w1].
  cbn [snd] in Ht.
  destruct r1 as [[]|e|];
    [ | destruct (isinstance_KeyboardInterrupt e);
        [|destruct (isinstance_Exception e)] | ];
    unfold Pipeline.info, Pipeline.error, logging; cbv beta iota;
    try (match goal with
         | |- context [Pipeline.stop E ?wX] =>
             destruct (sends_stop E wX) as (t' & Ht' & _);
             destruct (Pipeline.stop E wX) as [[[]|e'|] w2]
         end; cbn [snd trace add_log] in Ht';
         exists (t ++ t')%list; apply new_trace_app; cbv beta iota; cbn [snd];
         now rewrite Ht', Ht, Ht4, <- !app_assoc).
  exists t. apply new_trace_app. cbn [snd]. now rewrite Ht, Ht4, <- app_assoc.
Qed.

Lemma scheduler_started_before_capture_witness :
  exists rest,
    new_trace initial_world
      (snd (Pipeline.start MoreExamples.E_sigint Examples.base
              Config.CRYPTO_SYMBOLS 5 initial_world))
    = (STARTUP_TRACE ++ rest)%list.
Proof.
  apply scheduler_started_before_capture. intros i Hi. reflexivity.
Defined.

(** X20.  The idle loop ends by a signal only: while the sleeps return and
    no signal arrives, it is still waiting when its turns are used up. *)
Theorem idle_loop_waits_for_signal E fuel w :
  running w = true ->
  undisturbed E (AsyncioSleep 1) (steps w) fuel ->
  fst (Pipeline.idle_loop E fuel w) = Diverge.
Proof.
  revert w. induction fuel as [|fuel IH]; intros w Hrun Hquiet;
    cbn [Pipeline.idle_loop]; rewrite Hrun; [reflexivity|].
  destruct (Hquiet 0) as [Hans Hsig]; [lia|].
  rewrite Nat.add_0_r in Hans, Hsig.
  unfold bind, Scraper.call. rewrite (answer_None E _ _ Hans).
  apply IH.
  - now rewrite after_running_quiet.
  - rewrite after_steps. intros j Hj. specialize (Hquiet (S j)).
    rewrite Nat.add_succ_r in Hquiet. apply Hquiet. lia.
Qed.

Lemma idle_loop_waits_for_signal_witness :
  fst (Pipeline.idle_loop Examples.E_ok 10 MoreExamples.idle) = Diverge.
Proof.
  apply idle_loop_waits_for_signal.
  - reflexivity.
  - intros j Hj. split; reflexivity.
Defined.

End StartFacts.
